(** * The content pipeline of unitedtribes-content-pipeline

    A shallow embedding of the pipeline core
    (src/shared/models.py, validator.py, fetcher.py, extractor.py,
    s3_uploader.py and src/articles/base_scraper.py) and the properties
    of it that the specification states.

    Conventions of the embedding.
    - A Python [str] is a Rocq [string]; [len] is [String.length].
    - A Python [float] is an exact rational ([Q]); the literals 0.3, 0.9,
      ... are the rationals 3/10, 9/10, ...  Rounding is not modelled.
    - A call that may raise returns an [outcome]: [Returned v] or
      [Raised e], where [e] is an instance of Python's [Exception].
      [try: ... except Exception:] is a match on the outcome.
    - Functions of the Python standard library and of third-party
      packages that the code calls (re, urllib.parse, datetime, json,
      hashlib, str.lower, ...) are the fields of a record [PyLib]; every
      general theorem holds for every such library.  [Demo.demo_lib] is
      an instance on ASCII text with which the model runs on concrete
      records.
    - What a function does to the world (the network, the parsed
      document, the object store, the statistics of a run) is explicit:
      it takes the state and returns the new one. *)

From Stdlib Require Import QArith Qround String Ascii List ZArith Lia Lqa.
From stdpp Require Import base option list strings gmap pretty.

Local Open Scope string_scope.
Local Open Scope list_scope.

(* ===================================================================== *)
(** ** Exceptions and results                                              *)
(* ===================================================================== *)

(** The exception classes that occur in the modelled code. *)
Inductive PyExn : Type :=
  | AttributeError (msg : string)
  | ValueError (msg : string)
  | ZeroDivisionError
  | NoCredentialsError
  | ClientError (code : string)
  | OtherException (msg : string).

(** [str(e)], as the log and error messages embed it. *)
Definition exn_str (e : PyExn) : string :=
  match e with
  | AttributeError msg => msg
  | ValueError msg => msg
  | ZeroDivisionError => "division by zero"
  | NoCredentialsError => "Unable to locate credentials"
  | ClientError code => "An error occurred (" +:+ code +:+ ")"
  | OtherException msg => msg
  end.

Inductive outcome (A : Type) : Type :=
  | Returned (a : A)
  | Raised (e : PyExn).
Arguments Returned {A} a.
Arguments Raised {A} e.

#[global] Instance outcome_ret : MRet outcome := λ A a, Returned a.
#[global] Instance outcome_bind : MBind outcome := λ A B f m,
  match m with
  | Returned a => f a
  | Raised e => Raised e
  end.

Definition returns {A} (m : outcome A) : Prop := ∃ a, m = Returned a.

(* ===================================================================== *)
(** ** Strings, the way the code uses them                                 *)
(* ===================================================================== *)

(** Python truthiness of a [str] and of an [Optional[str]]. *)
Definition str_truthy (s : string) : bool :=
  match s with EmptyString => false | _ => true end.

Definition opt_truthy (o : option string) : bool :=
  match o with Some s => str_truthy s | None => false end.

(** [needle in hay]. *)
Fixpoint str_in (needle hay : string) : bool :=
  String.prefix needle hay ||
  match hay with
  | EmptyString => false
  | String _ hay' => str_in needle hay'
  end.

(** [s.split(sep)] for a one-character separator. *)
Fixpoint str_split (sep : ascii) (s : string) : list string :=
  match s with
  | EmptyString => [EmptyString]
  | String a s' =>
      if Ascii.eqb a sep then EmptyString :: str_split sep s'
      else match str_split sep s' with
           | h :: t => String a h :: t
           | [] => [String a EmptyString]
           end
  end.

(** [s.rsplit(sep, 1)]: [None] when [sep] does not occur, else the text
    before and after its last occurrence. *)
Fixpoint str_rsplit1 (sep : ascii) (s : string) : option (string * string) :=
  match s with
  | EmptyString => None
  | String a s' =>
      match str_rsplit1 sep s' with
      | Some (l, r) => Some (String a l, r)
      | None => if Ascii.eqb a sep then Some (EmptyString, s') else None
      end
  end.

(** [s.replace(old, new)] for a one-character [old]. *)
Fixpoint str_replace (old : ascii) (new : string) (s : string) : string :=
  match s with
  | EmptyString => EmptyString
  | String a s' =>
      (if Ascii.eqb a old then new else String a EmptyString)
        +:+ str_replace old new s'
  end.

(** [len(s)], as an integer. *)
Definition len (s : string) : Z := Z.of_nat (String.length s).

(** [s[:n]]. *)
Definition str_take (n : nat) (s : string) : string := String.substring 0 n s.

(** [s.rstrip(c)] and [s.strip(c)] for a one-character set. *)
Fixpoint str_rstrip (c : ascii) (s : string) : string :=
  match s with
  | EmptyString => EmptyString
  | String a s' =>
      match str_rstrip c s' with
      | EmptyString => if Ascii.eqb a c then EmptyString else String a EmptyString
      | r => String a r
      end
  end.

Fixpoint str_lstrip (c : ascii) (s : string) : string :=
  match s with
  | EmptyString => EmptyString
  | String a s' => if Ascii.eqb a c then str_lstrip c s' else s
  end.

Definition str_strip (c : ascii) (s : string) : string :=
  str_rstrip c (str_lstrip c s).

Definition str_startswith (p s : string) : bool := String.prefix p s.

(** [f"{n:0{w}d}"]: decimal, padded with zeros to width [w]. *)
Fixpoint zeros (n : nat) : string :=
  match n with O => EmptyString | S n' => String "0" (zeros n') end.

Definition zfill (w n : nat) : string :=
  let d := pretty n in zeros (w - String.length d) +:+ d.

(** The double quote, which the citation format embeds. *)
Definition dquote : string := String (ascii_of_nat 34) EmptyString.

(** [sum(xs)] over floats, and an [int] as a float. *)
Definition Qsum (xs : list Q) : Q := fold_left Qplus xs 0%Q.
Definition Qnat (n : nat) : Q := inject_Z (Z.of_nat n).
Definition Qint (z : Z) : Q := inject_Z z.

(** [x < y] on floats, as a boolean. *)
Definition Qltb (x y : Q) : bool := negb (Qle_bool y x).

(* ===================================================================== *)
(** ** models.py                                                            *)
(* ===================================================================== *)

(** JSON-like Python values, for the dictionaries the code builds. *)
#[warnings="-register-all"]
Inductive PyValue : Type :=
  | PyNone
  | PyStr (s : string)
  | PyBool (b : bool)
  | PyInt (z : Z)
  | PyFloat (q : Q)
  | PyDict (d : list (string * PyValue)).

Definition py_truthy (v : PyValue) : bool :=
  match v with
  | PyNone => false
  | PyStr s => str_truthy s
  | PyBool b => b
  | PyInt z => negb (z =? 0)%Z
  | PyFloat q => negb (Qeq_bool q 0)
  | PyDict d => match d with [] => false | _ => true end
  end.

(** [d.get(k)] and [k in d] on a dictionary kept as an association list. *)
Fixpoint dict_get (d : list (string * PyValue)) (k : string) : PyValue :=
  match d with
  | [] => PyNone
  | (k', v) :: d' => if String.eqb k' k then v else dict_get d' k
  end.

Definition dict_has (d : list (string * PyValue)) (k : string) : bool :=
  existsb (λ kv, String.eqb (fst kv) k) d.

Definition py_opt_str (o : option string) : PyValue :=
  match o with Some s => PyStr s | None => PyNone end.

Record datetime : Type := mk_datetime {
  year : nat; month : nat; day : nat;
  hour : nat; minute : nat; second : nat
}.

(** The [strftime] formats the code uses, and [isoformat]. *)
Definition strftime_Ymd_slash (t : datetime) : string :=
  zfill 4 (year t) +:+ "/" +:+ zfill 2 (month t) +:+ "/" +:+ zfill 2 (day t).
Definition strftime_Ymd_HM (t : datetime) : string :=
  zfill 4 (year t) +:+ zfill 2 (month t) +:+ zfill 2 (day t) +:+ "_"
    +:+ zfill 2 (hour t) +:+ zfill 2 (minute t).
Definition strftime_Ymd_HMS (t : datetime) : string :=
  strftime_Ymd_HM t +:+ zfill 2 (second t).
Definition isoformat (t : datetime) : string :=
  zfill 4 (year t) +:+ "-" +:+ zfill 2 (month t) +:+ "-" +:+ zfill 2 (day t) +:+ "T"
    +:+ zfill 2 (hour t) +:+ ":" +:+ zfill 2 (minute t) +:+ ":" +:+ zfill 2 (second t).

Inductive ContentType : Type :=
  | ARTICLE | REVIEW | INTERVIEW | NEWS | PODCAST_TRANSCRIPT | PODCAST_EPISODE.

Definition ContentType_value (t : ContentType) : string :=
  match t with
  | ARTICLE => "article"
  | REVIEW => "review"
  | INTERVIEW => "interview"
  | NEWS => "news"
  | PODCAST_TRANSCRIPT => "podcast_transcript"
  | PODCAST_EPISODE => "podcast_episode"
  end.

Inductive Source : Type :=
  | BILLBOARD | ROLLING_STONE | PITCHFORK | NPR | SPOTIFY | APPLE_PODCASTS | SUBSTACK.

Definition Source_value (s : Source) : string :=
  match s with
  | BILLBOARD => "billboard"
  | ROLLING_STONE => "rolling_stone"
  | PITCHFORK => "pitchfork"
  | NPR => "npr"
  | SPOTIFY => "spotify"
  | APPLE_PODCASTS => "apple_podcasts"
  | SUBSTACK => "substack"
  end.

Definition Source_members : list Source :=
  [BILLBOARD; ROLLING_STONE; PITCHFORK; NPR; SPOTIFY; APPLE_PODCASTS; SUBSTACK].

(** [Source(value)]: the member with that value, else [ValueError]. *)
Definition Source_of_value (v : string) : outcome Source :=
  match find (λ s, String.eqb (Source_value s) v) Source_members with
  | Some s => Returned s
  | None => Raised (ValueError ("'" +:+ v +:+ "' is not a valid Source"))
  end.

Record SourceAttribution : Type := mk_SourceAttribution {
  source : string;
  sa_title : string;
  sa_url : string;
  author : option string;
  publication_date : option string;
  publication_type : string;
  sa_content_type : option string;
  episode_info : option (list (string * PyValue))
}.

(** [SourceAttribution.to_citation_format]. *)
Definition to_citation_format (a : SourceAttribution) : string :=
  let base := "[Source: " +:+ dquote +:+ source a +:+ dquote in
  let base :=
    if str_truthy (sa_title a) && (len (sa_title a) <? 60)%Z
    then base +:+ ", " +:+ dquote +:+ sa_title a +:+ dquote
    else base in
  base +:+ "]".

(** [ScrapedContent].  The fields have the types of their annotations:
    [confidence_score] is a float (never [None]), [source_attribution]
    and the two derived strings are optional. *)
Record ScrapedContent : Type := mk_ScrapedContent {
  sc_id : string;
  url : string;
  title : string;
  content : string;
  content_type : ContentType;
  source_attribution : option SourceAttribution;
  scraped_at : datetime;
  confidence_score : Q;
  word_count : nat;
  extraction_method : string;
  validation_passed : bool;
  s3_key : option string;
  content_hash : option string
}.

Definition set_s3_key (k : option string) (c : ScrapedContent) : ScrapedContent :=
  mk_ScrapedContent (sc_id c) (url c) (title c) (content c) (content_type c)
    (source_attribution c) (scraped_at c) (confidence_score c) (word_count c)
    (extraction_method c) (validation_passed c) k (content_hash c).

Definition set_validation (p : bool) (s : Q) (c : ScrapedContent) : ScrapedContent :=
  mk_ScrapedContent (sc_id c) (url c) (title c) (content c) (content_type c)
    (source_attribution c) (scraped_at c) s (word_count c)
    (extraction_method c) p (s3_key c) (content_hash c).

(** The library functions the code calls.  [re_search p s] stands for
    [re.search(p, s) is not None], [re_group1 p flags s] for group 1 of
    the first match ([flags] is [true] under [re.IGNORECASE]),
    [urlparse] for the scheme and the netloc of [urllib.parse.urlparse]
    (which raises [ValueError] on some malformed hosts), [fromisoformat]
    for whether [datetime.fromisoformat] accepts the text. *)
Record PyLib : Type := mk_PyLib {
  str_lower : string → string;
  str_strip_ws : string → string;
  str_split_ws : string → list string;
  re_search : string → string → bool;
  re_sub : string → string → string → string;
  re_group1 : string → bool → string → option string;
  urlparse : string → outcome (string * string);
  urlparse_path : string → string;
  fromisoformat : string → bool;
  json_dumps : list (string * PyValue) → outcome string;
  json_loads : string → outcome unit;
  sha256_hexdigest : string → string;
  format_percent2 : Q → string;
  format_fixed2 : Q → string
}.

Section Models.
Context (lib : PyLib).

(** [str(x)] of an [Optional[str]] inside an f-string. *)
Definition fmt_opt (o : option string) : string :=
  match o with Some s => s | None => "None" end.

(** [ScrapedContent.__post_init__], applied by the constructor to the
    fields it was given. *)
Definition ScrapedContent__post_init__ (self : ScrapedContent) : ScrapedContent :=
  let '(wc, h) :=
    if str_truthy (content self)
    then (length (str_split_ws lib (content self)),
          Some (str_take 16 (sha256_hexdigest lib (content self))))
    else (word_count self, content_hash self) in
  let key :=
    match source_attribution self with
    | Some sa =>
        if negb (opt_truthy (s3_key self)) then
          let date_str := strftime_Ymd_slash (scraped_at self) in
          let source := str_replace " " "_" (str_lower lib (source sa)) in
          Some ("scraped-content/" +:+ source +:+ "/" +:+ date_str
                  +:+ "/content-" +:+ fmt_opt h +:+ ".json")
        else s3_key self
    | None => s3_key self
    end in
  mk_ScrapedContent (sc_id self) (url self) (title self) (content self)
    (content_type self) (source_attribution self) (scraped_at self)
    (confidence_score self) wc (extraction_method self)
    (validation_passed self) key h.

(** [ScrapedContent.to_v3_format]; the attribute accesses on
    [self.source_attribution] raise when it is [None]. *)
Definition to_v3_format (self : ScrapedContent) : outcome (list (string * PyValue)) :=
  match source_attribution self with
  | None => Raised (AttributeError "'NoneType' object has no attribute 'source'")
  | Some sa =>
      Returned
        [ ("id", PyStr (sc_id self));
          ("url", PyStr (url self));
          ("title", PyStr (title self));
          ("content", PyStr (content self));
          ("content_type", PyStr (ContentType_value (content_type self)));
          ("source_attribution",
            PyDict [ ("source", PyStr (source sa));
                     ("title", PyStr (sa_title sa));
                     ("url", PyStr (sa_url sa));
                     ("author", py_opt_str (author sa));
                     ("publication_date", py_opt_str (publication_date sa));
                     ("publication_type", PyStr (publication_type sa));
                     ("content_type", py_opt_str (sa_content_type sa));
                     ("episode_info",
                       match episode_info sa with
                       | Some d => PyDict d
                       | None => PyNone
                       end) ]);
          ("metadata",
            PyDict [ ("scraped_at", PyStr (isoformat (scraped_at self)));
                     ("confidence_score", PyFloat (confidence_score self));
                     ("word_count", PyInt (Z.of_nat (word_count self)));
                     ("extraction_method", PyStr (extraction_method self));
                     ("validation_passed", PyBool (validation_passed self));
                     ("content_hash", py_opt_str (content_hash self)) ]);
          ("s3_key", py_opt_str (s3_key self)) ]
  end.
End Models.

Record ScrapingBatch : Type := mk_ScrapingBatch {
  batch_id : string;
  batch_source : option Source;
  content_items : list ScrapedContent;
  created_at : datetime;
  total_discovered : nat;
  total_scraped : nat;
  success_rate : Q;
  manifest_s3_key : option string
}.

(** [ScrapingBatch.__post_init__]. *)
Definition ScrapingBatch__post_init__ (self : ScrapingBatch) : ScrapingBatch :=
  let scraped := length (content_items self) in
  let rate :=
    if (0 <? total_discovered self)%nat
    then (Qnat scraped / Qnat (total_discovered self))%Q
    else success_rate self in
  let key :=
    if negb (opt_truthy (manifest_s3_key self)) then
      let date_str := strftime_Ymd_slash (created_at self) in
      let source_name :=
        match batch_source self with
        | Some s => Source_value s
        | None => "unknown"
        end in
      Some ("manifests/scraped/" +:+ source_name +:+ "/" +:+ date_str
              +:+ "/batch-" +:+ batch_id self +:+ ".json")
    else manifest_s3_key self in
  mk_ScrapingBatch (batch_id self) (batch_source self) (content_items self)
    (created_at self) (total_discovered self) scraped rate key.

(* ===================================================================== *)
(** ** validator.py                                                         *)
(* ===================================================================== *)

Record ValidationResult : Type := mk_ValidationResult {
  passed : bool;
  score : Q;
  errors : list string;
  warnings : list string;
  metadata : list (string * PyValue)
}.

Record DataLakeCompatibilityCheck : Type := mk_DataLakeCompatibilityCheck {
  compatible : bool;
  format_version : string;
  schema_valid : bool;
  citation_quality : Q;
  processing_safe : bool;
  dl_errors : list string
}.

(** The attributes set by [ContentValidator.__init__]. *)
Record ContentValidator : Type := mk_ContentValidator {
  min_content_length : Z;
  max_content_length : Z;
  min_title_length : Z;
  max_title_length : Z;
  required_fields : list string;
  required_source_fields : list string;
  suspicious_patterns : list string;
  valid_sources : list string
}.

Definition ContentValidator__init__ : ContentValidator :=
  {| min_content_length := 200%Z;
     max_content_length := 50000%Z;
     min_title_length := 5%Z;
     max_title_length := 200%Z;
     required_fields := ["id"; "url"; "title"; "content"; "source_attribution"];
     required_source_fields := ["source"; "title"; "url"];
     suspicious_patterns :=
       [ "404 not found";
         "access denied";
         "please enable javascript";
         "robot.*detected";
         "captcha";
         "cloudflare";
         "subscription required";
         "sign in to continue";
         "this content is not available" ];
     valid_sources :=
       [ "Billboard"; "Rolling Stone"; "Pitchfork"; "NPR"; "Sound Opinions";
         "All Songs Considered"; "Fresh Air"; "Spotify"; "Apple Podcasts" ] |}.

Definition music_keywords : list string :=
  [ "music"; "album"; "song"; "artist"; "band"; "musician"; "singer";
    "concert"; "tour"; "festival"; "record"; "recording"; "studio";
    "genre"; "jazz"; "rock"; "pop"; "hip-hop"; "classical"; "folk";
    "guitar"; "piano"; "drums"; "vocals"; "lyrics"; "melody" ].

(** [getattr(attribution, field, None)] for the fields the code asks. *)
Definition sa_getattr (a : SourceAttribution) (field : string) : PyValue :=
  if String.eqb field "source" then PyStr (source a)
  else if String.eqb field "title" then PyStr (sa_title a)
  else if String.eqb field "url" then PyStr (sa_url a)
  else PyNone.

(** [xs] extended by [x] when [b] holds: an [if b: xs.append(x)]. *)
Definition append_if {A} (b : bool) (x : A) (xs : list A) : list A :=
  if b then xs ++ [x] else xs.

(** [score *= f] when [b] holds. *)
Definition scale_if (b : bool) (f : Q) (s : Q) : Q :=
  if b then (s * f)%Q else s.

Section Validator.
Context (lib : PyLib).

(** [ContentValidator._validate_structure]. *)
Definition _validate_structure (self : ContentValidator) (c : ScrapedContent)
  : outcome ValidationResult :=
  content_dict ← to_v3_format c;
  let errors :=
    flat_map (λ field,
      if negb (py_truthy (dict_get content_dict field))
      then ["Missing required field: " +:+ field] else [])
      (required_fields self) in
  let errors :=
    match source_attribution c with
    | Some sa =>
        errors ++
        flat_map (λ field,
          if negb (py_truthy (sa_getattr sa field))
          then ["Missing source attribution field: " +:+ field] else [])
          (required_source_fields self)
    | None => errors
    end in
  let errors :=
    append_if (negb (Qle_bool 0 (confidence_score c) && Qle_bool (confidence_score c) 1))
      "Confidence score must be between 0.0 and 1.0" errors in
  errors ←
    (if str_truthy (url c) then
       parsed ← urlparse lib (url c);
       mret (append_if (negb (str_truthy (fst parsed)) || negb (str_truthy (snd parsed)))
               "Invalid URL format" errors)
     else mret errors);
  mret {| passed := (length errors =? 0)%nat;
          score := if (length errors =? 0)%nat then 1%Q else 0%Q;
          errors := errors;
          warnings := [];
          metadata := [] |}.

(** The first pattern of the list that the text matches: the loop with
    [break] over [self.suspicious_patterns]. *)
Definition first_suspicious (self : ContentValidator) (content_lower : string)
  : option string :=
  find (λ pattern, re_search lib pattern content_lower) (suspicious_patterns self).

(** [ContentValidator._validate_content_quality]. *)
Definition _validate_content_quality (self : ContentValidator) (c : ScrapedContent)
  : outcome ValidationResult :=
  let errors := [] in
  let warnings := [] in
  let score := 1%Q in
  (* Length validation *)
  let too_short := (len (content c) <? min_content_length self)%Z in
  let errors :=
    append_if too_short
      ("Content too short: " +:+ pretty (len (content c)) +:+ " chars (min: "
         +:+ pretty (min_content_length self) +:+ ")") errors in
  let score := scale_if too_short (3 # 10) score in
  let too_long := (max_content_length self <? len (content c))%Z in
  let warnings :=
    append_if too_long
      ("Content very long: " +:+ pretty (len (content c)) +:+ " chars") warnings in
  let score := scale_if too_long (9 # 10) score in
  let title_short := (len (title c) <? min_title_length self)%Z in
  let errors :=
    append_if title_short
      ("Title too short: " +:+ pretty (len (title c)) +:+ " chars") errors in
  let score := scale_if title_short (5 # 10) score in
  let title_long := (max_title_length self <? len (title c))%Z in
  let warnings := append_if title_long "Title very long" warnings in
  let score := scale_if title_long (9 # 10) score in
  (* Suspicious patterns: at most one is reported *)
  let content_lower := str_lower lib (content c) in
  let '(errors, score) :=
    match first_suspicious self content_lower with
    | Some pattern =>
        (errors ++ ["Suspicious content pattern detected: " +:+ pattern],
         (score * (2 # 10))%Q)
    | None => (errors, score)
    end in
  (* Content diversity *)
  let unique_sentences :=
    size (list_to_set (str_split "." (content c)) : gset string) in
  let total_sentences := length (str_split "." (content c)) in
  let repetitive :=
    (10 <? total_sentences)%nat
    && Qltb (Qnat unique_sentences / Qnat total_sentences) (5 # 10) in
  let warnings := append_if repetitive "Content appears repetitive" warnings in
  let score := scale_if repetitive (8 # 10) score in
  (* Text ratio: the division raises on an empty body *)
  if (len (content c) =? 0)%Z then Raised ZeroDivisionError
  else
    let text_ratio :=
      (Qint (len (re_sub lib "[^a-zA-Z\s]" "" (content c))) / Qint (len (content c)))%Q in
    let low_ratio := Qltb text_ratio (6 # 10) in
    let warnings :=
      append_if low_ratio
        "Low text content ratio - may contain too much markup" warnings in
    let score := scale_if low_ratio (9 # 10) score in
    mret {| passed := (length errors =? 0)%nat;
            score := score;
            errors := errors;
            warnings := warnings;
            metadata := [] |}.

(** [ContentValidator._validate_source_attribution]. *)
Definition _validate_source_attribution (self : ContentValidator)
    (attribution : option SourceAttribution) : outcome ValidationResult :=
  match attribution with
  | None =>
      mret {| passed := false; score := 0%Q;
              errors := ["Missing source attribution"];
              warnings := []; metadata := [] |}
  | Some a =>
      let errors := [] in
      let warnings := [] in
      let score := 1%Q in
      let unknown := negb (existsb (String.eqb (source a)) (valid_sources self)) in
      let warnings := append_if unknown ("Unknown source: " +:+ source a) warnings in
      let score := scale_if unknown (9 # 10) score in
      let citation := to_citation_format a in
      let errors := append_if (len citation <? 10)%Z "Citation format too short" errors in
      let cite_long := (150 <? len citation)%Z in
      let warnings := append_if cite_long "Citation format very long" warnings in
      let score := scale_if cite_long (9 # 10) score in
      errors ←
        (if str_truthy (sa_url a) then
           parsed ← urlparse lib (sa_url a);
           mret (append_if (negb (str_truthy (fst parsed)) || negb (str_truthy (snd parsed)))
                   "Invalid attribution URL" errors)
         else mret errors);
      let bad_date :=
        match publication_date a with
        | Some d => str_truthy d && negb (fromisoformat lib (str_replace "Z" "+00:00" d))
        | None => false
        end in
      let warnings := append_if bad_date "Invalid publication date format" warnings in
      let score := scale_if bad_date (9 # 10) score in
      mret {| passed := (length errors =? 0)%nat;
              score := score;
              errors := errors;
              warnings := warnings;
              metadata := [] |}
  end.

(** The number of music keywords that occur in title and body. *)
Definition music_mentions (c : ScrapedContent) : nat :=
  let content_lower := str_lower lib (title c +:+ " " +:+ content c) in
  length (filter (λ keyword, str_in keyword content_lower = true) music_keywords).

(** [ContentValidator._validate_music_relevance]. *)
Definition _validate_music_relevance (c : ScrapedContent) : ValidationResult :=
  let n := music_mentions c in
  if (n =? 0)%nat then
    {| passed := true; score := (1 * (5 # 10))%Q; errors := [];
       warnings := ["No music-related keywords found"]; metadata := [] |}
  else if (n <? 3)%nat then
    {| passed := true; score := (1 * (8 # 10))%Q; errors := [];
       warnings := ["Limited music relevance"]; metadata := [] |}
  else
    {| passed := true; score := 1%Q; errors := []; warnings := []; metadata := [] |}.

(** [ContentValidator._validate_data_lake_compatibility]: the whole
    body is inside [try: ... except Exception]. *)
Definition _validate_data_lake_compatibility (c : ScrapedContent)
  : DataLakeCompatibilityCheck :=
  let attempt : outcome (list string) :=
    v3_format ← to_v3_format c;
    json_str ← json_dumps lib v3_format;
    _ ← json_loads lib json_str;
    let errors :=
      flat_map (λ field,
        if negb (dict_has v3_format field)
        then ["Missing v3 format field: " +:+ field] else [])
        ["id"; "source_attribution"; "metadata"] in
    let errors :=
      append_if
        (dict_has v3_format "source_attribution" &&
         negb match dict_get v3_format "source_attribution" with
              | PyDict _ => true
              | _ => false
              end)
        "source_attribution must be a dictionary" errors in
    let errors :=
      match source_attribution c with
      | Some sa =>
          append_if (negb (str_startswith "[Source:" (to_citation_format sa)))
            "Invalid citation format" errors
      | None => errors
      end in
    mret errors in
  match attempt with
  | Returned errors =>
      {| compatible := (length errors =? 0)%nat;
         format_version := "v3";
         schema_valid := (length errors =? 0)%nat;
         citation_quality := if (length errors =? 0)%nat then 1%Q else (5 # 10)%Q;
         processing_safe := true;
         dl_errors := errors |}
  | Raised e =>
      {| compatible := false;
         format_version := "v3";
         schema_valid := false;
         citation_quality := 0%Q;
         processing_safe := false;
         dl_errors := ["Data lake compatibility test failed: " +:+ exn_str e] |}
  end.

(** [ContentValidator.validate_scraped_content]. *)
Definition validate_scraped_content (self : ContentValidator) (c : ScrapedContent)
  : outcome ValidationResult :=
  let errs := [] in
  let warns := [] in
  let total := 1%Q in
  (* 1. Basic structure validation *)
  structure_result ← _validate_structure self c;
  let errs :=
    if negb (passed structure_result) then errs ++ errors structure_result
    else errs in
  let total := scale_if (negb (passed structure_result)) (3 # 10) total in
  (* 2. Content quality validation *)
  quality_result ← _validate_content_quality self c;
  let total := (total * score quality_result)%Q in
  let warns := warns ++ warnings quality_result in
  let errs :=
    if negb (passed quality_result) then errs ++ errors quality_result
    else errs in
  (* 3. Source attribution validation *)
  attribution_result ← _validate_source_attribution self (source_attribution c);
  let total := (total * score attribution_result)%Q in
  let errs :=
    if negb (passed attribution_result) then errs ++ errors attribution_result
    else errs in
  (* 4. Music relevance validation *)
  let relevance_result := _validate_music_relevance c in
  let total := (total * score relevance_result)%Q in
  let warns := warns ++ warnings relevance_result in
  (* 5. Data lake compatibility check *)
  let compatibility_result := _validate_data_lake_compatibility c in
  let errs :=
    if negb (compatible compatibility_result)
    then errs ++ dl_errors compatibility_result else errs in
  let total := scale_if (negb (compatible compatibility_result)) (2 # 10) total in
  mret {| passed := (length errs =? 0)%nat && Qltb (5 # 10) total;
          score := total;
          errors := errs;
          warnings := warns;
          metadata :=
            [ ("structure_valid", PyBool (passed structure_result));
              ("quality_score", PyFloat (score quality_result));
              ("attribution_score", PyFloat (score attribution_result));
              ("relevance_score", PyFloat (score relevance_result));
              ("data_lake_compatible", PyBool (compatible compatibility_result)) ] |}.

(** The accumulators of the loop of [validate_batch]. *)
Record batch_acc : Type := mk_batch_acc {
  item_scores : list Q;
  total_errors : nat;
  acc_errors : list string;
  acc_warnings : list string
}.

Definition item_prefix (i : nat) (msg : string) : string :=
  "Item " +:+ pretty i +:+ ": " +:+ msg.

(** [for i, item in enumerate(batch.content_items): ...]; an exception
    of [validate_scraped_content] leaves the loop. *)
Fixpoint validate_items (self : ContentValidator) (i : nat)
    (items : list ScrapedContent) (acc : batch_acc) : outcome batch_acc :=
  match items with
  | [] => mret acc
  | item :: rest =>
      result ← validate_scraped_content self item;
      let acc :=
        {| item_scores := item_scores acc ++ [score result];
           total_errors :=
             if negb (passed result) then total_errors acc + 1 else total_errors acc;
           acc_errors :=
             if negb (passed result)
             then acc_errors acc ++ map (item_prefix i) (errors result)
             else acc_errors acc;
           acc_warnings := acc_warnings acc ++ map (item_prefix i) (warnings result) |} in
      validate_items self (S i) rest acc
  end.

(** [ContentValidator.validate_batch]. *)
Definition validate_batch (self : ContentValidator) (batch : ScrapingBatch)
  : outcome ValidationResult :=
  match content_items batch with
  | [] =>
      mret {| passed := false; score := 0%Q;
              errors := ["Batch contains no content items"];
              warnings := []; metadata := [] |}
  | _ =>
      acc ← validate_items self 0 (content_items batch)
              {| item_scores := []; total_errors := 0;
                 acc_errors := []; acc_warnings := [] |};
      let n := length (content_items batch) in
      let avg_score :=
        match item_scores acc with
        | [] => 0%Q
        | _ => (Qsum (item_scores acc) / Qnat (length (item_scores acc)))%Q
        end in
      let success_rate := (Qint (Z.of_nat n - Z.of_nat (total_errors acc)) / Qnat n)%Q in
      let errors :=
        append_if (Qltb success_rate (7 # 10))
          ("Batch success rate too low: " +:+ format_percent2 lib success_rate)
          (acc_errors acc) in
      let errors :=
        append_if (Qltb avg_score (6 # 10))
          ("Batch average quality too low: " +:+ format_fixed2 lib avg_score)
          errors in
      mret {| passed := (length errors =? 0)%nat;
              score := (avg_score * success_rate)%Q;
              errors := errors;
              warnings := acc_warnings acc;
              metadata :=
                [ ("items_count", PyInt (Z.of_nat n));
                  ("success_rate", PyFloat success_rate);
                  ("avg_quality", PyFloat avg_score);
                  ("total_errors", PyInt (Z.of_nat (total_errors acc))) ] |}
  end.

(** The set of source names of a batch:
    [set(item.source_attribution.source for item in ... if item.source_attribution)]. *)
Definition batch_sources (batch : ScrapingBatch) : gset string :=
  list_to_set (omap (λ item, source <$> source_attribution item) (content_items batch)).

(** [SafetyChecker.pre_processing_safety_check]; the checker's
    validator is [self]. *)
Definition pre_processing_safety_check (self : ContentValidator) (batch : ScrapingBatch)
  : outcome (bool * list string) :=
  let errs := [] in
  batch_result ← validate_batch self batch;
  let errs :=
    if negb (passed batch_result) then errs ++ errors batch_result else errs in
  let n := length (content_items batch) in
  let errs :=
    append_if (100 <? n)%nat
      ("Batch too large: " +:+ pretty n +:+ " items (max: 100)") errs in
  let errs :=
    append_if (1 <? size (batch_sources batch))%nat
      "Mixed sources in single batch - should be separated" errs in
  let safe := (length errs =? 0)%nat in
  mret (safe, errs).
End Validator.

(* ===================================================================== *)
(** ** fetcher.py                                                           *)
(* ===================================================================== *)

Record FetchResult : Type := mk_FetchResult {
  success : bool;
  fr_content : option string;
  status_code : option Z;
  fr_url : string;
  final_url : string;
  method : string;
  error_message : option string;
  fr_metadata : list (string * PyValue)
}.

Section Fetcher.
(** The network, as the fetcher sees it: a retrieval strategy reads and
    advances the state of the world (remote sites, the rate limiter's
    clock) and returns a result or raises. *)
Context {World : Type}.

Definition fetch_strategy : Type := string → World → outcome FetchResult * World.

(** An [EnhancedFetcher] with its four retrieval methods. *)
Record EnhancedFetcher : Type := mk_EnhancedFetcher {
  _fetch_direct : fetch_strategy;
  _fetch_via_archive_ph : fetch_strategy;
  _fetch_via_archive_org : fetch_strategy;
  _fetch_via_google_cache : fetch_strategy
}.

(** [result.success and result.content and len(result.content) > 500]. *)
Definition fetch_accepted (result : FetchResult) : bool :=
  success result
  && opt_truthy (fr_content result)
  && match fr_content result with
     | Some text => (500 <? len text)%Z
     | None => false
     end.

Definition all_strategies_failed (url : string) : FetchResult :=
  {| success := false; fr_content := None; status_code := None;
     fr_url := url; final_url := ""; method := "none";
     error_message := Some "All fetch strategies failed";
     fr_metadata := [] |}.

(** The loop of [fetch_with_fallbacks] over the remaining strategies;
    [invoked] lists the names of the strategies called so far. *)
Fixpoint fetch_loop (strategies : list (string * fetch_strategy)) (url : string)
    (w : World) (invoked : list string)
  : outcome FetchResult * World * list string :=
  match strategies with
  | [] => (Returned (all_strategies_failed url), w, invoked)
  | (name, strategy) :: rest =>
      let '(o, w') := strategy url w in
      let invoked := invoked ++ [name] in
      match o with
      | Returned result =>
          if fetch_accepted result then (Returned result, w', invoked)
          else fetch_loop rest url w' invoked
      | Raised e => fetch_loop rest url w' invoked
      end
  end.

Definition fetch_strategies (self : EnhancedFetcher) : list (string * fetch_strategy) :=
  [ ("_fetch_direct", _fetch_direct self);
    ("_fetch_via_archive_ph", _fetch_via_archive_ph self);
    ("_fetch_via_archive_org", _fetch_via_archive_org self);
    ("_fetch_via_google_cache", _fetch_via_google_cache self) ].

(** [EnhancedFetcher.fetch_with_fallbacks]. *)
Definition fetch_with_fallbacks (self : EnhancedFetcher) (url : string) (w : World)
  : outcome FetchResult * World * list string :=
  fetch_loop (fetch_strategies self) url w [].

(** Whether the outcome of one strategy ends the cascade. *)
Definition fetch_hit (o : outcome FetchResult) : bool :=
  match o with
  | Returned result => fetch_accepted result
  | Raised _ => false
  end.
End Fetcher.

(* ===================================================================== *)
(** ** extractor.py                                                         *)
(* ===================================================================== *)

Record ExtractionResult : Type := mk_ExtractionResult {
  er_success : bool;
  er_content : option ScrapedContent;
  confidence : Q;
  er_method : string;
  er_errors : list string
}.

(** The [content_data] dictionary of the extraction strategies. *)
Record content_data : Type := mk_content_data {
  cd_title : option string;
  cd_content : option string;
  cd_author : option string;
  cd_date : option string
}.

Definition content_type_patterns : list (ContentType * list string) :=
  [ (REVIEW, ["review"; "album review"; "music review"; "rating"]);
    (INTERVIEW, ["interview"; "q&a"; "talks about"; "conversation with"]);
    (NEWS, ["news"; "breaking"; "announces"; "released"]);
    (PODCAST_TRANSCRIPT, ["transcript"; "fresh air"; "npr"]) ].

Section Extractor.
Context (lib : PyLib).
(** The parsed document ([BeautifulSoup]); the strategies mutate it
    ([decompose]), so each one returns the document it leaves. *)
Context {Soup : Type}.

(** What the strategies read from the document, and what the record
    constructor draws from its environment (a fresh identifier and the
    time). *)
Record Document : Type := mk_Document {
  BeautifulSoup : string → Soup;
  structured_fields : Soup → outcome content_data * Soup;
  semantic_fields : Soup → outcome content_data * Soup;
  generic_fields : Soup → outcome content_data * Soup;
  fallback_fields : Soup → outcome (option string * option string) * Soup;
  new_ulid : string;
  utcnow : datetime
}.

Context (doc : Document).

(** [EnhancedContentExtractor._detect_content_type]. *)
Definition _detect_content_type (title content url : string) : ContentType :=
  let title_lower := if str_truthy title then str_lower lib title else "" in
  let content_lower := if str_truthy content then str_lower lib content else "" in
  let url_lower := str_lower lib url in
  let hit pattern :=
    str_in pattern title_lower || str_in pattern url_lower
    || str_in pattern (str_take 500 content_lower) in
  match find (λ entry, existsb hit (snd entry)) content_type_patterns with
  | Some entry => fst entry
  | None => ARTICLE
  end.

(** [EnhancedContentExtractor._build_scraped_content]. *)
Definition _build_scraped_content (data : content_data) (url source_name : string)
  : ScrapedContent :=
  let title := default "" (cd_title data) in
  let content_text := default "" (cd_content data) in
  let content_type := _detect_content_type title content_text url in
  let source_attribution :=
    {| source := source_name; sa_title := title; sa_url := url;
       author := cd_author data; publication_date := cd_date data;
       publication_type :=
         match content_type with PODCAST_TRANSCRIPT => "podcast" | _ => "article" end;
       sa_content_type := Some (ContentType_value content_type);
       episode_info := None |} in
  ScrapedContent__post_init__ lib
    {| sc_id := new_ulid doc; url := url; title := title; content := content_text;
       content_type := content_type;
       source_attribution := Some source_attribution;
       scraped_at := utcnow doc;
       confidence_score := 8 # 10;
       word_count := 0;
       extraction_method := "unknown";
       validation_passed := (200 <? len content_text)%Z && (5 <? len title)%Z;
       s3_key := None;
       content_hash := None |}.

Definition extraction_failed (method : string) : ExtractionResult :=
  {| er_success := false; er_content := None; confidence := 0;
     er_method := method; er_errors := [] |}.

Definition extraction_strategy : Type :=
  Soup → string → string → outcome ExtractionResult * Soup.

(** [_extract_structured_data]: succeeds with confidence 0.9 when both a
    title and a body were recovered. *)
Definition _extract_structured_data : extraction_strategy := λ soup url source_name,
  let '(o, soup) := structured_fields doc soup in
  (data ← o;
   if opt_truthy (cd_title data) && opt_truthy (cd_content data) then
     mret {| er_success := true;
             er_content := Some (_build_scraped_content data url source_name);
             confidence := 9 # 10; er_method := "structured_data"; er_errors := [] |}
   else mret (extraction_failed "structured_data"),
   soup).

(** [_extract_semantic_content]: confidence 0.8, body over 200 characters. *)
Definition _extract_semantic_content : extraction_strategy := λ soup url source_name,
  let '(o, soup) := semantic_fields doc soup in
  (data ← o;
   if opt_truthy (cd_title data) && opt_truthy (cd_content data)
      && (200 <? len (default "" (cd_content data)))%Z then
     mret {| er_success := true;
             er_content := Some (_build_scraped_content data url source_name);
             confidence := 8 # 10; er_method := "semantic"; er_errors := [] |}
   else mret (extraction_failed "semantic"),
   soup).

(** [_extract_generic_content]: confidence 0.6. *)
Definition _extract_generic_content : extraction_strategy := λ soup url source_name,
  let '(o, soup) := generic_fields doc soup in
  (data ← o;
   if opt_truthy (cd_title data) && opt_truthy (cd_content data) then
     mret {| er_success := true;
             er_content := Some (_build_scraped_content data url source_name);
             confidence := 6 # 10; er_method := "generic"; er_errors := [] |}
   else mret (extraction_failed "generic"),
   soup).

(** [_extract_fallback_content]: confidence 0.3, body over 300 characters;
    the title falls back to the path of the URL. *)
Definition _extract_fallback_content : extraction_strategy := λ soup url source_name,
  let '(o, soup) := fallback_fields doc soup in
  ('(title, body) ← o;
   let title_text := default (urlparse_path lib url) title in
   match body with
   | Some body_text =>
       if (300 <? len body_text)%Z then
         let data := {| cd_title := Some title_text; cd_content := Some body_text;
                        cd_author := None; cd_date := None |} in
         mret {| er_success := true;
                 er_content := Some (_build_scraped_content data url source_name);
                 confidence := 3 # 10; er_method := "fallback"; er_errors := [] |}
       else mret (extraction_failed "fallback")
   | None => mret (extraction_failed "fallback")
   end,
   soup).

(** The loop of [extract_content]: the best result so far, its
    confidence, the document, and the names of the strategies called. *)
Fixpoint extract_loop (strategies : list (string * extraction_strategy))
    (soup : Soup) (url source_name : string)
    (best_result : option ExtractionResult) (best_confidence : Q)
    (invoked : list string) : option ExtractionResult * list string :=
  match strategies with
  | [] => (best_result, invoked)
  | (name, strategy) :: rest =>
      let '(o, soup) := strategy soup url source_name in
      let invoked := invoked ++ [name] in
      match o with
      | Returned result =>
          let '(best_result, best_confidence) :=
            if er_success result && Qltb best_confidence (confidence result)
            then (Some result, confidence result)
            else (best_result, best_confidence) in
          if Qltb (8 # 10) (confidence result) then (best_result, invoked)
          else extract_loop rest soup url source_name best_result best_confidence invoked
      | Raised e =>
          extract_loop rest soup url source_name best_result best_confidence invoked
      end
  end.

Definition extraction_strategies : list (string * extraction_strategy) :=
  [ ("_extract_structured_data", _extract_structured_data);
    ("_extract_semantic_content", _extract_semantic_content);
    ("_extract_generic_content", _extract_generic_content);
    ("_extract_fallback_content", _extract_fallback_content) ].

Definition extraction_error (msg : string) : ExtractionResult :=
  {| er_success := false; er_content := None; confidence := 0;
     er_method := "unknown"; er_errors := [msg] |}.

(** [EnhancedContentExtractor.extract_content], with the names of the
    strategies it invoked. *)
Definition extract_content (html url source_name : string)
  : ExtractionResult * list string :=
  if negb (str_truthy html) || (len html <? 100)%Z then
    (extraction_error "HTML content too short or empty", [])
  else
    let soup := BeautifulSoup doc html in
    let '(best_result, invoked) :=
      extract_loop extraction_strategies soup url source_name None 0 [] in
    (default (extraction_error "All extraction strategies failed") best_result, invoked).
End Extractor.

(* ===================================================================== *)
(** ** s3_uploader.py                                                       *)
(* ===================================================================== *)

(** What the uploader writes: a record in its lake format, or a batch
    manifest with the storage keys of its items. *)
Inductive S3Body : Type :=
  | ContentBody (data : list (string * PyValue))
  | ManifestBody (manifest_batch : string) (keys : list string).

(** The object store and its failures: [objects] are the stored objects,
    [connect_fault] an error of [head_bucket] or of the credentials,
    [head_fault] an error code of [head_object] other than that of a
    missing key, [put_fault] an error of [put_object]. *)
Record S3 : Type := mk_S3 {
  objects : gmap string S3Body;
  connect_fault : option PyExn;
  head_fault : string → option string;
  put_fault : string → option PyExn
}.

Definition with_objects (m : gmap string S3Body) (s3 : S3) : S3 :=
  mk_S3 m (connect_fault s3) (head_fault s3) (put_fault s3).

(** [s3_client.head_object]: a missing key is a [ClientError] with code 404. *)
Definition head_object (s3 : S3) (key : string) : outcome unit :=
  match head_fault s3 key with
  | Some code => Raised (ClientError code)
  | None =>
      match objects s3 !! key with
      | Some _ => Returned ()
      | None => Raised (ClientError "404")
      end
  end.

(** [s3_client.put_object]: writes the object, replacing what the key held. *)
Definition put_object (s3 : S3) (key : string) (body : S3Body) : outcome unit * S3 :=
  match put_fault s3 key with
  | Some e => (Raised e, s3)
  | None => (Returned (), with_objects (<[key := body]> (objects s3)) s3)
  end.

Definition artist_patterns : list string :=
  [ "^([^:]+?)(?:\s*[-:]\s*)";
    dquote +:+ "([^" +:+ dquote +:+ "]+)" +:+ dquote;
    "(?:review|interview):\s*([^,\n]+)";
    "(?:with|featuring)\s+([^,\n]+)" ].

Definition artist_mention_patterns : list string :=
  [ "([a-z\s]+)'s\s+(?:new|latest|upcoming)\s+(?:album|single|ep)";
    "([a-z\s]+)\s+(?:releases|announces|drops)\s+";
    "(?:musician|artist|singer)\s+([a-z\s]+)\s+" ].

Definition thematic_categories : list (string * list string) :=
  [ ("review", ["review"; "album review"; "music review"; "rating"]);
    ("interview", ["interview"; "q&a"; "talks about"; "conversation with"]);
    ("news", ["news"; "breaking"; "announces"; "released"; "signs"]);
    ("feature", ["feature"; "profile"; "story"; "deep dive"]);
    ("analysis", ["analysis"; "breakdown"; "explained"; "history of"]);
    ("podcast", ["podcast"; "episode"; "fresh air"; "sound opinions"]) ].

(** The first [Some] that [f] gives on the list: a loop that returns from
    its body. *)
Fixpoint first_some {A B} (f : A → option B) (l : list A) : option B :=
  match l with
  | [] => None
  | x :: l' => match f x with Some y => Some y | None => first_some f l' end
  end.

Section Uploader.
Context (lib : PyLib).

(** [S3ContentUploader._sanitize_artist_name]. *)
Definition _sanitize_artist_name (artist : string) : string :=
  let sanitized := re_sub lib "[^a-z0-9\s]" "" (str_lower lib artist) in
  let sanitized := re_sub lib "\s+" "_" (str_strip_ws lib sanitized) in
  let sanitized := str_strip "_" (str_take 50 sanitized) in
  if negb (str_truthy sanitized) then "unknown_artist" else sanitized.

(** [S3ContentUploader._extract_artist_name].  (The lower-cased title
    with its prefix removed, which the method computes first, is not
    used by the rest of it.) *)
Definition _extract_artist_name (c : ScrapedContent) : string :=
  match first_some (λ pattern, re_group1 lib pattern true (title c)) artist_patterns with
  | Some g => _sanitize_artist_name (str_strip_ws lib g)
  | None =>
      let content_start := str_lower lib (str_take 500 (content c)) in
      match
        first_some (λ pattern,
          match re_group1 lib pattern false content_start with
          | Some g =>
              let artist := str_strip_ws lib g in
              if (length (str_split_ws lib artist) <=? 3)%nat then Some artist else None
          | None => None
          end) artist_mention_patterns
      with
      | Some artist => _sanitize_artist_name artist
      | None =>
          let source :=
            match source_attribution c with
            | Some sa => source sa
            | None => "unknown"
            end in
          _sanitize_artist_name ("various_" +:+ str_lower lib source)
      end
  end.

(** [S3ContentUploader._categorize_content]. *)
Definition _categorize_content (c : ScrapedContent) : string :=
  let text := str_lower lib (title c +:+ " " +:+ str_take 500 (content c)) in
  match find (λ entry, existsb (λ pattern, str_in pattern text) (snd entry))
             thematic_categories with
  | Some entry => fst entry
  | None => ContentType_value (content_type c)
  end.

(** [S3ContentUploader._generate_safe_filename]. *)
Definition _generate_safe_filename (c : ScrapedContent) : string :=
  let timestamp := strftime_Ymd_HM (scraped_at c) in
  let content_hash :=
    match content_hash c with
    | Some h => if str_truthy h then str_take 8 h else "unknown"
    | None => "unknown"
    end in
  let title_part := re_sub lib "[^a-zA-Z0-9\s]" "" (title c) in
  let title_part := str_take 30 (re_sub lib "\s+" "_" (str_strip_ws lib title_part)) in
  let source :=
    match source_attribution c with
    | Some sa => str_replace " " "_" (str_lower lib (source sa))
    | None => "unknown"
    end in
  source +:+ "_" +:+ timestamp +:+ "_" +:+ content_hash +:+ "_" +:+ title_part +:+ ".json".

(** The storage key that [_upload_content_item] derives for a record. *)
Definition derived_key (c : ScrapedContent) : string :=
  "scraped-content/" +:+ _extract_artist_name c +:+ "/" +:+ _categorize_content c
    +:+ "/" +:+ _generate_safe_filename c.

(** [S3ContentUploader._key_exists]: only a 404 is taken for absence,
    any other error is raised again. *)
Definition _key_exists (s3_key : string) (s3 : S3) : outcome bool :=
  match head_object s3 s3_key with
  | Returned _ => Returned true
  | Raised (ClientError code) =>
      if String.eqb code "404" then Returned false else Raised (ClientError code)
  | Raised e => Raised e
  end.

Definition suffixed_key (base_name : string) (counter : nat) (extension : string)
  : string :=
  base_name +:+ "_" +:+ zfill 3 counter +:+ "." +:+ extension.

Definition timestamped_key (base_name : string) (now : datetime) (extension : string)
  : string :=
  base_name +:+ "_" +:+ strftime_Ymd_HMS now +:+ "." +:+ extension.

(** [while counter < 100: ...] of [_generate_unique_key]; [fuel] bounds
    the iterations for the termination checker.  [None] is the exit of
    the loop without a key. *)
Fixpoint unique_key_loop (fuel counter : nat) (base_name extension : string) (s3 : S3)
  : outcome (option string) :=
  match fuel with
  | O => Returned None
  | S fuel' =>
      if (counter <? 100)%nat then
        let unique_key := suffixed_key base_name counter extension in
        taken ← _key_exists unique_key s3;
        if negb taken then Returned (Some unique_key)
        else unique_key_loop fuel' (counter + 1) base_name extension s3
      else Returned None
  end.

(** [S3ContentUploader._generate_unique_key]; [now] is the reading of
    the clock.  The unpacking of [rsplit] raises when the key has no
    dot. *)
Definition _generate_unique_key (base_key : string) (s3 : S3) (now : datetime)
  : outcome string :=
  match str_rsplit1 "." base_key with
  | None => Raised (ValueError "not enough values to unpack (expected 2, got 1)")
  | Some (base_name, extension) =>
      found ← unique_key_loop 100 1 base_name extension s3;
      match found with
      | Some unique_key => Returned unique_key
      | None => Returned (timestamped_key base_name now extension)
      end
  end.

(** The body written for a record: its lake format with the upload
    metadata. *)
Definition upload_data (c : ScrapedContent) (now : datetime)
  : outcome (list (string * PyValue)) :=
  data ← to_v3_format c;
  mret (data ++
        [ ("s3_metadata",
            PyDict [ ("artist_extracted", PyStr (_extract_artist_name c));
                     ("thematic_category", PyStr (_categorize_content c));
                     ("upload_timestamp", PyStr (isoformat now));
                     ("uploader_version", PyStr "content_scraper_v3.0") ]) ]).

(** [S3ContentUploader._upload_content_item]: the key it returns (or
    [None] when the write failed), the store, and the record, whose
    [s3_key] a successful write updates. *)
Definition _upload_content_item (c : ScrapedContent) (s3 : S3) (now : datetime)
  : outcome (option string) * S3 * ScrapedContent :=
  let s3_key := derived_key c in
  match _key_exists s3_key s3 with
  | Raised e => (Raised e, s3, c)
  | Returned taken =>
      match (if taken then _generate_unique_key s3_key s3 now else Returned s3_key) with
      | Raised e => (Raised e, s3, c)
      | Returned s3_key =>
          match upload_data c now with
          | Raised e => (Raised e, s3, c)
          | Returned data =>
              (* try: put_object(..., Body=json.dumps(...)) except Exception: return None *)
              match json_dumps lib data with
              | Raised e => (Returned None, s3, c)
              | Returned _ =>
                  match put_object s3 s3_key (ContentBody data) with
                  | (Returned _, s3') =>
                      (Returned (Some s3_key), s3', set_s3_key (Some s3_key) c)
                  | (Raised e, s3') => (Returned None, s3', c)
                  end
              end
          end
      end
  end.

Record upload_results : Type := mk_upload_results {
  ur_batch_id : string;
  total_items : nat;
  successful_uploads : nat;
  failed_uploads : nat;
  uploaded_keys : list string;
  ur_errors : list string;
  manifest_key : option string
}.

(** The loop of [upload_batch] over the items; item [i] is uploaded at
    time [clock i].  It returns the items as the uploads left them. *)
Fixpoint upload_items (i : nat) (items : list ScrapedContent) (s3 : S3)
    (clock : nat → datetime) (res : upload_results)
  : upload_results * S3 * list ScrapedContent :=
  match items with
  | [] => (res, s3, [])
  | item :: rest =>
      let '(o, s3, item) := _upload_content_item item s3 (clock i) in
      let res :=
        match o with
        | Returned (Some s3_key) =>
            if str_truthy s3_key then
              mk_upload_results (ur_batch_id res) (total_items res)
                (successful_uploads res + 1) (failed_uploads res)
                (uploaded_keys res ++ [s3_key]) (ur_errors res) (manifest_key res)
            else
              mk_upload_results (ur_batch_id res) (total_items res)
                (successful_uploads res) (failed_uploads res + 1)
                (uploaded_keys res) (ur_errors res) (manifest_key res)
        | Returned None =>
            mk_upload_results (ur_batch_id res) (total_items res)
              (successful_uploads res) (failed_uploads res + 1)
              (uploaded_keys res) (ur_errors res) (manifest_key res)
        | Raised e =>
            mk_upload_results (ur_batch_id res) (total_items res)
              (successful_uploads res) (failed_uploads res + 1)
              (uploaded_keys res)
              (ur_errors res ++ ["Item " +:+ pretty (i + 1) +:+ ": " +:+ exn_str e])
              (manifest_key res)
        end in
      let '(res, s3, rest) := upload_items (S i) rest s3 clock res in
      (res, s3, item :: rest)
  end.

(** [S3ContentUploader._upload_batch_manifest]. *)
Definition _upload_batch_manifest (batch : ScrapingBatch) (res : upload_results) (s3 : S3)
  : outcome string * S3 :=
  let date_str := strftime_Ymd_slash (created_at batch) in
  let source_name :=
    match batch_source batch with
    | Some s => Source_value s
    | None => "unknown"
    end in
  let manifest_key :=
    "manifests/scraped/" +:+ source_name +:+ "/" +:+ date_str
      +:+ "/batch_" +:+ batch_id batch +:+ ".json" in
  match put_object s3 manifest_key (ManifestBody (batch_id batch) (uploaded_keys res)) with
  | (Returned _, s3') => (Returned manifest_key, s3')
  | (Raised e, s3') => (Raised e, s3')
  end.

(** [S3ContentUploader.upload_batch]; connecting to the bucket
    ([_get_s3_client]) is outside every [try] and may raise. *)
Definition upload_batch (batch : ScrapingBatch) (s3 : S3) (clock : nat → datetime)
  : outcome upload_results * S3 * ScrapingBatch :=
  match connect_fault s3 with
  | Some e => (Raised e, s3, batch)
  | None =>
      let res :=
        {| ur_batch_id := batch_id batch;
           total_items := length (content_items batch);
           successful_uploads := 0; failed_uploads := 0;
           uploaded_keys := []; ur_errors := []; manifest_key := None |} in
      let '(res, s3, items) := upload_items 0 (content_items batch) s3 clock res in
      let batch :=
        mk_ScrapingBatch (batch_id batch) (batch_source batch) items (created_at batch)
          (total_discovered batch) (total_scraped batch) (success_rate batch)
          (manifest_s3_key batch) in
      match _upload_batch_manifest batch res s3 with
      | (Returned key, s3) =>
          (Returned (mk_upload_results (ur_batch_id res) (total_items res)
                       (successful_uploads res) (failed_uploads res)
                       (uploaded_keys res) (ur_errors res) (Some key)), s3, batch)
      | (Raised e, s3) =>
          (Returned (mk_upload_results (ur_batch_id res) (total_items res)
                       (successful_uploads res) (failed_uploads res)
                       (uploaded_keys res)
                       (ur_errors res ++ ["Manifest upload failed: " +:+ exn_str e])
                       (manifest_key res)), s3, batch)
      end
  end.
End Uploader.

(* ===================================================================== *)
(** ** articles/base_scraper.py                                             *)
(* ===================================================================== *)

Record ScraperConfig : Type := mk_ScraperConfig {
  source_name : string;
  base_url : string;
  rate_limit : Q;
  max_articles_per_run : nat;
  content_discovery_urls : list string;
  custom_selectors : list (string * string);
  archive_bypass_enabled : bool;
  validation_required : bool
}.

Record DiscoveryResult : Type := mk_DiscoveryResult {
  urls : list string;
  dr_method : string;
  dr_confidence : Q;
  dr_metadata : list (string * PyValue)
}.

(** [self.stats]. *)
Record Stats : Type := mk_Stats {
  discovered : nat;
  fetched : nat;
  extracted : nat;
  validated : nat;
  uploaded : nat;
  stat_errors : list string
}.

Definition Stats__init__ : Stats :=
  {| discovered := 0; fetched := 0; extracted := 0; validated := 0; uploaded := 0;
     stat_errors := [] |}.

Definition add_errors (es : list string) (st : Stats) : Stats :=
  mk_Stats (discovered st) (fetched st) (extracted st) (validated st) (uploaded st)
    (stat_errors st ++ es).

(** The collaborators of one run: the discovery of the source (an
    abstract method), the task that fetches, extracts, enhances and
    filters one URL (its outcome as [asyncio.gather] collects it, and
    whether its fetch step succeeded), the identifier and the time the
    batch constructor draws, and the clock of the uploads. *)
Record Collaborators : Type := mk_Collaborators {
  discover_content_urls : outcome DiscoveryResult;
  process_url : string → bool * outcome (option ScrapedContent);
  new_batch_id : string;
  batch_now : datetime;
  upload_clock : nat → datetime
}.

Definition source_mapping : list (string * Source) :=
  [ ("pitchfork", PITCHFORK); ("npr", NPR);
    ("rolling stone", ROLLING_STONE); ("billboard", BILLBOARD) ].

Section Scraper.
Context (lib : PyLib).
Context (config : ScraperConfig) (validator : ContentValidator) (col : Collaborators).

(** [BaseArticleScraper._create_empty_batch]: [Source(...)] raises
    [ValueError] for a name that is not the value of a member. *)
Definition _create_empty_batch (reason : string) (st : Stats) : outcome ScrapingBatch :=
  src ← Source_of_value (str_lower lib (source_name config));
  mret (ScrapingBatch__post_init__
          {| batch_id := new_batch_id col; batch_source := Some src;
             content_items := []; created_at := batch_now col;
             total_discovered := discovered st; total_scraped := 0;
             success_rate := 0; manifest_s3_key := None |}).

(** Phase 2, the collection of the gathered results. *)
Fixpoint collect_results (todo : list string) (st : Stats)
  : list ScrapedContent * Stats :=
  match todo with
  | [] => ([], st)
  | u :: rest =>
      let '(was_fetched, o) := process_url col u in
      let st :=
        mk_Stats (discovered st) (if was_fetched then fetched st + 1 else fetched st)
          (extracted st) (validated st) (uploaded st) (stat_errors st) in
      match o with
      | Raised e =>
          let st := add_errors ["URL " +:+ u +:+ ": " +:+ exn_str e] st in
          collect_results rest st
      | Returned (Some item) =>
          let '(items, st) := collect_results rest st in (item :: items, st)
      | Returned None => collect_results rest st
      end
  end.

(** Phase 3, the validation loop; an exception of the validator leaves it. *)
Fixpoint validate_loop (items : list ScrapedContent) (st : Stats)
  : outcome (list ScrapedContent) * Stats :=
  match items with
  | [] => (Returned [], st)
  | item :: rest =>
      if validation_required config then
        match validate_scraped_content lib validator item with
        | Raised e => (Raised e, st)
        | Returned validation_result =>
            if passed validation_result then
              let item := set_validation true (score validation_result) item in
              match validate_loop rest st with
              | (Returned items, st) => (Returned (item :: items), st)
              | (Raised e, st) => (Raised e, st)
              end
            else validate_loop rest (add_errors (errors validation_result) st)
        end
      else
        match validate_loop rest st with
        | (Returned items, st) => (Returned (item :: items), st)
        | (Raised e, st) => (Raised e, st)
        end
  end.

(** The body of the [try] of [scrape_articles]. *)
Definition scrape_try (max_articles : nat) (st : Stats) (s3 : S3)
  : outcome ScrapingBatch * Stats * S3 :=
  (* Phase 1 *)
  match discover_content_urls col with
  | Raised e => (Raised e, st, s3)
  | Returned discovery_result =>
      let st :=
        mk_Stats (length (urls discovery_result)) (fetched st) (extracted st)
          (validated st) (uploaded st) (stat_errors st) in
      match urls discovery_result with
      | [] => (_create_empty_batch "No URLs discovered" st, st, s3)
      | _ =>
          let urls_to_process := take max_articles (urls discovery_result) in
          (* Phase 2 *)
          let '(scraped_items, st) := collect_results urls_to_process st in
          let st :=
            mk_Stats (discovered st) (fetched st) (length scraped_items)
              (validated st) (uploaded st) (stat_errors st) in
          (* Phase 3 *)
          match validate_loop scraped_items st with
          | (Raised e, st) => (Raised e, st, s3)
          | (Returned validated_items, st) =>
              let st :=
                mk_Stats (discovered st) (fetched st) (extracted st)
                  (length validated_items) (uploaded st) (stat_errors st) in
              (* Phase 4 *)
              let source_enum :=
                match find (λ kv, String.eqb (fst kv) (str_lower lib (source_name config)))
                           source_mapping with
                | Some kv => snd kv
                | None => PITCHFORK
                end in
              let batch :=
                ScrapingBatch__post_init__
                  {| batch_id := new_batch_id col; batch_source := Some source_enum;
                     content_items := validated_items; created_at := batch_now col;
                     total_discovered := discovered st;
                     total_scraped := length validated_items;
                     success_rate := 0; manifest_s3_key := None |} in
              match pre_processing_safety_check lib validator batch with
              | Raised e => (Raised e, st, s3)
              | Returned (is_safe, safety_errors) =>
                  if negb is_safe then
                    let st := add_errors safety_errors st in
                    (_create_empty_batch "Safety check failed" st, st, s3)
                  else
                    (* Phase 5, in a try of its own *)
                    match upload_batch lib batch s3 (upload_clock col) with
                    | (Returned res, s3, batch) =>
                        let st :=
                          mk_Stats (discovered st) (fetched st) (extracted st)
                            (validated st) (successful_uploads res) (stat_errors st) in
                        let st :=
                          if (0 <? successful_uploads res)%nat
                          then add_errors (ur_errors res) st
                          else add_errors ["S3 upload failed for all items"] st in
                        (Returned batch, st, s3)
                    | (Raised e, s3, batch) =>
                        (Returned batch,
                         add_errors ["S3 upload exception: " +:+ exn_str e] st, s3)
                    end
              end
          end
      end
  end.

(** [BaseArticleScraper.scrape_articles]: [max_articles or
    self.config.max_articles_per_run], the [try], and the handler of
    [except Exception], which builds the empty batch outside any [try]. *)
Definition scrape_articles (max_articles : option nat) (st : Stats) (s3 : S3)
  : outcome ScrapingBatch * Stats * S3 :=
  let max_articles :=
    match max_articles with
    | Some (S n) => S n
    | _ => max_articles_per_run config
    end in
  match scrape_try max_articles st s3 with
  | (Returned batch, st, s3) => (Returned batch, st, s3)
  | (Raised e, st, s3) =>
      let st := add_errors [exn_str e] st in
      (_create_empty_batch "Scraping exception" st, st, s3)
  end.
End Scraper.

(* ===================================================================== *)
(** ** validator.py: SafetyChecker.verify_v3_compatibility                  *)
(* ===================================================================== *)

(** The types that [required_structure] names: [str], [int], the tuple
    [(int, float)], and a dictionary of named types. *)
#[warnings="-register-all"]
Inductive PyType : Type :=
  | Tstr
  | Tint
  | Tint_or_float
  | Tdict (structure : list (string * PyType)).

(** [isinstance(v, str)], [isinstance(v, int)] (a [bool] is an [int]) and
    [isinstance(v, float)]. *)
Definition isinstance_str (v : PyValue) : bool :=
  match v with PyStr _ => true | _ => false end.
Definition isinstance_int (v : PyValue) : bool :=
  match v with PyInt _ | PyBool _ => true | _ => false end.
Definition isinstance_float (v : PyValue) : bool :=
  match v with PyFloat _ => true | _ => false end.

(** The test that [check_structure] makes of one value against its
    expected type; for a dictionary type it is the loop of
    [check_structure] over the entries of the structure. *)
Fixpoint check_value (v : PyValue) (expected_type : PyType) {struct expected_type} : bool :=
  match expected_type with
  | Tstr => isinstance_str v
  | Tint => isinstance_int v
  | Tint_or_float => isinstance_int v || isinstance_float v
  | Tdict structure =>
      match v with
      | PyDict data =>
          (fix check_entries (entries : list (string * PyType)) : bool :=
             match entries with
             | [] => true
             | (key, expected) :: rest =>
                 dict_has data key && check_value (dict_get data key) expected
                 && check_entries rest
             end) structure
      | _ => false
      end
  end.

(** The nested function [check_structure(data, structure)]. *)
Definition check_structure (data : list (string * PyValue))
    (structure : list (string * PyType)) : bool :=
  check_value (PyDict data) (Tdict structure).

Definition required_structure : list (string * PyType) :=
  [ ("source_attribution", Tdict [("source", Tstr); ("title", Tstr); ("url", Tstr)]);
    ("metadata", Tdict [ ("scraped_at", Tstr); ("confidence_score", Tint_or_float);
                         ("word_count", Tint) ]) ].

(** [SafetyChecker.verify_v3_compatibility]: any exception gives [False]. *)
Definition verify_v3_compatibility (c : ScrapedContent) : bool :=
  match to_v3_format c with
  | Returned v3_data => check_structure v3_data required_structure
  | Raised _ => false
  end.

(* ===================================================================== *)
(** ** fetcher.py: the rate limit and the four strategies                   *)
(* ===================================================================== *)

(** [EnhancedFetcher._respect_rate_limit].  [t] is the reading of
    [time.time()] on entry and [sleep d t] the time at which
    [asyncio.sleep(d)], started at [t], returns.  The result is the new
    [last_request_time] and the time on exit. *)
Definition _respect_rate_limit (sleep : Q → Q → Q) (rate_limit last_request_time t : Q)
  : Q * Q :=
  if Qltb 0 rate_limit then
    let time_since_last := (t - last_request_time)%Q in
    let min_interval := (1 / rate_limit)%Q in
    let t :=
      if Qltb time_since_last min_interval
      then sleep (min_interval - time_since_last)%Q t
      else t in
    (t, t)
  else (last_request_time, t).

(** What a strategy reads of an [aiohttp] response: [text] is the
    outcome of [await response.text()]. *)
Record Response : Type := mk_Response {
  status : Z;
  text : outcome string;
  response_url : string;
  headers : list (string * PyValue)
}.

Module Http.
Section Strategies.
Context {World : Type}.

(** The session and the helpers of the strategies: [session_get] is
    [self.session.get], [respect_rate_limit] what the wait of
    [_respect_rate_limit] does to the world, [strip_wayback_toolbar]
    and [strip_cache_styles] the text of the parsed page after the
    removal of the archive's elements, [quote_plus] that of
    [urllib.parse]. *)
Record Session : Type := mk_Session {
  session_get : string → World → outcome Response * World;
  respect_rate_limit : World → World;
  strip_wayback_toolbar : string → outcome string;
  strip_cache_styles : string → outcome string;
  quote_plus : string → string
}.

Context (self : Session).

(** [FetchResult(success=False, url=url, error_message=..., method=...)]. *)
Definition fetch_failed (url message method : string) : FetchResult :=
  {| success := false; fr_content := None; status_code := None;
     fr_url := url; final_url := ""; method := method;
     error_message := Some message; fr_metadata := [] |}.

(** [EnhancedFetcher._fetch_direct]. *)
Definition _fetch_direct : @fetch_strategy World := λ url w,
  let w := respect_rate_limit self w in
  match session_get self url w with
  | (Raised e, w) => (Returned (fetch_failed url (exn_str e) "direct"), w)
  | (Returned response, w) =>
      match text response with
      | Raised e => (Returned (fetch_failed url (exn_str e) "direct"), w)
      | Returned content =>
          (Returned
             {| success := (status response =? 200)%Z;
                fr_content := if (status response =? 200)%Z then Some content else None;
                status_code := Some (status response);
                fr_url := url;
                final_url := response_url response;
                method := "direct";
                error_message := None;
                fr_metadata := [("response_headers", PyDict (headers response))] |},
           w)
      end
  end.

(** [EnhancedFetcher._fetch_via_archive_ph]. *)
Definition _fetch_via_archive_ph : @fetch_strategy World := λ url w,
  let w := respect_rate_limit self w in
  let archive_url := "https://archive.ph/newest/" +:+ url in
  match session_get self archive_url w with
  | (Raised e, w) =>
      (Returned (fetch_failed url ("Archive.ph error: " +:+ exn_str e) "archive_ph"), w)
  | (Returned response, w) =>
      match text response with
      | Raised e =>
          (Returned (fetch_failed url ("Archive.ph error: " +:+ exn_str e) "archive_ph"), w)
      | Returned content =>
          if (status response =? 200)%Z
             && str_in "archive.ph" (response_url response)
             && negb (String.eqb (response_url response) archive_url)
          then
            (Returned
               {| success := true;
                  fr_content := Some content;
                  status_code := Some (status response);
                  fr_url := url;
                  final_url := response_url response;
                  method := "archive_ph";
                  error_message := None;
                  fr_metadata := [("archive_url", PyStr (response_url response))] |},
             w)
          else (Returned (fetch_failed url "Not found in archive.ph" "archive_ph"), w)
      end
  end.

(** [EnhancedFetcher._fetch_via_archive_org]. *)
Definition _fetch_via_archive_org : @fetch_strategy World := λ url w,
  let w := respect_rate_limit self w in
  let wayback_url := "https://web.archive.org/web/" +:+ url in
  match session_get self wayback_url w with
  | (Raised e, w) =>
      (Returned (fetch_failed url ("Archive.org error: " +:+ exn_str e) "archive_org"), w)
  | (Returned response, w) =>
      if (status response =? 200)%Z then
        match content ← text response; strip_wayback_toolbar self content with
        | Raised e =>
            (Returned (fetch_failed url ("Archive.org error: " +:+ exn_str e) "archive_org"),
             w)
        | Returned cleaned_content =>
            (Returned
               {| success := true;
                  fr_content := Some cleaned_content;
                  status_code := Some (status response);
                  fr_url := url;
                  final_url := response_url response;
                  method := "archive_org";
                  error_message := None;
                  fr_metadata := [("wayback_url", PyStr (response_url response))] |},
             w)
        end
      else (Returned (fetch_failed url "Not found in Archive.org" "archive_org"), w)
  end.

(** [EnhancedFetcher._fetch_via_google_cache]. *)
Definition _fetch_via_google_cache : @fetch_strategy World := λ url w,
  let w := respect_rate_limit self w in
  let cache_url :=
    "https://webcache.googleusercontent.com/search?q=cache:" +:+ quote_plus self url in
  match session_get self cache_url w with
  | (Raised e, w) =>
      (Returned (fetch_failed url ("Google cache error: " +:+ exn_str e) "google_cache"), w)
  | (Returned response, w) =>
      if (status response =? 200)%Z then
        match content ← text response; strip_cache_styles self content with
        | Raised e =>
            (Returned
               (fetch_failed url ("Google cache error: " +:+ exn_str e) "google_cache"), w)
        | Returned cleaned_content =>
            (Returned
               {| success := true;
                  fr_content := Some cleaned_content;
                  status_code := Some (status response);
                  fr_url := url;
                  final_url := response_url response;
                  method := "google_cache";
                  error_message := None;
                  fr_metadata := [("cache_url", PyStr cache_url)] |},
             w)
        end
      else (Returned (fetch_failed url "Not found in Google cache" "google_cache"), w)
  end.

(** The fetcher whose retrieval methods are the four above. *)
Definition fetcher : @EnhancedFetcher World :=
  mk_EnhancedFetcher _fetch_direct _fetch_via_archive_ph _fetch_via_archive_org
    _fetch_via_google_cache.
End Strategies.
End Http.

(* ===================================================================== *)
(** ** s3_uploader.py: get_upload_statistics                                *)
(* ===================================================================== *)

Record upload_statistics : Type := mk_upload_statistics {
  total_processed : nat;
  us_successful_uploads : nat;
  us_failed_uploads : nat;
  us_success_rate : Q;
  s3_keys_created : nat;
  manifest_created : bool;
  bucket : string;
  organization_pattern : string
}.

(** [S3ContentUploader.get_upload_statistics]. *)
Definition get_upload_statistics (bucket_name : string) (batch_results : upload_results)
  : upload_statistics :=
  {| total_processed := total_items batch_results;
     us_successful_uploads := successful_uploads batch_results;
     us_failed_uploads := failed_uploads batch_results;
     us_success_rate :=
       (Qnat (successful_uploads batch_results)
        / Qnat (Nat.max 1 (total_items batch_results)))%Q;
     s3_keys_created := length (uploaded_keys batch_results);
     manifest_created :=
       match manifest_key batch_results with Some _ => true | None => false end;
     bucket := bucket_name;
     organization_pattern := "[artist]/[thematic]/[filename]" |}.

(* ===================================================================== *)
(** ** articles/base_scraper.py: one URL, statistics, URL filters           *)
(* ===================================================================== *)

(** The keyword list of [_is_music_relevant]. *)
Definition relevance_keywords : list string :=
  [ "music"; "album"; "song"; "artist"; "band"; "musician"; "singer";
    "concert"; "tour"; "festival"; "record"; "recording"; "studio";
    "genre"; "jazz"; "rock"; "pop"; "hip-hop"; "classical"; "folk";
    "guitar"; "piano"; "drums"; "vocals"; "lyrics"; "melody" ].


(** The rates of [get_statistics], beside the counters of [self.stats]. *)
Record statistics : Type := mk_statistics {
  counters : Stats;
  st_success_rate : Q;
  extraction_rate : Q;
  validation_rate : Q;
  upload_rate : Q;
  end_to_end_success : Q
}.

(** [BaseArticleScraper.get_statistics]. *)
Definition get_statistics (st : Stats) : statistics :=
  {| counters := st;
     st_success_rate := (Qnat (validated st) / Qnat (Nat.max 1 (discovered st)))%Q;
     extraction_rate := (Qnat (extracted st) / Qnat (Nat.max 1 (fetched st)))%Q;
     validation_rate := (Qnat (validated st) / Qnat (Nat.max 1 (extracted st)))%Q;
     upload_rate := (Qnat (uploaded st) / Qnat (Nat.max 1 (validated st)))%Q;
     end_to_end_success := (Qnat (uploaded st) / Qnat (Nat.max 1 (discovered st)))%Q |}.

Section ProcessUrl.
Context (lib : PyLib) {World Soup : Type}.
Context (config : ScraperConfig) (fetcher : @EnhancedFetcher World) (doc : @Document Soup).

(** [BaseArticleScraper._is_music_relevant]. *)
Definition _is_music_relevant (c : ScrapedContent) : bool :=
  let text := str_lower lib (title c +:+ " " +:+ content c) in
  let music_mentions :=
    length (filter (λ keyword, str_in keyword text = true) relevance_keywords) in
  (2 <=? music_mentions)%nat.


End ProcessUrl.

(** The patterns of [PatternBasedDiscovery._is_article_url] and of
    [_is_source_article_url], and the ones both use for a source that
    is not in their table. *)
Definition article_patterns : list (string * list string) :=
  [ ("pitchfork", ["/reviews/"; "/features/"; "/news/"]);
    ("rolling_stone", ["/music/"; "/music-news/"; "/reviews/"]);
    ("billboard", ["/music/"; "/pro/"; "/news/"]);
    ("npr", ["/sections/music/"; "/music/"]) ].

Definition source_article_patterns : list (string * list string) :=
  [ ("pitchfork", ["/reviews/"; "/features/"; "/news/"]);
    ("rolling stone", ["/music/"; "/music-news/"; "/reviews/"; "/features/"]);
    ("billboard", ["/music/"; "/pro/"; "/news/"; "/charts/"]);
    ("npr", ["/sections/music/"; "/music/"; "/2024/"; "/2023/"]) ].

Definition default_article_patterns : list string := ["/music/"; "/review"; "/article"].

(** [table.get(key, default)] on a table kept as an association list. *)
Definition table_get {A} (table : list (string * A)) (key : string) (default : A) : A :=
  match find (λ entry, String.eqb (fst entry) key) table with
  | Some entry => snd entry
  | None => default
  end.

Section Discovery.
Context (lib : PyLib).

(** [PatternBasedDiscovery._is_article_url]. *)
Definition _is_article_url (source_name url : string) : bool :=
  let patterns :=
    table_get article_patterns (str_lower lib source_name) default_article_patterns in
  existsb (λ pattern, str_in pattern (str_lower lib url)) patterns.

(** [PatternBasedDiscovery._is_source_article_url]. *)
Definition _is_source_article_url (source_name url : string) : bool :=
  let patterns :=
    table_get source_article_patterns (str_lower lib source_name)
      default_article_patterns in
  existsb (λ pattern, str_in pattern (str_lower lib url)) patterns.
End Discovery.

(* ===================================================================== *)
(** ** A library instance on ASCII text                                     *)
(* ===================================================================== *)

(** [demo_lib] implements the library functions on ASCII text, for the
    inputs of the examples: the regular expressions of the code are
    recognised by their text; of the title patterns of the uploader the
    one anchored at the start of the title is implemented (the examples
    use titles that it matches, so the later ones are not consulted);
    [sha256_hexdigest] knows the digests of the example bodies and
    answers the digest of the empty text otherwise. *)
Module Demo.

Definition ascii_in (lo hi : nat) (a : ascii) : bool :=
  (lo <=? nat_of_ascii a)%nat && (nat_of_ascii a <=? hi)%nat.

Definition is_space (a : ascii) : bool :=
  ascii_in 9 13 a || ascii_in 28 32 a.
Definition is_lower (a : ascii) : bool := ascii_in 97 122 a.
Definition is_upper (a : ascii) : bool := ascii_in 65 90 a.
Definition is_digit (a : ascii) : bool := ascii_in 48 57 a.
Definition is_alpha (a : ascii) : bool := is_lower a || is_upper a.

Fixpoint str_map (f : ascii → ascii) (s : string) : string :=
  match s with
  | EmptyString => EmptyString
  | String a s' => String (f a) (str_map f s')
  end.

Fixpoint str_filter (f : ascii → bool) (s : string) : string :=
  match s with
  | EmptyString => EmptyString
  | String a s' => if f a then String a (str_filter f s') else str_filter f s'
  end.

Definition lower (s : string) : string :=
  str_map (λ a, if is_upper a then ascii_of_nat (nat_of_ascii a + 32) else a) s.

Fixpoint lstrip_ws (s : string) : string :=
  match s with
  | EmptyString => EmptyString
  | String a s' => if is_space a then lstrip_ws s' else s
  end.

Fixpoint rstrip_ws (s : string) : string :=
  match s with
  | EmptyString => EmptyString
  | String a s' =>
      match rstrip_ws s' with
      | EmptyString => if is_space a then EmptyString else String a EmptyString
      | r => String a r
      end
  end.

Definition strip_ws (s : string) : string := rstrip_ws (lstrip_ws s).

(** [s.split()]: the maximal runs of characters that are not spaces. *)
Fixpoint split_ws_go (s : string) (cur : string) : list string :=
  match s with
  | EmptyString => if str_truthy cur then [cur] else []
  | String a s' =>
      if is_space a
      then (if str_truthy cur then [cur] else []) ++ split_ws_go s' EmptyString
      else split_ws_go s' (cur +:+ String a EmptyString)
  end.
Definition split_ws (s : string) : list string := split_ws_go s EmptyString.

(** [re.sub("\s+", repl, s)]. *)
Fixpoint collapse_ws (repl : string) (in_run : bool) (s : string) : string :=
  match s with
  | EmptyString => EmptyString
  | String a s' =>
      if is_space a
      then (if in_run then EmptyString else repl) +:+ collapse_ws repl true s'
      else String a (collapse_ws repl false s')
  end.

Definition sub (pattern repl s : string) : string :=
  if String.eqb pattern "[^a-zA-Z\s]" then str_filter (λ a, is_alpha a || is_space a) s
  else if String.eqb pattern "[^a-z0-9\s]"
    then str_filter (λ a, is_lower a || is_digit a || is_space a) s
  else if String.eqb pattern "[^a-zA-Z0-9\s]"
    then str_filter (λ a, is_alpha a || is_digit a || is_space a) s
  else if String.eqb pattern "\s+" then collapse_ws repl false s
  else s.

(** The text up to the first line break: what [.*] can cover. *)
Fixpoint line_of (s : string) : string :=
  match s with
  | EmptyString => EmptyString
  | String a s' => if Ascii.eqb a (ascii_of_nat 10) then EmptyString else String a (line_of s')
  end.

(** [a.*b] occurs in [s]. *)
Fixpoint search_gap (a b s : string) : bool :=
  (String.prefix a s
   && str_in b (line_of (String.substring (String.length a) (String.length s) s)))
  || match s with
     | EmptyString => false
     | String _ s' => search_gap a b s'
     end.

(** The text before and after the first [.*] of a pattern. *)
Fixpoint split_gap (p : string) : option (string * string) :=
  match p with
  | EmptyString => None
  | String a p' =>
      if String.prefix ".*" p then Some (EmptyString, String.substring 2 (String.length p) p)
      else match split_gap p' with
           | Some (l, r) => Some (String a l, r)
           | None => None
           end
  end.

(** [re.search] for a literal pattern or two literals joined by [.*]. *)
Definition search (pattern s : string) : bool :=
  match split_gap pattern with
  | Some (a, b) => search_gap a b s
  | None => str_in pattern s
  end.

(** Group 1 of the first title pattern: the shortest non-empty prefix
    without a colon that spaces and then a dash or a colon follow. *)
Fixpoint title_prefix (s : string) (taken : string) : option string :=
  match s with
  | EmptyString => None
  | String a s' =>
      let ends_here :=
        match lstrip_ws s with
        | String b _ => Ascii.eqb b "-" || Ascii.eqb b ":"
        | EmptyString => false
        end in
      if str_truthy taken && ends_here then Some taken
      else if Ascii.eqb a ":" then None
      else title_prefix s' (taken +:+ String a EmptyString)
  end.

Definition group1 (pattern : string) (ignorecase : bool) (s : string) : option string :=
  if String.eqb pattern "^([^:]+?)(?:\s*[-:]\s*)" then title_prefix s EmptyString
  else None.

Definition is_scheme_char (a : ascii) : bool :=
  is_alpha a || is_digit a || Ascii.eqb a "+" || Ascii.eqb a "-" || Ascii.eqb a ".".

(** The text before the first of the characters [stop]. *)
Fixpoint until (stop : ascii → bool) (s : string) : string :=
  match s with
  | EmptyString => EmptyString
  | String a s' => if stop a then EmptyString else String a (until stop s')
  end.

Definition after (n : nat) (s : string) : string :=
  String.substring n (String.length s) s.

(** Scheme, netloc and path of [scheme://netloc/path?query#fragment]. *)
Definition url_parts (u : string) : string * string * string :=
  let head := until (λ a, Ascii.eqb a ":") u in
  let has_scheme :=
    str_truthy head
    && (String.length head <? String.length u)%nat
    && match head with String a _ => is_alpha a | _ => false end
    && String.eqb (str_filter is_scheme_char head) head in
  let scheme := if has_scheme then lower head else "" in
  let rest := if has_scheme then after (String.length head + 1) u else u in
  let is_end a := Ascii.eqb a "/" || Ascii.eqb a "?" || Ascii.eqb a "#" in
  let netloc := if String.prefix "//" rest then until is_end (after 2 rest) else "" in
  let rest := if String.prefix "//" rest then after (2 + String.length netloc) rest else rest in
  (scheme, netloc, until (λ a, Ascii.eqb a "?" || Ascii.eqb a "#") rest).

(** ISO dates of the shape [YYYY-MM-DD], alone or followed by a time. *)
Definition iso_ok (s : string) : bool :=
  let d := str_take 10 s in
  String.eqb (str_map (λ a, if is_digit a then "0"%char else a) d) "0000-00-00"
  && match after 10 s with
     | EmptyString => true
     | String a _ => Ascii.eqb a "T" || Ascii.eqb a " "
     end.

(** [f"{q:.2f}"] and [f"{q:.2%}"] for a non-negative [q]. *)
Definition fixed2 (q : Q) : string :=
  let n := Qfloor (q * 100 + (1 # 2)) in
  pretty (n / 100)%Z +:+ "." +:+ zfill 2 (Z.to_nat (n mod 100)).
Definition percent2 (q : Q) : string := fixed2 (q * 100) +:+ "%".

(** The example bodies. *)
Fixpoint str_repeat (s : string) (n : nat) : string :=
  match n with O => EmptyString | S n' => s +:+ str_repeat s n' end.

Definition horses_body : string :=
  "Patti Smith recorded the album Horses in 1975 with producer John Cale "
  +:+ "at Electric Lady studio in New York, and the record changed rock "
  +:+ "music for good: a debut that joined her poetry with the raw sound "
  +:+ "of a garage band on every song".

Definition repetitive_body : string := str_repeat "The band played rock. " 12.

Definition sha256 (s : string) : string :=
  if String.eqb s horses_body
  then "84c7b0e0a652fce5a9310e301e91ccacaaa01a7cc801247e6eecdf8b53338fc4"
  else if String.eqb s repetitive_body
  then "a5912d4a50d72ae233c208f9aee6c31a6669ceabd50ca3b3b9fb27f7556b9fb0"
  else "e3b0c44298fc1c149afbf4c8996fb92427ae41e4649b934ca495991b7852b855".

Definition demo_lib : PyLib :=
  {| str_lower := lower;
     str_strip_ws := strip_ws;
     str_split_ws := split_ws;
     re_search := search;
     re_sub := sub;
     re_group1 := group1;
     urlparse := λ u, Returned (fst (fst (url_parts u)), snd (fst (url_parts u)));
     urlparse_path := λ u, snd (url_parts u);
     fromisoformat := iso_ok;
     json_dumps := λ _, Returned "{}";
     json_loads := λ _, Returned ();
     sha256_hexdigest := sha256;
     format_percent2 := percent2;
     format_fixed2 := fixed2 |}.
End Demo.

(* ===================================================================== *)
(** ** Example records                                                      *)
(* ===================================================================== *)

Module Examples.
Import Demo.

Definition jan15 : datetime := mk_datetime 2024 1 15 12 30 45.

Definition attribution_of (src ttl link : string) : SourceAttribution :=
  {| source := src; sa_title := ttl; sa_url := link; author := None;
     publication_date := Some "2024-01-15"; publication_type := "article";
     sa_content_type := None; episode_info := None |}.

(** The arguments of [ScrapedContent(id=..., url=..., title=...,
    content=..., source_attribution=..., scraped_at=...,
    confidence_score=0.8)], and the record the constructor makes of them. *)
Definition fields_of (ident link ttl body src : string) : ScrapedContent :=
  {| sc_id := ident; url := link; title := ttl; content := body;
     content_type := ARTICLE;
     source_attribution := Some (attribution_of src ttl link);
     scraped_at := jan15; confidence_score := 8 # 10; word_count := 0;
     extraction_method := "unknown"; validation_passed := false;
     s3_key := None; content_hash := None |}.

Definition record_of (ident link ttl body src : string) : ScrapedContent :=
  ScrapedContent__post_init__ demo_lib (fields_of ident link ttl body src).

(** A record that passes every check. *)
Definition horses : ScrapedContent :=
  record_of "01HM5T0000000000000000000A"
    "https://pitchfork.com/reviews/albums/patti-smith-horses/"
    "Patti Smith: Horses at 47" horses_body "Pitchfork".

(** A second record with the same title, body, source and time. *)
Definition horses_again : ScrapedContent :=
  record_of "01HM5T0000000000000000000B"
    "https://pitchfork.com/reviews/albums/patti-smith-horses/"
    "Patti Smith: Horses at 47" horses_body "Pitchfork".

(** A record without errors whose warnings bring its score to 0.576. *)
Definition dull : ScrapedContent :=
  record_of "01HM5T0000000000000000000C"
    "https://example.substack.com/p/live"
    "Smith: Live" repetitive_body "Substack".

(** A record from another source with an empty body (the default of
    the [content] field). *)
Definition empty_body : ScrapedContent :=
  record_of "01HM5T0000000000000000000D"
    "https://www.npr.org/sections/music/2024/01/15/live"
    "NPR Music: Live Sessions" "" "NPR".

Definition batch_of (items : list ScrapedContent) : ScrapingBatch :=
  ScrapingBatch__post_init__
    {| batch_id := "01HM5TBATCH000000000000000"; batch_source := Some PITCHFORK;
       content_items := items; created_at := jan15; total_discovered := length items;
       total_scraped := 0; success_rate := 0; manifest_s3_key := None |}.

(** A page that a bot wall answered: its body matches three of the
    failure signatures. *)
Definition blocked : ScrapedContent :=
  record_of "01HM5T0000000000000000000E"
    "https://www.billboard.com/music/rock/live-review/"
    "Billboard: Live Review"
    ("Please enable JavaScript to read this review. Access denied: "
     +:+ "complete the captcha to continue.")
    "Billboard".

(** A third record with the title, body, source and time of [horses]. *)
Definition horses_third : ScrapedContent :=
  record_of "01HM5T0000000000000000000F"
    "https://pitchfork.com/reviews/albums/patti-smith-horses/"
    "Patti Smith: Horses at 47" horses_body "Pitchfork".

(** An object store that answers every request. *)
Definition store_of (m : gmap string S3Body) : S3 :=
  {| objects := m; connect_fault := None;
     head_fault := λ _, None; put_fault := λ _, None |}.

(** The key that the uploader derives for [horses], without its
    extension. *)
Definition horses_stem : string :=
  "scraped-content/patti_smith/article/"
  +:+ "pitchfork_20240115_1230_84c7b0e0_Patti_Smith_Horses_at_47".

Definition earlier_upload : S3Body := ContentBody [("id", PyStr "01HM5S0000000000000000000A")].

(** A store that already holds the derived key of [horses] and its 99
    suffixed variants. *)
Definition crowded_store : S3 :=
  store_of
    (list_to_map
       ((horses_stem +:+ ".json", earlier_upload)
        :: map (λ n, (suffixed_key horses_stem n "json", earlier_upload)) (seq 1 99))).

(** A page in which the parser finds nothing (as in an empty document). *)
Definition blank_page : @Document string :=
  let nothing := {| cd_title := None; cd_content := None;
                    cd_author := None; cd_date := None |} in
  {| BeautifulSoup := λ html, html;
     structured_fields := λ soup, (Returned nothing, soup);
     semantic_fields := λ soup, (Returned nothing, soup);
     generic_fields := λ soup, (Returned nothing, soup);
     fallback_fields := λ soup, (Returned (None, None), soup);
     new_ulid := "01HM5T0000000000000000000G";
     utcnow := jan15 |}.

(** A page that marks its headline and body with microdata, and what the
    parser finds in it. *)
Definition horses_html : string :=
  "<html><body><h1 itemprop=headline>Patti Smith: Horses at 47</h1>"
  +:+ "<div itemprop=articleBody>" +:+ horses_body +:+ "</div></body></html>".

Definition microdata_page : @Document string :=
  let found := {| cd_title := Some "Patti Smith: Horses at 47";
                  cd_content := Some horses_body;
                  cd_author := None; cd_date := None |} in
  {| BeautifulSoup := λ html, html;
     structured_fields := λ soup, (Returned found, soup);
     semantic_fields := λ soup, (Returned found, soup);
     generic_fields := λ soup, (Returned found, soup);
     fallback_fields := λ soup, (Returned (None, Some horses_body), soup);
     new_ulid := "01HM5T0000000000000000000G";
     utcnow := jan15 |}.

(** A scraper configured with the name of the publication as the
    validator's list of sources spells it, and a run whose discovery
    finds no URL. *)
Definition rolling_stone_config : ScraperConfig :=
  {| source_name := "Rolling Stone"; base_url := "https://www.rollingstone.com";
     rate_limit := 1; max_articles_per_run := 1000; content_discovery_urls := [];
     custom_selectors := []; archive_bypass_enabled := true;
     validation_required := true |}.

Definition nothing_discovered : Collaborators :=
  {| discover_content_urls :=
       Returned {| urls := []; dr_method := "rss"; dr_confidence := 0; dr_metadata := [] |};
     process_url := λ _, (false, Returned None);
     new_batch_id := "01HM5TBATCH000000000000000";
     batch_now := jan15;
     upload_clock := λ _, jan15 |}.

(** A fetcher on a network whose state is the number of requests made so
    far: the site answers with a paywall stub, archive.ph resets the
    connection, archive.org and the search-engine cache hold the page. *)
Definition page_of (address text via : string) : FetchResult :=
  {| success := true; fr_content := Some text; status_code := Some 200%Z;
     fr_url := address; final_url := address; method := via;
     error_message := None; fr_metadata := [] |}.

Definition archived_page : string := "<html><body>" +:+ zeros 600 +:+ "</body></html>".

Definition paywalled_fetcher : @EnhancedFetcher nat :=
  {| _fetch_direct := λ address n,
       (Returned (page_of address "<html>Subscribe to continue reading</html>" "direct"),
        S n);
     _fetch_via_archive_ph := λ address n,
       (Raised (OtherException "Connection reset by peer"), S n);
     _fetch_via_archive_org := λ address n,
       (Returned (page_of address archived_page "archive_org"), S n);
     _fetch_via_google_cache := λ address n,
       (Returned (page_of address archived_page "google_cache"), S n) |}.
End Examples.

(* ===================================================================== *)
(** ** More example records and runs                                        *)
(* ===================================================================== *)

Module MoreExamples.
Import Demo Examples.

(** A record like [horses] that was built without an attribution (the
    default of the field). *)
Definition anonymous : ScrapedContent :=
  ScrapedContent__post_init__ demo_lib
    {| sc_id := "01HM5T0000000000000000000H";
       url := "https://pitchfork.com/reviews/albums/patti-smith-horses/";
       title := "Patti Smith: Horses at 47"; content := horses_body;
       content_type := ARTICLE; source_attribution := None;
       scraped_at := jan15; confidence_score := 8 # 10; word_count := 0;
       extraction_method := "unknown"; validation_passed := false;
       s3_key := None; content_hash := None |}.

(** A sleep that lasts exactly as long as asked. *)
Definition exact_sleep (d t : Q) : Q := (t + d)%Q.

(** A scraper for Pitchfork, and a run that discovers two addresses,
    of which the first yields [horses] and the second nothing. *)
Definition pitchfork_config : ScraperConfig :=
  {| source_name := "Pitchfork"; base_url := "https://pitchfork.com";
     rate_limit := 1; max_articles_per_run := 50; content_discovery_urls := [];
     custom_selectors := []; archive_bypass_enabled := true;
     validation_required := true |}.

Definition two_discovered : Collaborators :=
  {| discover_content_urls :=
       Returned {| urls := [ "https://pitchfork.com/reviews/albums/patti-smith-horses/";
                             "https://pitchfork.com/news/" ];
                   dr_method := "rss"; dr_confidence := 8 # 10; dr_metadata := [] |};
     process_url := λ u,
       if String.eqb u "https://pitchfork.com/reviews/albums/patti-smith-horses/"
       then (true, Returned (Some horses))
       else (false, Returned None);
     new_batch_id := "01HM5TBATCH000000000000001";
     batch_now := jan15;
     upload_clock := λ _, jan15 |}.
End MoreExamples.

(* ===================================================================== *)
(** ** Vocabulary of the properties                                         *)
(* ===================================================================== *)

(** The object store answers every request. *)
Definition faultless (s3 : S3) : Prop :=
  connect_fault s3 = None ∧ (∀ k, head_fault s3 k = None) ∧ (∀ k, put_fault s3 k = None).

(** The first successful result among the outcomes of strategies. *)
Definition first_success (os : list (outcome ExtractionResult)) : option ExtractionResult :=
  first_some (λ o, match o with
                   | Returned r => if er_success r then Some r else None
                   | Raised _ => None
                   end) os.

(** The validator with the scan for failure signatures switched off. *)
Definition without_patterns (self : ContentValidator) : ContentValidator :=
  mk_ContentValidator (min_content_length self) (max_content_length self)
    (min_title_length self) (max_title_length self) (required_fields self)
    (required_source_fields self) [] (valid_sources self).

Definition is_suspicious_error (e : string) : bool :=
  String.prefix "Suspicious content pattern detected: " e.

(** The conditions under which [validate_scraped_content] lowers the
    score of a record: each is the test of one [score *= ...] of the
    code.  [FewMusicKeywords] is "fewer than three keywords" (either
    warning of the relevance check), [NoMusicKeywords] is "none". *)
Inductive Penalty : Type :=
  | StructureFailed | ContentTooShort | ContentTooLong | TitleTooShort
  | TitleTooLong | SuspiciousPattern | Repetitive | LowTextRatio
  | UnknownSource | CitationTooLong | InvalidDate
  | FewMusicKeywords | NoMusicKeywords | LakeIncompatible.

Section Penalties.
Context (lib : PyLib) (self : ContentValidator).

Definition applies (p : Penalty) (c : ScrapedContent) : bool :=
  match p with
  | StructureFailed =>
      match _validate_structure lib self c with
      | Returned r => negb (passed r)
      | Raised _ => false
      end
  | ContentTooShort => (len (content c) <? min_content_length self)%Z
  | ContentTooLong => (max_content_length self <? len (content c))%Z
  | TitleTooShort => (len (title c) <? min_title_length self)%Z
  | TitleTooLong => (max_title_length self <? len (title c))%Z
  | SuspiciousPattern =>
      existsb (λ pattern, re_search lib pattern (str_lower lib (content c)))
        (suspicious_patterns self)
  | Repetitive =>
      (10 <? length (str_split "." (content c)))%nat
      && Qltb (Qnat (size (list_to_set (str_split "." (content c)) : gset string))
               / Qnat (length (str_split "." (content c)))) (5 # 10)
  | LowTextRatio =>
      Qltb (Qint (len (re_sub lib "[^a-zA-Z\s]" "" (content c))) / Qint (len (content c)))
           (6 # 10)
  | UnknownSource =>
      match source_attribution c with
      | Some a => negb (existsb (String.eqb (source a)) (valid_sources self))
      | None => false
      end
  | CitationTooLong =>
      match source_attribution c with
      | Some a => (150 <? len (to_citation_format a))%Z
      | None => false
      end
  | InvalidDate =>
      match source_attribution c with
      | Some a =>
          match publication_date a with
          | Some d => str_truthy d && negb (fromisoformat lib (str_replace "Z" "+00:00" d))
          | None => false
          end
      | None => false
      end
  | FewMusicKeywords => (music_mentions lib c <? 3)%nat
  | NoMusicKeywords => (music_mentions lib c =? 0)%nat
  | LakeIncompatible => negb (compatible (_validate_data_lake_compatibility lib c))
  end.

(** The sub-scores as products of the factors of the conditions that
    apply, and their product, scaled for the two checks that only
    fail or pass. *)
Definition quality_factors (c : ScrapedContent) : Q :=
  scale_if (applies LowTextRatio c) (9 # 10)
    (scale_if (applies Repetitive c) (8 # 10)
      (scale_if (applies SuspiciousPattern c) (2 # 10)
        (scale_if (applies TitleTooLong c) (9 # 10)
          (scale_if (applies TitleTooShort c) (5 # 10)
            (scale_if (applies ContentTooLong c) (9 # 10)
              (scale_if (applies ContentTooShort c) (3 # 10) 1)))))).

Definition attribution_factors (c : ScrapedContent) : Q :=
  scale_if (applies InvalidDate c) (9 # 10)
    (scale_if (applies CitationTooLong c) (9 # 10)
      (scale_if (applies UnknownSource c) (9 # 10) 1)).

Definition relevance_factors (c : ScrapedContent) : Q :=
  if applies NoMusicKeywords c then (1 * (5 # 10))%Q
  else if applies FewMusicKeywords c then (1 * (8 # 10))%Q
  else 1%Q.

Definition product_of_factors (c : ScrapedContent) : Q :=
  scale_if (applies LakeIncompatible c) (2 # 10)
    (scale_if (applies StructureFailed c) (3 # 10) 1
     * quality_factors c * attribution_factors c * relevance_factors c).
End Penalties.

(* ===================================================================== *)
(** ** Vocabulary of the further properties                                 *)
(* ===================================================================== *)

(** The factor by which a condition that applies scales the score. *)
Definition factor (p : Penalty) : Q :=
  match p with
  | StructureFailed => 3 # 10
  | ContentTooShort => 3 # 10
  | ContentTooLong => 9 # 10
  | TitleTooShort => 5 # 10
  | TitleTooLong => 9 # 10
  | SuspiciousPattern => 2 # 10
  | Repetitive => 8 # 10
  | LowTextRatio => 9 # 10
  | UnknownSource => 9 # 10
  | CitationTooLong => 9 # 10
  | InvalidDate => 9 # 10
  | FewMusicKeywords => 8 # 10
  | NoMusicKeywords => 5 # 10
  | LakeIncompatible => 2 # 10
  end.

(** What every retrieval method returns for [address] under the method
    name [name]: a result, never an exception; a success carries status
    200 and a text, a failure carries no text. *)
Definition strategy_result (address name : string) (o : outcome FetchResult) : Prop :=
  ∃ r, o = Returned r ∧ fr_url r = address ∧ method r = name
       ∧ (success r = true → status_code r = Some 200%Z ∧ is_Some (fr_content r))
       ∧ (success r = false → fr_content r = None ∧ status_code r ≠ Some 200%Z).

(** A record as the extractor builds it for [address] and [name]. *)
Definition extracted_record (address name : string) (c : ScrapedContent) : Prop :=
  url c = address ∧ content c ≠ ""
  ∧ (∃ a, source_attribution c = Some a ∧ source a = name
          ∧ sa_url a = address ∧ sa_title a = title c)
  ∧ is_Some (s3_key c) ∧ is_Some (content_hash c)
  ∧ validation_passed c = ((200 <? len (content c))%Z && (5 <? len (title c))%Z).

(** What an extraction strategy returns: a success with a built record,
    or a failure without one. *)
Definition sound_result (address name : string) (r : ExtractionResult) : Prop :=
  if er_success r
  then ∃ c, er_content r = Some c ∧ extracted_record address name c
            ∧ extraction_method c = "unknown" ∧ confidence_score c = (8 # 10)%Q
            ∧ confidence r ∈ [(9 # 10)%Q; (8 # 10)%Q; (6 # 10)%Q; (3 # 10)%Q]
  else er_content r = None.

(** [s] is empty or does not start with [c]. *)
Definition no_lead (c : ascii) (s : string) : Prop :=
  match s with
  | EmptyString => True
  | String a _ => Ascii.eqb a c = false
  end.

(** The derived key of a record without its extension. *)
Definition derived_stem (lib : PyLib) (c : ScrapedContent) : string :=
  match str_rsplit1 "." (derived_key lib c) with
  | Some (stem, _) => stem
  | None => derived_key lib c
  end.

(** [c'] is [c] with another storage key. *)
Definition same_but_key (c c' : ScrapedContent) : Prop := ∃ k, c' = set_s3_key k c.

(** A record that the validation phase of a run let through. *)
Definition validated_record (c : ScrapedContent) : Prop :=
  validation_passed c = true ∧ (5 # 10 < confidence_score c)%Q.

(** The counters of [st'] are those of [st]: only errors were added. *)
Definition same_counters (st st' : Stats) : Prop :=
  discovered st' = discovered st ∧ fetched st' = fetched st
  ∧ extracted st' = extracted st ∧ validated st' = validated st
  ∧ uploaded st' = uploaded st.

(** The source under which phase 4 of a run files a batch. *)
Definition mapped_source (lib : PyLib) (config : ScraperConfig) : Source :=
  match find (λ kv, String.eqb (fst kv) (str_lower lib (source_name config)))
             source_mapping with
  | Some kv => snd kv
  | None => PITCHFORK
  end.

(* ===================================================================== *)
(** * Properties                                                            *)
(* ===================================================================== *)

(** ** Arithmetic of scores *)

Lemma Qltb_lt x y : Qltb x y = true ↔ (x < y)%Q.
Proof.
  unfold Qltb. rewrite negb_true_iff. split.
  - intros H. apply Qnot_le_lt. intros Hle. apply Qle_bool_iff in Hle. congruence.
  - intros H. destruct (Qle_bool y x) eqn:E; [|done].
    apply Qle_bool_iff in E. exfalso. apply (Qlt_not_le _ _ H E).
Qed.

Lemma Qltb_ge x y : Qltb x y = false ↔ (y <= x)%Q.
Proof.
  unfold Qltb. rewrite negb_false_iff. apply Qle_bool_iff.
Qed.

#[global] Instance Qltb_proper : Proper (Qeq ==> Qeq ==> eq) Qltb.
Proof.
  intros x x' Hx y y' Hy.
  destruct (Qltb x y) eqn:E, (Qltb x' y') eqn:E'; try done.
  - apply Qltb_lt in E. apply Qltb_ge in E'. rewrite Hx, Hy in E.
    exfalso. apply (Qlt_not_le _ _ E E').
  - apply Qltb_ge in E. apply Qltb_lt in E'. rewrite Hx, Hy in E.
    exfalso. apply (Qlt_not_le _ _ E' E).
Qed.

(** [s'] is a score no greater than the score [s]. *)
Definition below (s' s : Q) : Prop := (0 <= s')%Q ∧ (s' <= s)%Q.

Lemma below_refl s : (0 <= s)%Q → below s s.
Proof. intros H. split; [done | apply Qle_refl]. Qed.

Lemma below_mult a' a b' b : below a' a → below b' b → below (a' * b') (a * b).
Proof.
  intros [Ha' Ha] [Hb' Hb]. split.
  - apply Qmult_le_0_compat; done.
  - apply Qle_trans with (a * b')%Q.
    + apply Qmult_le_compat_r; done.
    + rewrite (Qmult_comm a b'), (Qmult_comm a b).
      apply Qmult_le_compat_r; [done|]. by apply Qle_trans with a'.
Qed.

Lemma below_scale_if (b' b : bool) (f s' s : Q) :
  (0 <= f)%Q → (f <= 1)%Q → (b = true → b' = true) → below s' s →
  below (scale_if b' f s') (scale_if b f s).
Proof.
  intros Hf0 Hf1 Hb [Hs' Hs]. unfold scale_if.
  destruct b, b'; try (by specialize (Hb eq_refl)).
  - apply below_mult; [done | by apply below_refl].
  - split; [by apply Qmult_le_0_compat|].
    apply Qle_trans with (s' * 1)%Q.
    + rewrite (Qmult_comm s' f), (Qmult_comm s' 1).
      apply Qmult_le_compat_r; done.
    + rewrite Qmult_1_r. done.
  - split; done.
Qed.

(** ** The validator *)

Section ValidatorFacts.
Context (lib : PyLib).

Lemma find_existsb {A} (f : A → bool) (l : list A) :
  existsb f l = true →
  ∃ pre x post, l = pre ++ x :: post ∧ find f l = Some x ∧ f x = true
                ∧ Forall (λ y, f y = false) pre.
Proof.
  induction l as [|a l IH]; simpl; [done|].
  destruct (f a) eqn:E.
  - intros _. exists [], a, l. by repeat split.
  - simpl. intros H. destruct (IH H) as (pre & x & post & -> & Hf & Hx & Hpre).
    exists (a :: pre), x, post. repeat split; try done. by constructor.
Qed.

Lemma len_nonempty (s : string) : s ≠ "" → (len s =? 0)%Z = false.
Proof. destruct s; [done|]. intros _. reflexivity. Qed.

Lemma quality_returns self c :
  content c ≠ "" → returns (_validate_content_quality lib self c).
Proof.
  intros H. unfold _validate_content_quality.
  destruct (first_suspicious lib self _); rewrite (len_nonempty _ H); by eexists.
Qed.

Lemma suspicious_error_recognised (p : string) :
  is_suspicious_error ("Suspicious content pattern detected: " +:+ p) = true.
Proof. destruct p; reflexivity. Qed.

(** C10.  When the body of a record matches at least one of the
    failure signatures, the quality check reports exactly one
    suspicious-pattern error, for the first pattern of the list that
    matches, and multiplies the score by 0.2 once: its result is the
    result of the check without the scan, with that one error appended
    and the score scaled by 0.2, however many patterns match.  (A body
    that matches a pattern is not empty; on an empty body the check
    raises.) *)
Theorem suspicious_pattern_counted_once (c : ScrapedContent) :
  content c ≠ "" →
  existsb (λ pattern, re_search lib pattern (str_lower lib (content c)))
    (suspicious_patterns ContentValidator__init__) = true →
  ∃ v v0 pre p post,
    _validate_content_quality lib ContentValidator__init__ c = Returned v
    ∧ _validate_content_quality lib (without_patterns ContentValidator__init__) c
      = Returned v0
    ∧ suspicious_patterns ContentValidator__init__ = pre ++ p :: post
    ∧ Forall (λ q, re_search lib q (str_lower lib (content c)) = false) pre
    ∧ re_search lib p (str_lower lib (content c)) = true
    ∧ errors v = errors v0 ++ ["Suspicious content pattern detected: " +:+ p]
    ∧ length (List.filter is_suspicious_error (errors v)) = 1%nat
    ∧ (score v == score v0 * (2 # 10))%Q
    ∧ warnings v = warnings v0
    ∧ passed v = false.
Proof.
  intros Hne Hex.
  destruct (find_existsb _ _ Hex) as (pre & p & post & Hsplit & Hfind & Hp & Hpre).
  unfold _validate_content_quality, first_suspicious.
  rewrite Hfind. rewrite (len_nonempty _ Hne).
  cbn [suspicious_patterns without_patterns find].
  do 5 eexists. split; [reflexivity|]. split; [reflexivity|].
  split; [exact Hsplit|]. split; [exact Hpre|]. split; [exact Hp|].
  cbn [errors score warnings passed].
  unfold without_patterns, ContentValidator__init__.
  cbn [min_content_length max_content_length min_title_length max_title_length].
  destruct (len (title c) <? 5)%Z, (len (content c) <? 200)%Z;
    (split; [reflexivity|]);
    (split; [rewrite List.filter_app, length_app; cbn [List.filter];
             rewrite suspicious_error_recognised; reflexivity|]);
    (split; [|split; [reflexivity|by rewrite length_app, Nat.add_comm]]);
    unfold scale_if; repeat case_match; ring.
Qed.
End ValidatorFacts.

Section Mono.
Context (lib : PyLib) (self : ContentValidator).

Lemma find_none_existsb {A} (f : A → bool) (l : list A) :
  find f l = None ↔ existsb f l = false.
Proof.
  induction l as [|a l IH]; simpl; [done|].
  destruct (f a); simpl; [split; done | exact IH].
Qed.

Lemma quality_score c q :
  _validate_content_quality lib self c = Returned q →
  score q = quality_factors lib self c.
Proof.
  unfold _validate_content_quality, first_suspicious, quality_factors. cbn [applies].
  destruct (find _ (suspicious_patterns self)) as [p|] eqn:Hfind.
  - assert (existsb (λ pattern, re_search lib pattern (str_lower lib (content c)))
              (suspicious_patterns self) = true) as ->.
    { destruct (existsb _ _) eqn:E; [done|].
      apply find_none_existsb in E. congruence. }
    destruct (len (content c) =? 0)%Z; [done|]. by intros [= <-].
  - apply find_none_existsb in Hfind as ->.
    destruct (len (content c) =? 0)%Z; [done|]. by intros [= <-].
Qed.

Lemma attribution_score c a r :
  source_attribution c = Some a →
  _validate_source_attribution lib self (Some a) = Returned r →
  score r = attribution_factors lib self c.
Proof.
  intros Hc H. unfold attribution_factors. cbn [applies]. rewrite Hc.
  unfold _validate_source_attribution in H.
  destruct (str_truthy (sa_url a)).
  - destruct (urlparse lib (sa_url a)); [|done]. by injection H as <-.
  - by injection H as <-.
Qed.

Lemma relevance_score c :
  score (_validate_music_relevance lib c) = relevance_factors lib self c.
Proof.
  unfold _validate_music_relevance, relevance_factors. cbn [applies].
  destruct (music_mentions lib c =? 0)%nat; [done|].
  destruct (music_mentions lib c <? 3)%nat; done.
Qed.

Lemma validation_score c v :
  validate_scraped_content lib self c = Returned v →
  score v = product_of_factors lib self c.
Proof.
  unfold validate_scraped_content, product_of_factors. cbn [applies].
  destruct (_validate_structure lib self c) as [sr|] eqn:Hs; [|done].
  assert (∃ a, source_attribution c = Some a) as [a Ha].
  { unfold _validate_structure, to_v3_format in Hs.
    destruct (source_attribution c); [by eexists | done]. }
  cbn [mbind outcome_bind].
  destruct (_validate_content_quality lib self c) as [q|] eqn:Hq; [|done].
  cbn [mbind outcome_bind]. rewrite Ha.
  destruct (_validate_source_attribution lib self (Some a)) as [r|] eqn:Hr; [|done].
  cbn [mbind outcome_bind]. unfold mret, outcome_ret.
  intros [= <-]. cbn [score].
  by rewrite (quality_score _ _ Hq), (attribution_score _ _ _ Ha Hr), relevance_score.
Qed.

Lemma product_of_factors_below c c' :
  (∀ p, applies lib self p c = true → applies lib self p c' = true) →
  below (product_of_factors lib self c') (product_of_factors lib self c).
Proof.
  intros H.
  assert (below 1 1) as H11 by (by apply below_refl).
  unfold product_of_factors, quality_factors, attribution_factors, relevance_factors.
  repeat first
    [ apply below_scale_if; [done | done | apply H | ]
    | apply below_mult
    | exact H11 ].
  pose proof (H NoMusicKeywords) as Hno. pose proof (H FewMusicKeywords) as Hfew.
  destruct (applies lib self NoMusicKeywords c), (applies lib self FewMusicKeywords c),
    (applies lib self NoMusicKeywords c'), (applies lib self FewMusicKeywords c');
    try (by specialize (Hno eq_refl)); try (by specialize (Hfew eq_refl));
    split; done.
Qed.

Lemma unit_scale_if (b : bool) (f s : Q) :
  (0 <= f)%Q → (f <= 1)%Q → below s 1 → below (scale_if b f s) 1.
Proof.
  intros Hf0 Hf1 Hs.
  by apply (below_scale_if b false f s 1).
Qed.

Lemma unit_mult (a b : Q) : below a 1 → below b 1 → below (a * b) 1.
Proof.
  intros Ha Hb. destruct (below_mult _ _ _ _ Ha Hb) as [H0 H1].
  split; [done|]. by rewrite Qmult_1_l in H1.
Qed.

Lemma product_of_factors_unit c : below (product_of_factors lib self c) 1.
Proof.
  assert (below 1 1) as H11 by (by apply below_refl).
  unfold product_of_factors, quality_factors, attribution_factors, relevance_factors.
  repeat first
    [ apply unit_scale_if; [done | done | ]
    | apply unit_mult
    | exact H11 ].
  repeat case_match; split; done.
Qed.

(** C2.  The score of a record is the product of the factors (all in
    [0,1]) of the conditions that apply to it; so when every condition
    that applies to [c] also applies to [c'] (for instance [c'] triggers
    one condition more and is otherwise like [c]), the score of [c'] is
    at most that of [c].  Both records are ones that validation scores:
    on a record without attribution or with an empty body it raises. *)
Theorem validation_score_monotone (c c' : ScrapedContent) (v v' : ValidationResult) :
  validate_scraped_content lib self c = Returned v →
  validate_scraped_content lib self c' = Returned v' →
  (∀ p, applies lib self p c = true → applies lib self p c' = true) →
  score v = product_of_factors lib self c
  ∧ score v' = product_of_factors lib self c'
  ∧ (0 <= score v')%Q ∧ (score v' <= score v)%Q ∧ (score v <= 1)%Q.
Proof.
  intros Hv Hv' Himp.
  rewrite (validation_score _ _ Hv), (validation_score _ _ Hv').
  destruct (product_of_factors_below _ _ Himp) as [H0 Hle].
  destruct (product_of_factors_unit c) as [_ H1].
  by repeat split.
Qed.
End Mono.

Section Gate.
Context (lib : PyLib) (self : ContentValidator).

(** C9.  Batch validation of a batch without items returns
    passed = false, score 0.0 and the error "Batch contains no content
    items", and the safety gate returns safe = false for it. *)
Theorem empty_batch_never_admitted (batch : ScrapingBatch) :
  content_items batch = [] →
  validate_batch lib self batch
    = Returned {| passed := false; score := 0;
                  errors := ["Batch contains no content items"];
                  warnings := []; metadata := [] |}
  ∧ pre_processing_safety_check lib self batch
    = Returned (false, ["Batch contains no content items"]).
Proof.
  intros H. unfold pre_processing_safety_check, validate_batch, batch_sources.
  rewrite H. split; reflexivity.
Qed.

Lemma append_if_elem {A} (b : bool) (x : A) (xs : list A) (y : A) :
  y ∈ xs → y ∈ append_if b x xs.
Proof. destruct b; simpl; [|done]. intros. apply elem_of_app. by left. Qed.

Lemma append_if_true_elem {A} (x : A) (xs : list A) : x ∈ append_if true x xs.
Proof. simpl. apply elem_of_app. right. by apply list_elem_of_singleton. Qed.

Lemma length_eqb_elem {A} (x : A) (xs : list A) : x ∈ xs → (length xs =? 0)%nat = false.
Proof. destruct xs; [by intros ?%elem_of_nil | done]. Qed.

Lemma two_sources (batch : ScrapingBatch) (c1 c2 : ScrapedContent) (a1 a2 : SourceAttribution) :
  c1 ∈ content_items batch → c2 ∈ content_items batch →
  source_attribution c1 = Some a1 → source_attribution c2 = Some a2 →
  source a1 ≠ source a2 →
  (1 <? size (batch_sources batch))%nat = true.
Proof.
  intros H1 H2 Ha1 Ha2 Hne. apply Nat.ltb_lt.
  assert (source a1 ∈ batch_sources batch) as Hs1.
  { unfold batch_sources. apply elem_of_list_to_set, list_elem_of_omap.
    exists c1. by rewrite Ha1. }
  assert (source a2 ∈ batch_sources batch) as Hs2.
  { unfold batch_sources. apply elem_of_list_to_set, list_elem_of_omap.
    exists c2. by rewrite Ha2. }
  assert ({[source a1; source a2]} ⊆ batch_sources batch) as Hsub.
  { intros x [->%elem_of_singleton | ->%elem_of_singleton]%elem_of_union; assumption. }
  apply subseteq_size in Hsub.
  rewrite size_union in Hsub
    by (apply disjoint_singleton_l; intros Heq%elem_of_singleton; done).
  rewrite !size_singleton in Hsub. lia.
Qed.

(** The gate rejects a batch with two sources whenever batch validation
    completes. *)
Lemma mixed_sources_rejected (batch : ScrapingBatch) c1 c2 a1 a2 :
  c1 ∈ content_items batch → c2 ∈ content_items batch →
  source_attribution c1 = Some a1 → source_attribution c2 = Some a2 →
  source a1 ≠ source a2 →
  returns (validate_batch lib self batch) →
  ∃ errs, pre_processing_safety_check lib self batch = Returned (false, errs)
          ∧ "Mixed sources in single batch - should be separated" ∈ errs.
Proof.
  intros H1 H2 Ha1 Ha2 Hne [r Hr]. unfold pre_processing_safety_check.
  rewrite Hr. cbn [mbind outcome_bind]. unfold mret, outcome_ret.
  rewrite (two_sources batch c1 c2 a1 a2) by done.
  eexists. split; [|apply append_if_true_elem].
  f_equal. f_equal. eapply length_eqb_elem, append_if_true_elem.
Qed.
End Gate.

Section Identical.
Context (lib : PyLib) (self : ContentValidator).

Lemma Qsum_from (xs : list Q) (a : Q) : (fold_left Qplus xs a == a + Qsum xs)%Q.
Proof.
  unfold Qsum. revert a. induction xs as [|x xs IH]; intros a; simpl.
  - ring.
  - rewrite IH, (IH (0 + x)%Q). ring.
Qed.

Lemma Qsum_replicate (n : nat) (s : Q) : (Qsum (replicate n s) == Qnat n * s)%Q.
Proof.
  induction n as [|n IH].
  - reflexivity.
  - unfold Qsum in *. cbn [replicate fold_left]. rewrite Qsum_from. unfold Qsum.
    rewrite IH. unfold Qnat. rewrite Nat2Z.inj_succ, <- Z.add_1_r, inject_Z_plus. ring.
Qed.

Lemma Qnat_pos (n : nat) : (0 < n)%nat → (0 < Qnat n)%Q.
Proof.
  intros H. unfold Qnat. change 0%Q with (inject_Z 0). rewrite <- Zlt_Qlt. lia.
Qed.

Lemma average_replicate (n : nat) (s : Q) :
  (0 < n)%nat → (Qsum (replicate n s) / Qnat n == s)%Q.
Proof.
  intros H. rewrite Qsum_replicate. field.
  intros Hz. pose proof (Qnat_pos n H) as Hp. rewrite Hz in Hp. by apply Qlt_irrefl in Hp.
Qed.

Lemma all_succeeded (n : nat) :
  (0 < n)%nat → (Qint (Z.of_nat n - Z.of_nat 0) / Qnat n == 1)%Q.
Proof.
  intros H. unfold Qint. rewrite Z.sub_0_r. fold (Qnat n). field.
  intros Hz. pose proof (Qnat_pos n H) as Hp. rewrite Hz in Hp. by apply Qlt_irrefl in Hp.
Qed.

(** The loop of [validate_batch] over copies of a record that passes. *)
Lemma validate_items_replicate (item : ScrapedContent) (v : ValidationResult)
    (n i : nat) (acc : batch_acc) :
  validate_scraped_content lib self item = Returned v →
  passed v = true →
  ∃ ws, validate_items lib self i (replicate n item) acc
        = Returned {| item_scores := item_scores acc ++ replicate n (score v);
                      total_errors := total_errors acc;
                      acc_errors := acc_errors acc;
                      acc_warnings := ws |}.
Proof.
  intros Hv Hp. revert i acc. induction n as [|n IH]; intros i acc.
  - exists (acc_warnings acc). cbn [replicate validate_items].
    rewrite app_nil_r. by destruct acc.
  - cbn [replicate validate_items]. rewrite Hv. cbn [mbind outcome_bind].
    rewrite Hp. cbn [negb].
    edestruct IH as [ws ->]. exists ws. cbn [item_scores total_errors acc_errors].
    by rewrite <- app_assoc.
Qed.

Lemma sources_replicate (batch : ScrapingBatch) (item : ScrapedContent) (n : nat) :
  content_items batch = replicate n item →
  (1 <? size (batch_sources batch))%nat = false.
Proof.
  intros H. apply Nat.ltb_ge. unfold batch_sources. rewrite H.
  destruct (source <$> source_attribution item) as [src|] eqn:E.
  - assert (list_to_set (omap (λ it, source <$> source_attribution it) (replicate n item))
            ⊆ ({[src]} : gset string)) as Hsub.
    { intros x [it [Hit Hx]]%elem_of_list_to_set%list_elem_of_omap.
      apply elem_of_replicate_inv in Hit as ->.
      apply elem_of_singleton. congruence. }
    apply subseteq_size in Hsub. by rewrite size_singleton in Hsub.
  - assert (omap (λ it, source <$> source_attribution it) (replicate n item) = []) as ->.
    { clear H. induction n as [|n IH]; [done|]. simpl. rewrite E. exact IH. }
    rewrite list_to_set_nil, size_empty. lia.
Qed.

(** The verdict of the gate on n >= 1 copies of a record that passes. *)
Lemma identical_items_verdict (batch : ScrapingBatch) (item : ScrapedContent)
    (v : ValidationResult) (n : nat) :
  content_items batch = replicate n item → (0 < n)%nat →
  validate_scraped_content lib self item = Returned v →
  passed v = true →
  pre_processing_safety_check lib self batch
  = Returned
      (let avg_score := (Qsum (replicate n (score v)) / Qnat n)%Q in
       let errs :=
         append_if (100 <? n)%nat
           ("Batch too large: " +:+ pretty n +:+ " items (max: 100)")
           (append_if (Qltb avg_score (6 # 10))
              ("Batch average quality too low: " +:+ format_fixed2 lib avg_score) []) in
       ((length errs =? 0)%nat, errs)).
Proof.
  intros Hitems Hn Hv Hp.
  unfold pre_processing_safety_check.
  rewrite (sources_replicate batch item n Hitems).
  unfold validate_batch. rewrite Hitems.
  destruct n as [|n]; [lia|]. cbn [replicate]. rewrite <- (replicate_S).
  edestruct (validate_items_replicate item v (S n) 0
               {| item_scores := []; total_errors := 0;
                  acc_errors := []; acc_warnings := [] |} Hv Hp) as [ws ->].
  rewrite length_replicate.
  cbn [mbind outcome_bind item_scores total_errors acc_errors acc_warnings app].
  cbn [replicate]. rewrite <- (replicate_S).
  rewrite length_replicate.
  assert (Qltb (Qint (Z.of_nat (S n) - Z.of_nat 0) / Qnat (S n)) (7 # 10) = false) as ->.
  { rewrite all_succeeded by lia. reflexivity. }
  unfold mret, outcome_ret. cbn [append_if passed errors].
  destruct (Qltb (Qsum (replicate (S n) (score v)) / Qnat (S n)) (6 # 10));
    destruct (100 <? S n)%nat; reflexivity.
Qed.

(** C6, amended.  For a batch of n >= 1 copies of a record that passes
    single-record validation, the gate returns, and its errors contain
    the batch-too-large error exactly when n > 100, in which case safe =
    false; when moreover the score of the record is at least 0.6 (the
    threshold of the batch average), that error is the only one and safe
    = true for every n <= 100. *)
Theorem identical_items_gate (batch : ScrapingBatch) (item : ScrapedContent)
    (v : ValidationResult) (n : nat) :
  content_items batch = replicate n item → (0 < n)%nat →
  validate_scraped_content lib self item = Returned v →
  passed v = true →
  ∃ safe errs,
    pre_processing_safety_check lib self batch = Returned (safe, errs)
    ∧ ("Batch too large: " +:+ pretty n +:+ " items (max: 100)" ∈ errs ↔ (100 < n)%nat)
    ∧ ((100 < n)%nat → safe = false)
    ∧ ((6 # 10 <= score v)%Q →
       errs = (if (100 <? n)%nat
               then ["Batch too large: " +:+ pretty n +:+ " items (max: 100)"]
               else [])
       ∧ safe = negb (100 <? n)%nat).
Proof.
  intros Hitems Hn Hv Hp.
  rewrite (identical_items_verdict batch item v n Hitems Hn Hv Hp). cbn zeta.
  eexists _, _. split; [reflexivity|].
  assert ((6 # 10 <= score v)%Q →
          Qltb (Qsum (replicate n (score v)) / Qnat n) (6 # 10) = false) as Havg.
  { intros Hs. rewrite average_replicate by lia. by apply Qltb_ge. }
  destruct (100 <? n)%nat eqn:E.
  - apply Nat.ltb_lt in E. split; [|split].
    + split; [done|]. intros _. cbn [append_if]. apply elem_of_app. right.
      by apply list_elem_of_singleton.
    + intros _. cbn [append_if]. by rewrite length_app, Nat.add_comm.
    + intros Hs. rewrite (Havg Hs). done.
  - apply Nat.ltb_ge in E. split; [|split].
    + split; [|lia]. cbn [append_if].
      destruct (Qltb _ _); cbn [append_if app].
      * intros Hin%list_elem_of_singleton. cbn in Hin. discriminate Hin.
      * by intros ?%elem_of_nil.
    + lia.
    + intros Hs. rewrite (Havg Hs). done.
Qed.
End Identical.

(** ** Runs of the validator on the example records *)

Lemma suspicious_pattern_counted_once_witness :
  ∃ v, _validate_content_quality Demo.demo_lib ContentValidator__init__ Examples.blocked
       = Returned v
       ∧ errors v = [ "Content too short: 94 chars (min: 200)";
                      "Suspicious content pattern detected: access denied" ]
       ∧ length (List.filter is_suspicious_error (errors v)) = 1%nat.
Proof.
  destruct (suspicious_pattern_counted_once Demo.demo_lib Examples.blocked)
    as (v & v0 & pre & p & post & Hv & _ & _ & _ & _ & He & Hc & _).
  - intros H. vm_compute in H. discriminate H.
  - vm_compute. reflexivity.
  - exists v. split; [exact Hv|]. split; [|exact Hc].
    vm_compute in Hv. injection Hv as <-. reflexivity.
Defined.

Lemma validation_score_monotone_witness :
  ∃ v v',
    validate_scraped_content Demo.demo_lib ContentValidator__init__ Examples.horses = Returned v
    ∧ validate_scraped_content Demo.demo_lib ContentValidator__init__ Examples.dull = Returned v'
    ∧ (score v' <= score v)%Q.
Proof.
  destruct (validate_scraped_content Demo.demo_lib ContentValidator__init__ Examples.horses)
    as [v|] eqn:Hv; [|vm_compute in Hv; discriminate Hv].
  destruct (validate_scraped_content Demo.demo_lib ContentValidator__init__ Examples.dull)
    as [v'|] eqn:Hv'; [|vm_compute in Hv'; discriminate Hv'].
  exists v, v'. split; [reflexivity|]. split; [reflexivity|].
  apply (validation_score_monotone Demo.demo_lib ContentValidator__init__ Examples.horses Examples.dull v v' Hv Hv').
  intros p. destruct p; vm_compute; congruence.
Defined.

Lemma empty_batch_never_admitted_witness :
  content_items (Examples.batch_of []) = []
  ∧ pre_processing_safety_check Demo.demo_lib ContentValidator__init__ (Examples.batch_of [])
    = Returned (false, ["Batch contains no content items"]).
Proof.
  split; [reflexivity|].
  apply (empty_batch_never_admitted Demo.demo_lib ContentValidator__init__ (Examples.batch_of [])).
  reflexivity.
Defined.

Section GateRaises.
Context (lib : PyLib) (self : ContentValidator).

Lemma structure_returns (c : ScrapedContent) (a : SourceAttribution) :
  source_attribution c = Some a →
  (str_truthy (url c) = true → returns (urlparse lib (url c))) →
  returns (_validate_structure lib self c).
Proof.
  intros Ha Hu. unfold _validate_structure, to_v3_format. rewrite Ha.
  cbn [mbind outcome_bind].
  destruct (str_truthy (url c)).
  - destruct (Hu eq_refl) as [parsed ->]. by eexists.
  - by eexists.
Qed.

Lemma empty_body_raises (c : ScrapedContent) (a : SourceAttribution) :
  source_attribution c = Some a →
  (str_truthy (url c) = true → returns (urlparse lib (url c))) →
  content c = "" →
  validate_scraped_content lib self c = Raised ZeroDivisionError.
Proof.
  intros Ha Hu Hc. unfold validate_scraped_content.
  destruct (structure_returns c a Ha Hu) as [sr ->]. cbn [mbind outcome_bind].
  unfold _validate_content_quality. rewrite Hc.
  change (len "" =? 0)%Z with true. cbn iota.
  by destruct (first_suspicious lib self (str_lower lib "")).
Qed.

(** C5, at an input where the code departs from it.  A batch with items of
    two sources whose first item has an empty body (the default of the
    field) and an attribution: batch validation divides by the length of
    the body, and the gate raises ZeroDivisionError instead of returning
    safe = false with the mixed-sources error. *)
Theorem gate_raises_on_empty_body (batch : ScrapingBatch) (c c' : ScrapedContent)
    (rest : list ScrapedContent) (a a' : SourceAttribution) :
  content_items batch = c :: rest → c' ∈ rest →
  source_attribution c = Some a → source_attribution c' = Some a' →
  source a ≠ source a' →
  content c = "" →
  (str_truthy (url c) = true → returns (urlparse lib (url c))) →
  pre_processing_safety_check lib self batch = Raised ZeroDivisionError.
Proof.
  intros Hitems _ Ha _ _ Hc Hu.
  unfold pre_processing_safety_check, validate_batch. rewrite Hitems.
  cbn [validate_items]. by rewrite (empty_body_raises c a Ha Hu Hc).
Qed.
(** Validation returns for a record with an attribution and a non-empty
    body whose URLs the parser accepts. *)
Lemma validation_returns (c : ScrapedContent) (a : SourceAttribution) :
  source_attribution c = Some a →
  content c ≠ "" →
  (str_truthy (url c) = true → returns (urlparse lib (url c))) →
  (str_truthy (sa_url a) = true → returns (urlparse lib (sa_url a))) →
  returns (validate_scraped_content lib self c).
Proof.
  intros Ha Hc Hu Hau. unfold validate_scraped_content.
  destruct (structure_returns c a Ha Hu) as [sr ->]. cbn [mbind outcome_bind].
  destruct (quality_returns lib self c Hc) as [q ->]. cbn [mbind outcome_bind].
  rewrite Ha. unfold _validate_source_attribution.
  destruct (str_truthy (sa_url a)).
  - destruct (Hau eq_refl) as [parsed ->]. by eexists.
  - by eexists.
Qed.

End GateRaises.

Lemma gate_raises_on_empty_body_witness :
  pre_processing_safety_check Demo.demo_lib ContentValidator__init__
    (Examples.batch_of [Examples.empty_body; Examples.horses]) = Raised ZeroDivisionError.
Proof.
  eapply (gate_raises_on_empty_body Demo.demo_lib ContentValidator__init__
            (Examples.batch_of [Examples.empty_body; Examples.horses]) Examples.empty_body Examples.horses [Examples.horses]).
  - reflexivity.
  - apply list_elem_of_singleton. reflexivity.
  - reflexivity.
  - reflexivity.
  - vm_compute. intros H. discriminate H.
  - reflexivity.
  - intros _. eexists. vm_compute. reflexivity.
Defined.

(** C6 as stated fails: 99 copies of a record that passes single-record
    validation with score 0.576 are rejected by the gate, for the average
    quality of the batch. *)
Lemma valid_items_low_average_rejected :
  ∃ v, validate_scraped_content Demo.demo_lib ContentValidator__init__ Examples.dull = Returned v
       ∧ passed v = true
       ∧ pre_processing_safety_check Demo.demo_lib ContentValidator__init__
           (Examples.batch_of (replicate 99 Examples.dull))
         = Returned (false, ["Batch average quality too low: 0.58"]).
Proof.
  destruct (validate_scraped_content Demo.demo_lib ContentValidator__init__ Examples.dull)
    as [v|] eqn:Hv; [|vm_compute in Hv; discriminate Hv].
  assert (passed v = true) as Hp by (vm_compute in Hv; by injection Hv as <-).
  exists v. split; [reflexivity|]. split; [exact Hp|].
  rewrite (identical_items_verdict Demo.demo_lib ContentValidator__init__
             (Examples.batch_of (replicate 99 Examples.dull)) Examples.dull v 99
             eq_refl ltac:(lia) Hv Hp).
  vm_compute in Hv. injection Hv as <-. vm_compute. reflexivity.
Qed.

Lemma identical_items_gate_witness :
  pre_processing_safety_check Demo.demo_lib ContentValidator__init__
    (Examples.batch_of (replicate 99 Examples.horses)) = Returned (true, [])
  ∧ pre_processing_safety_check Demo.demo_lib ContentValidator__init__
      (Examples.batch_of (replicate 101 Examples.horses))
    = Returned (false, ["Batch too large: 101 items (max: 100)"]).
Proof.
  destruct (validate_scraped_content Demo.demo_lib ContentValidator__init__ Examples.horses)
    as [v|] eqn:Hv; [|vm_compute in Hv; discriminate Hv].
  assert (passed v = true ∧ (6 # 10 <= score v)%Q) as [Hp Hs].
  { vm_compute in Hv. injection Hv as <-. split; [reflexivity|]. vm_compute. discriminate. }
  split.
  - destruct (identical_items_gate Demo.demo_lib ContentValidator__init__
                (Examples.batch_of (replicate 99 Examples.horses)) Examples.horses v 99
                eq_refl ltac:(lia) Hv Hp) as (safe & errs & -> & _ & _ & Hok).
    by destruct (Hok Hs) as [-> ->].
  - destruct (identical_items_gate Demo.demo_lib ContentValidator__init__
                (Examples.batch_of (replicate 101 Examples.horses)) Examples.horses v 101
                eq_refl ltac:(lia) Hv Hp) as (safe & errs & -> & _ & _ & Hok).
    by destruct (Hok Hs) as [-> ->].
Defined.

(** ** The fetch cascade *)

Section FetchCascade.
Context {World : Type} (self : @EnhancedFetcher World).

(** One turn of the loop of fetch_with_fallbacks. *)
Lemma fetch_loop_step (name : string) (strategy : fetch_strategy)
    (rest : list (string * fetch_strategy)) (url : string) (w : World)
    (invoked : list string) :
  fetch_loop ((name, strategy) :: rest) url w invoked =
    (let '(o, w') := strategy url w in
     if fetch_hit o then (o, w', invoked ++ [name])
     else fetch_loop rest url w' (invoked ++ [name])).
Proof.
  cbn [fetch_loop]. destruct (strategy url w) as [[r|e] w']; cbn [fetch_hit];
    [destruct (fetch_accepted r)|]; reflexivity.
Qed.

(** The test of the loop holds of an outcome exactly when the strategy
    returned a result that is successful and carries a text of more than
    500 characters. *)
Lemma fetch_hit_criterion (o : outcome FetchResult) :
  fetch_hit o = true
  ↔ ∃ result text, o = Returned result ∧ success result = true
                   ∧ fr_content result = Some text ∧ (500 < len text)%Z.
Proof.
  split.
  - destruct o as [r|e]; [|discriminate]. cbn [fetch_hit]. unfold fetch_accepted.
    intros H. apply andb_true_iff in H as [H Hlen]. apply andb_true_iff in H as [Hs _].
    destruct (fr_content r) as [text|] eqn:Hc; [|discriminate].
    exists r, text. repeat split; [exact Hs | exact Hc | by apply Z.ltb_lt].
  - intros (r & text & -> & Hs & Hc & Hlen). cbn [fetch_hit]. unfold fetch_accepted.
    rewrite Hs, Hc. cbn [andb opt_truthy]. apply Z.ltb_lt in Hlen as Hlt. rewrite Hlt.
    destruct text; [vm_compute in Hlen; discriminate Hlen | reflexivity].
Qed.

(** C3.  fetch_with_fallbacks calls the strategies in the fixed order
    (direct, archive.ph, archive.org, search-engine cache), each in the
    world the previous one left.  Call an outcome qualifying when the
    strategy returned (did not raise) a result with success = True whose
    text is longer than 500 characters.  Then the call returns the outcome
    of the first strategy whose outcome qualifies, in the world that
    strategy left and without calling the later ones; when no outcome
    qualifies, it returns the failure result (success = False, method
    none) with the error "All fetch strategies failed".  In every case it
    returns a result and does not raise. *)
Theorem fetch_with_fallbacks_first_accepted (url : string) (w : World) :
  let qualifies (o : outcome FetchResult) : Prop :=
    ∃ result text, o = Returned result ∧ success result = true
                   ∧ fr_content result = Some text ∧ (500 < len text)%Z in
  let '(o1, w1) := _fetch_direct self url w in
  let '(o2, w2) := _fetch_via_archive_ph self url w1 in
  let '(o3, w3) := _fetch_via_archive_org self url w2 in
  let '(o4, w4) := _fetch_via_google_cache self url w3 in
  (qualifies o1
     ∧ fetch_with_fallbacks self url w = (o1, w1, ["_fetch_direct"])
   ∨ ¬ qualifies o1 ∧ qualifies o2
     ∧ fetch_with_fallbacks self url w =
         (o2, w2, ["_fetch_direct"; "_fetch_via_archive_ph"])
   ∨ ¬ qualifies o1 ∧ ¬ qualifies o2 ∧ qualifies o3
     ∧ fetch_with_fallbacks self url w =
         (o3, w3, ["_fetch_direct"; "_fetch_via_archive_ph"; "_fetch_via_archive_org"])
   ∨ ¬ qualifies o1 ∧ ¬ qualifies o2 ∧ ¬ qualifies o3 ∧ qualifies o4
     ∧ fetch_with_fallbacks self url w =
         (o4, w4, ["_fetch_direct"; "_fetch_via_archive_ph"; "_fetch_via_archive_org";
                   "_fetch_via_google_cache"])
   ∨ ¬ qualifies o1 ∧ ¬ qualifies o2 ∧ ¬ qualifies o3 ∧ ¬ qualifies o4
     ∧ fetch_with_fallbacks self url w =
         (Returned {| success := false; fr_content := None; status_code := None;
                      fr_url := url; final_url := ""; method := "none";
                      error_message := Some "All fetch strategies failed";
                      fr_metadata := [] |},
          w4, ["_fetch_direct"; "_fetch_via_archive_ph"; "_fetch_via_archive_org";
               "_fetch_via_google_cache"]))
  ∧ ∃ result, fst (fst (fetch_with_fallbacks self url w)) = Returned result
      ∧ (success result = true
           ∧ (∃ text, fr_content result = Some text ∧ (500 < len text)%Z)
         ∨ success result = false ∧ fr_content result = None
           ∧ error_message result = Some "All fetch strategies failed").
Proof.
  intros qualifies.
  assert (Hq : ∀ o, fetch_hit o = true ↔ qualifies o) by exact fetch_hit_criterion.
  assert (Hn : ∀ o, fetch_hit o = false → ¬ qualifies o).
  { intros o Ho Hgood. apply Hq in Hgood. congruence. }
  assert (Hr : ∀ (o : outcome FetchResult) (w' : World) (names : list string),
             qualifies o →
             ∃ result, fst (fst (o, w', names)) = Returned result
               ∧ (success result = true
                    ∧ (∃ text, fr_content result = Some text ∧ (500 < len text)%Z)
                  ∨ success result = false ∧ fr_content result = None
                    ∧ error_message result = Some "All fetch strategies failed")).
  { intros o w' names (r & text & -> & Hs & Hc & Hlen). exists r.
    split; [reflexivity|]. left. split; [exact Hs|]. by exists text. }
  unfold fetch_with_fallbacks, fetch_strategies.
  rewrite fetch_loop_step. destruct (_fetch_direct self url w) as [o1 w1].
  destruct (_fetch_via_archive_ph self url w1) as [o2 w2] eqn:E2.
  destruct (_fetch_via_archive_org self url w2) as [o3 w3] eqn:E3.
  destruct (_fetch_via_google_cache self url w3) as [o4 w4] eqn:E4.
  cbn [app].
  destruct (fetch_hit o1) eqn:H1.
  { apply Hq in H1. split; [by left | by apply Hr]. }
  apply Hn in H1. rewrite fetch_loop_step, E2.
  destruct (fetch_hit o2) eqn:H2.
  { apply Hq in H2. split; [by right; left | by apply Hr]. }
  apply Hn in H2. rewrite fetch_loop_step, E3.
  destruct (fetch_hit o3) eqn:H3.
  { apply Hq in H3. split; [by right; right; left | by apply Hr]. }
  apply Hn in H3. rewrite fetch_loop_step, E4.
  destruct (fetch_hit o4) eqn:H4.
  { apply Hq in H4. split; [by right; right; right; left | by apply Hr]. }
  apply Hn in H4. cbn [fetch_loop app]. split.
  - by right; right; right; right.
  - eexists. split; [reflexivity|]. right. by cbn.
Qed.

End FetchCascade.

(** On the paywalled site the stub of the direct request is too short and
    archive.ph raises, so the call returns the page of archive.org after
    three requests and does not ask the search-engine cache. *)
Lemma fetch_with_fallbacks_first_accepted_witness :
  fetch_with_fallbacks Examples.paywalled_fetcher "https://pitchfork.com/reviews/horses" 0%nat
  = (Returned (Examples.page_of "https://pitchfork.com/reviews/horses"
                 Examples.archived_page "archive_org"),
     3%nat, ["_fetch_direct"; "_fetch_via_archive_ph"; "_fetch_via_archive_org"]).
Proof.
  pose proof (fetch_with_fallbacks_first_accepted Examples.paywalled_fetcher
                "https://pitchfork.com/reviews/horses" 0%nat) as H.
  cbv zeta in H. cbn [Examples.paywalled_fetcher _fetch_direct _fetch_via_archive_ph
                      _fetch_via_archive_org _fetch_via_google_cache] in H.
  destruct H as [H _].
  destruct H as [[H _] | [(_ & H & _) | [(_ & _ & _ & H) | [(_ & _ & H & _) | (_ & _ & H & _)]]]].
  - destruct H as (r & text & [= <-] & _ & [= <-] & Hlen). vm_compute in Hlen. discriminate Hlen.
  - destruct H as (r & text & [=] & _).
  - exact H.
  - exfalso. apply H. eexists _, _. repeat split.
  - exfalso. apply H. eexists _, _. repeat split.
Defined.

(** ** The extraction cascade *)

Section ExtractCascade.
Context (lib : PyLib) {Soup : Type} (doc : @Document Soup).

Lemma html_guard (html : string) :
  (100 <= len html)%Z → negb (str_truthy html) || (len html <? 100)%Z = false.
Proof.
  intros H. destruct html; [done|]. cbn [str_truthy negb orb]. apply Z.ltb_ge. exact H.
Qed.

(** What each strategy can return. *)
Lemma structured_data_results soup url source_name o soup' :
  _extract_structured_data lib doc soup url source_name = (o, soup') →
  match o with
  | Returned r => (er_success r = true ∧ confidence r = (9 # 10)%Q)
                  ∨ r = extraction_failed "structured_data"
  | Raised _ => True
  end.
Proof.
  unfold _extract_structured_data.
  destruct (structured_fields doc soup) as [[d|e] s]; cbn [mbind outcome_bind].
  - destruct (opt_truthy (cd_title d) && opt_truthy (cd_content d));
      intros [= <- <-]; [left|right]; done.
  - by intros [= <- <-].
Qed.

Lemma semantic_results soup url source_name o soup' :
  _extract_semantic_content lib doc soup url source_name = (o, soup') →
  match o with
  | Returned r => (er_success r = true ∧ confidence r = (8 # 10)%Q)
                  ∨ r = extraction_failed "semantic"
  | Raised _ => True
  end.
Proof.
  unfold _extract_semantic_content.
  destruct (semantic_fields doc soup) as [[d|e] s]; cbn [mbind outcome_bind].
  - destruct (_ && _); intros [= <- <-]; [left|right]; done.
  - by intros [= <- <-].
Qed.

Lemma generic_results soup url source_name o soup' :
  _extract_generic_content lib doc soup url source_name = (o, soup') →
  match o with
  | Returned r => (er_success r = true ∧ confidence r = (6 # 10)%Q)
                  ∨ r = extraction_failed "generic"
  | Raised _ => True
  end.
Proof.
  unfold _extract_generic_content.
  destruct (generic_fields doc soup) as [[d|e] s]; cbn [mbind outcome_bind].
  - destruct (_ && _); intros [= <- <-]; [left|right]; done.
  - by intros [= <- <-].
Qed.

Lemma fallback_results soup url source_name o soup' :
  _extract_fallback_content lib doc soup url source_name = (o, soup') →
  match o with
  | Returned r => (er_success r = true ∧ confidence r = (3 # 10)%Q)
                  ∨ r = extraction_failed "fallback"
  | Raised _ => True
  end.
Proof.
  unfold _extract_fallback_content.
  destruct (fallback_fields doc soup) as [[[t [b|]]|e] s]; cbn [mbind outcome_bind].
  - destruct (300 <? len b)%Z; intros [= <- <-]; [left|right]; done.
  - intros [= <- <-]. by right.
  - by intros [= <- <-].
Qed.

Ltac concrete_Qle :=
  match goal with
  | |- (_ <= _)%Q => unfold Qle; cbn; lia
  end.

(** The cases of what one strategy returned. *)
Ltac strategy_cases o E :=
  let r := fresh "r" in
  let e := fresh "e" in
  destruct o as [r|e];
  [ destruct E as [[? ?]| ->];
    [ destruct r; cbn [er_success confidence] in *; subst | ]
  | ].

Ltac cascade_cases :=
  cbn;
  (split; [reflexivity|]); (split; [done|]);
  intros _ o r Hin ->;
  repeat (apply elem_of_cons in Hin as [Hin|Hin]);
  try (by apply elem_of_nil in Hin);
  try discriminate Hin;
  injection Hin as ->;
  cbn [er_success confidence extraction_failed];
  (split; [concrete_Qle | try done; intros _; concrete_Qle]).

(** C4, amended.  For HTML of at least 100 characters: when the
    structured-data strategy succeeds (its confidence, 0.9, is the only
    one over 0.8), its result is returned and no other strategy is
    invoked; otherwise all four strategies are invoked in order, none of
    the later results exceeds 0.8, and the result is the first, which is
    the highest-confidence, successful one of them, or the failure "All
    extraction strategies failed" when there is none. *)
Theorem extract_content_cascade (html url source_name : string) :
  (100 <= len html)%Z →
  let '(o1, s1) := _extract_structured_data lib doc (BeautifulSoup doc html) url source_name in
  let '(o2, s2) := _extract_semantic_content lib doc s1 url source_name in
  let '(o3, s3) := _extract_generic_content lib doc s2 url source_name in
  let '(o4, s4) := _extract_fallback_content lib doc s3 url source_name in
  extract_content lib doc html url source_name =
    match first_success [o1] with
    | Some r1 => (r1, ["_extract_structured_data"])
    | None =>
        (default (extraction_error "All extraction strategies failed")
           (first_success [o2; o3; o4]),
         ["_extract_structured_data"; "_extract_semantic_content";
          "_extract_generic_content"; "_extract_fallback_content"])
    end
  ∧ (∀ r1, first_success [o1] = Some r1 → (8 # 10 < confidence r1)%Q)
  ∧ (first_success [o1] = None →
     ∀ o r, o ∈ [o2; o3; o4] → o = Returned r →
       (confidence r <= 8 # 10)%Q
       ∧ (er_success r = true →
          (confidence r <= confidence (fst (extract_content lib doc html url source_name)))%Q)).
Proof.
  intros Hlen. unfold extract_content. rewrite (html_guard _ Hlen).
  unfold extraction_strategies. cbn [extract_loop app].
  destruct (_extract_structured_data lib doc (BeautifulSoup doc html) url source_name)
    as [o1 s1] eqn:E1.
  destruct (_extract_semantic_content lib doc s1 url source_name) as [o2 s2] eqn:E2.
  destruct (_extract_generic_content lib doc s2 url source_name) as [o3 s3] eqn:E3.
  destruct (_extract_fallback_content lib doc s3 url source_name) as [o4 s4] eqn:E4.
  apply structured_data_results in E1. apply semantic_results in E2.
  apply generic_results in E3. apply fallback_results in E4.
  unfold first_success. cbn [first_some].
  strategy_cases o1 E1.
  - cbn. split; [reflexivity|]. split; [|done].
    intros r [= <-]. reflexivity.
  - cbn [er_success confidence extraction_failed andb].
    change (Qltb (8 # 10) 0) with false. cbn iota.
    strategy_cases o2 E2. all: strategy_cases o3 E3. all: strategy_cases o4 E4.
    all: cascade_cases.
  - strategy_cases o2 E2. all: strategy_cases o3 E3. all: strategy_cases o4 E4.
    all: cascade_cases.
Qed.
End ExtractCascade.

(** ** The uploader *)

Section UploaderFacts.
Context (lib : PyLib).

Lemma key_exists_faultless (s3 : S3) (k : string) :
  faultless s3 →
  _key_exists k s3 = Returned (bool_decide (is_Some (objects s3 !! k))).
Proof.
  intros (_ & Hh & _). unfold _key_exists, head_object. rewrite Hh.
  by destruct (objects s3 !! k).
Qed.

Lemma put_object_faultless (s3 : S3) (k : string) (body : S3Body) :
  faultless s3 →
  put_object s3 k body = (Returned (), with_objects (<[k := body]> (objects s3)) s3).
Proof. intros (_ & _ & Hp). unfold put_object. by rewrite Hp. Qed.

Lemma with_objects_faultless (s3 : S3) (m : gmap string S3Body) :
  faultless s3 → faultless (with_objects m s3).
Proof. intros (? & ? & ?). by repeat split. Qed.

(** When every suffixed key is taken the loop ends without a key. *)
Lemma unique_key_loop_exhausted (s3 : S3) (base_name extension : string) (fuel counter : nat) :
  faultless s3 →
  (∀ n, counter ≤ n < 100 → is_Some (objects s3 !! suffixed_key base_name n extension)) →
  unique_key_loop fuel counter base_name extension s3 = Returned None.
Proof.
  intros Hf. revert counter. induction fuel as [|fuel IH]; intros counter Hall; [done|].
  cbn [unique_key_loop]. destruct (counter <? 100)%nat eqn:E; [|done].
  apply Nat.ltb_lt in E.
  rewrite (key_exists_faultless _ _ Hf). cbn [mbind outcome_bind].
  rewrite bool_decide_eq_true_2 by (apply Hall; lia). cbn [negb].
  apply IH. intros n Hn. apply Hall. lia.
Qed.

(** The loop returns the first suffixed key that is free. *)
Lemma unique_key_loop_first_free (s3 : S3) (base_name extension : string)
    (fuel counter n : nat) :
  faultless s3 →
  counter ≤ n < 100 → n < counter + fuel →
  (∀ m, counter ≤ m < n → is_Some (objects s3 !! suffixed_key base_name m extension)) →
  objects s3 !! suffixed_key base_name n extension = None →
  unique_key_loop fuel counter base_name extension s3
  = Returned (Some (suffixed_key base_name n extension)).
Proof.
  intros Hf. revert counter. induction fuel as [|fuel IH]; intros counter Hn Hfuel Hall Hfree;
    [lia|].
  cbn [unique_key_loop]. rewrite (proj2 (Nat.ltb_lt counter 100)) by lia.
  rewrite (key_exists_faultless _ _ Hf). cbn [mbind outcome_bind].
  destruct (decide (counter = n)) as [->|Hne].
  - rewrite bool_decide_eq_false_2; [done|]. rewrite Hfree. by intros [? ?].
  - rewrite bool_decide_eq_true_2 by (apply Hall; lia). cbn [negb].
    apply IH; [lia | lia | | done]. intros m Hm. apply Hall. lia.
Qed.

(** An upload whose derived key is taken is written under the first
    suffixed variant that is free. *)
Lemma colliding_upload_gets_first_free_suffix (c : ScrapedContent) (s3 : S3) (now : datetime)
    (base_name extension : string) (n : nat) (d : list (string * PyValue)) :
  faultless s3 →
  str_rsplit1 "." (derived_key lib c) = Some (base_name, extension) →
  is_Some (objects s3 !! derived_key lib c) →
  1 ≤ n < 100 →
  (∀ m, 1 ≤ m < n → is_Some (objects s3 !! suffixed_key base_name m extension)) →
  objects s3 !! suffixed_key base_name n extension = None →
  upload_data lib c now = Returned d → returns (json_dumps lib d) →
  _upload_content_item lib c s3 now
  = (Returned (Some (suffixed_key base_name n extension)),
     with_objects (<[suffixed_key base_name n extension := ContentBody d]> (objects s3)) s3,
     set_s3_key (Some (suffixed_key base_name n extension)) c).
Proof.
  intros Hf Hsplit Hbase Hn Hall Hfree Hd [j Hj]. unfold _upload_content_item.
  rewrite (key_exists_faultless _ _ Hf), bool_decide_eq_true_2 by done.
  unfold _generate_unique_key. rewrite Hsplit.
  rewrite (unique_key_loop_first_free s3 base_name extension 100 1 n Hf) by (done || lia).
  cbn [mbind outcome_bind]. rewrite Hd, Hj.
  by rewrite (put_object_faultless _ _ _ Hf).
Qed.
(** A key that the loop returns is free. *)
Lemma unique_key_loop_returns_free (s3 : S3) (base_name extension : string)
    (fuel counter : nat) (key : string) :
  faultless s3 →
  unique_key_loop fuel counter base_name extension s3 = Returned (Some key) →
  objects s3 !! key = None.
Proof.
  intros Hf. revert counter. induction fuel as [|fuel IH]; intros counter; [done|].
  cbn [unique_key_loop]. destruct (counter <? 100)%nat; [|done].
  rewrite (key_exists_faultless _ _ Hf). cbn [mbind outcome_bind].
  destruct (bool_decide _) eqn:Eb; cbn [negb].
  - apply IH.
  - intros [= <-]. apply bool_decide_eq_false in Eb.
    destruct (objects s3 !! _); [|done]. exfalso. apply Eb. by eexists.
Qed.

(** C1, at an input where the code departs from it.  In a store that
    holds the derived key and its 99 suffixed variants, two uploads of
    records with that derived key within one second of the clock both are
    written under the timestamp-suffixed key, which is not checked for
    existence: the second upload replaces the object of the first. *)
Theorem timestamp_fallback_overwrites (c1 c2 : ScrapedContent) (s3 : S3) (now : datetime)
    (base_name extension : string) (d1 d2 : list (string * PyValue)) :
  faultless s3 →
  derived_key lib c2 = derived_key lib c1 →
  str_rsplit1 "." (derived_key lib c1) = Some (base_name, extension) →
  is_Some (objects s3 !! derived_key lib c1) →
  (∀ n, 1 ≤ n < 100 → is_Some (objects s3 !! suffixed_key base_name n extension)) →
  upload_data lib c1 now = Returned d1 → returns (json_dumps lib d1) →
  upload_data lib c2 now = Returned d2 → returns (json_dumps lib d2) →
  ∃ s3' s3'' c1' c2',
    let key := timestamped_key base_name now extension in
    _upload_content_item lib c1 s3 now = (Returned (Some key), s3', c1')
    ∧ objects s3' !! key = Some (ContentBody d1)
    ∧ _upload_content_item lib c2 s3' now = (Returned (Some key), s3'', c2')
    ∧ objects s3'' !! key = Some (ContentBody d2).
Proof.
  intros Hf Hsame Hsplit Hbase Hall Hd1 [j1 Hj1] Hd2 [j2 Hj2].
  assert (∀ s, faultless s →
            is_Some (objects s !! derived_key lib c1) →
            (∀ n, 1 ≤ n < 100 → is_Some (objects s !! suffixed_key base_name n extension)) →
            ∀ c d j, derived_key lib c = derived_key lib c1 →
              upload_data lib c now = Returned d → json_dumps lib d = Returned j →
              _upload_content_item lib c s now
              = (Returned (Some (timestamped_key base_name now extension)),
                 with_objects (<[timestamped_key base_name now extension := ContentBody d]>
                                 (objects s)) s,
                 set_s3_key (Some (timestamped_key base_name now extension)) c)) as Hstep.
  { intros s Hs Hb Ha c d j Hk Hd Hj. unfold _upload_content_item.
    rewrite Hk, (key_exists_faultless _ _ Hs), bool_decide_eq_true_2 by done.
    unfold _generate_unique_key. rewrite Hsplit.
    rewrite (unique_key_loop_exhausted s base_name extension 100 1 Hs Ha).
    cbn [mbind outcome_bind]. rewrite Hd, Hj.
    by rewrite (put_object_faultless _ _ _ Hs). }
  eexists _, _, _, _. cbn zeta.
  split; [by eapply Hstep|]. split; [apply lookup_insert_eq|].
  split.
  - eapply (Hstep _ (with_objects_faultless _ _ Hf)); try done.
    + cbn [objects with_objects]. destruct Hbase as [b Hb].
      destruct (decide (timestamped_key base_name now extension = derived_key lib c1)) as [->|Hne].
      * rewrite lookup_insert_eq. by eexists.
      * rewrite lookup_insert_ne by done. by eexists.
    + intros n Hn. cbn [objects with_objects]. destruct (Hall n Hn) as [b Hb].
      destruct (decide (timestamped_key base_name now extension
                        = suffixed_key base_name n extension)) as [->|Hne].
      * rewrite lookup_insert_eq. by eexists.
      * rewrite lookup_insert_ne by done. by eexists.
  - apply lookup_insert_eq.
Qed.

(** The key of a successful upload into a faultless store is a key the
    store did not hold, unless the base key and its 99 suffixed variants
    were all taken. *)
Lemma upload_key_fresh_or_timestamp (c : ScrapedContent) (s3 s3' : S3) (now : datetime)
    (key : string) (c' : ScrapedContent) :
  faultless s3 →
  _upload_content_item lib c s3 now = (Returned (Some key), s3', c') →
  objects s3 !! key = None
  ∨ ∃ base_name extension,
      str_rsplit1 "." (derived_key lib c) = Some (base_name, extension)
      ∧ key = timestamped_key base_name now extension.
Proof.
  intros Hf. unfold _upload_content_item.
  rewrite (key_exists_faultless _ _ Hf).
  destruct (bool_decide (is_Some (objects s3 !! derived_key lib c))) eqn:Ek.
  - unfold _generate_unique_key.
    destruct (str_rsplit1 "." (derived_key lib c)) as [[base_name extension]|] eqn:Es; [|done].
    destruct (unique_key_loop 100 1 base_name extension s3) as [[k|]|] eqn:El; [| |done].
    + cbn [mbind outcome_bind].
      destruct (upload_data lib c now); [|done]. destruct (json_dumps lib _); [|done].
      rewrite (put_object_faultless _ _ _ Hf). intros [= <- _ _]. left.
      by eapply unique_key_loop_returns_free.
    + cbn [mbind outcome_bind].
      destruct (upload_data lib c now); [|done]. destruct (json_dumps lib _); [|done].
      rewrite (put_object_faultless _ _ _ Hf). intros [= <- _ _]. right. eauto.
  - destruct (upload_data lib c now); [|done]. destruct (json_dumps lib _); [|done].
    rewrite (put_object_faultless _ _ _ Hf). intros [= <- _ _]. left.
    apply bool_decide_eq_false in Ek.
    destruct (objects s3 !! _); [|done]. exfalso. apply Ek. by eexists.
Qed.

(** What the constructor computes for a record with an attribution and
    no key. *)
Lemma constructed_key (raw : ScrapedContent) (sa : SourceAttribution) :
  source_attribution raw = Some sa → opt_truthy (s3_key raw) = false →
  s3_key (ScrapedContent__post_init__ lib raw)
  = Some ("scraped-content/" +:+ str_replace " " "_" (str_lower lib (source sa)) +:+ "/"
            +:+ strftime_Ymd_slash (scraped_at raw) +:+ "/content-"
            +:+ fmt_opt (content_hash (ScrapedContent__post_init__ lib raw)) +:+ ".json").
Proof.
  intros Ha Hk. unfold ScrapedContent__post_init__. rewrite Ha, Hk.
  by destruct (str_truthy (content raw)).
Qed.

(** C7, amended.  The constructor computes the storage key of a record
    with an attribution from source, date and content hash; recording the
    outcome of validation leaves it as it is; an upload that succeeds
    replaces it by the key under which the object was written, which is
    the key the uploader derives (another key than the constructed one)
    when that key is free; an upload that fails leaves record and store
    as they were. *)
Theorem upload_replaces_constructed_key (raw : ScrapedContent) (sa : SourceAttribution)
    (s3 s3' : S3) (now : datetime) (o : outcome (option string)) (c' : ScrapedContent) :
  source_attribution raw = Some sa → opt_truthy (s3_key raw) = false →
  let c := ScrapedContent__post_init__ lib raw in
  _upload_content_item lib c s3 now = (o, s3', c') →
  s3_key c
  = Some ("scraped-content/" +:+ str_replace " " "_" (str_lower lib (source sa)) +:+ "/"
            +:+ strftime_Ymd_slash (scraped_at raw) +:+ "/content-"
            +:+ fmt_opt (content_hash c) +:+ ".json")
  ∧ (∀ p s, s3_key (set_validation p s c) = s3_key c)
  ∧ match o with
    | Returned (Some key) =>
        s3_key c' = Some key
        ∧ c' = set_s3_key (Some key) c
        ∧ is_Some (objects s3' !! key)
        ∧ (_key_exists (derived_key lib c) s3 = Returned false → key = derived_key lib c)
    | _ => c' = c ∧ s3' = s3
    end.
Proof.
  intros Ha Hk c Hup.
  split; [by apply constructed_key|]. split; [done|].
  revert Hup. generalize c. clear c. intros c.
  unfold _upload_content_item.
  destruct (_key_exists (derived_key lib c) s3) as [taken|e] eqn:Ek; [|by intros [= <- <- <-]].
  destruct (if taken then _ else _) as [key|e] eqn:Eg; [|by intros [= <- <- <-]].
  destruct (upload_data lib c now) as [d|e]; [|by intros [= <- <- <-]].
  destruct (json_dumps lib d) as [j|e]; [|by intros [= <- <- <-]].
  unfold put_object. destruct (put_fault s3 key) as [e|]; [by intros [= <- <- <-]|].
  intros [= <- <- <-]. split; [done|]. split; [done|]. split.
  - cbn [objects with_objects]. rewrite lookup_insert_eq. by eexists.
  - intros [= ->]. by injection Eg as <-.
Qed.
End UploaderFacts.

(** ** The orchestrator *)

Section ScraperFacts.
Context (lib : PyLib) (config : ScraperConfig) (validator : ContentValidator)
  (col : Collaborators).

Lemma create_empty_batch_raises (reason : string) (st : Stats) (e : PyExn) :
  Source_of_value (str_lower lib (source_name config)) = Raised e →
  _create_empty_batch lib config col reason st = Raised e.
Proof. intros H. unfold _create_empty_batch. by rewrite H. Qed.

Lemma create_empty_batch_returns (reason : string) (st : Stats) :
  returns (Source_of_value (str_lower lib (source_name config))) →
  returns (_create_empty_batch lib config col reason st).
Proof. intros [src H]. unfold _create_empty_batch. rewrite H. by eexists. Qed.

(** C8, at an input where the code departs from it.  When the configured
    source name, lower-cased, is not the value of a Source member (as
    "Rolling Stone", which the source mapping of phase 4 provides for),
    a run whose discovery finds no URL or raises ends in
    _create_empty_batch, whose Source(...) raises ValueError; the handler
    of scrape_articles calls it again outside any try, and the exception
    reaches the caller. *)
Theorem scrape_articles_raises_for_unlisted_source (max_articles : option nat)
    (st : Stats) (s3 : S3) (e : PyExn) :
  Source_of_value (str_lower lib (source_name config)) = Raised e →
  match discover_content_urls col with
  | Returned discovery_result => urls discovery_result = []
  | Raised _ => True
  end →
  fst (fst (scrape_articles lib config validator col max_articles st s3)) = Raised e.
Proof.
  intros Hsrc Hdisc. unfold scrape_articles, scrape_try.
  destruct (discover_content_urls col) as [d|e0].
  - rewrite Hdisc. by rewrite !(create_empty_batch_raises _ _ e Hsrc).
  - cbn [fst]. by apply create_empty_batch_raises.
Qed.

(** With a source name that is the value of a [Source] member, every run
    returns a batch, whatever the collaborators do. *)
Lemma scrape_articles_returns_for_listed_source (max_articles : option nat)
    (st : Stats) (s3 : S3) :
  returns (Source_of_value (str_lower lib (source_name config))) →
  returns (fst (fst (scrape_articles lib config validator col max_articles st s3))).
Proof.
  intros Hsrc. unfold scrape_articles.
  destruct (scrape_try _ _ _ _ _ _ _) as [[[b|e] st'] s3'].
  - by eexists.
  - cbn [fst]. by apply create_empty_batch_returns.
Qed.
End ScraperFacts.

(** ** Runs of the cascades, the uploader and the orchestrator *)

(** C4 as stated fails: on an empty document no strategy would exceed
    0.8, and none is run: the length guard returns before the cascade. *)
Lemma short_html_runs_no_strategy :
  extract_content Demo.demo_lib Examples.blank_page "" "https://pitchfork.com/reviews/" "Pitchfork"
  = (extraction_error "HTML content too short or empty", [])
  ∧ Forall (λ strategy,
      ∃ r soup, snd strategy (BeautifulSoup Examples.blank_page "")
                  "https://pitchfork.com/reviews/" "Pitchfork" = (Returned r, soup)
                ∧ (confidence r <= 8 # 10)%Q)
      (extraction_strategies Demo.demo_lib Examples.blank_page).
Proof.
  split; [reflexivity|].
  repeat constructor; eexists _, _; (split; [reflexivity|]); vm_compute; discriminate.
Qed.

Lemma extract_content_cascade_witness :
  (100 <= len Examples.horses_html)%Z
  ∧ snd (extract_content Demo.demo_lib Examples.microdata_page Examples.horses_html
           "https://pitchfork.com/reviews/albums/patti-smith-horses/" "Pitchfork")
    = ["_extract_structured_data"]
  ∧ er_method
      (fst (extract_content Demo.demo_lib Examples.microdata_page Examples.horses_html
              "https://pitchfork.com/reviews/albums/patti-smith-horses/" "Pitchfork"))
    = "structured_data".
Proof.
  assert (100 <= len Examples.horses_html)%Z as Hlen by (vm_compute; discriminate).
  split; [exact Hlen|].
  pose proof (extract_content_cascade Demo.demo_lib Examples.microdata_page
                Examples.horses_html
                "https://pitchfork.com/reviews/albums/patti-smith-horses/" "Pitchfork" Hlen)
    as H.
  remember (extract_content Demo.demo_lib Examples.microdata_page Examples.horses_html
              "https://pitchfork.com/reviews/albums/patti-smith-horses/" "Pitchfork")
    as e eqn:He in *.
  vm_compute in H. destruct H as [-> _]. split; reflexivity.
Defined.

Lemma checked_below (P : nat → Prop) `{∀ n, Decision (P n)} (lo hi : nat) :
  forallb (λ n, bool_decide (P n)) (seq lo (hi - lo)) = true →
  ∀ n, lo ≤ n < hi → P n.
Proof.
  intros Hall n Hn. rewrite forallb_forall in Hall.
  eapply bool_decide_eq_true_1, Hall. apply in_seq. lia.
Qed.

Lemma timestamp_fallback_overwrites_witness :
  let key :=
    "scraped-content/patti_smith/article/"
    +:+ "pitchfork_20240115_1230_84c7b0e0_Patti_Smith_Horses_at_47_20240115_123045.json" in
  ∃ s3' s3'' c1' c2' d1 d2,
    _upload_content_item Demo.demo_lib Examples.horses Examples.crowded_store Examples.jan15
    = (Returned (Some key), s3', c1')
    ∧ objects s3' !! key = Some (ContentBody d1)
    ∧ dict_get d1 "id" = PyStr "01HM5T0000000000000000000A"
    ∧ _upload_content_item Demo.demo_lib Examples.horses_again s3' Examples.jan15
      = (Returned (Some key), s3'', c2')
    ∧ objects s3'' !! key = Some (ContentBody d2)
    ∧ dict_get d2 "id" = PyStr "01HM5T0000000000000000000B".
Proof.
  intros key.
  destruct (upload_data Demo.demo_lib Examples.horses Examples.jan15) as [d1|] eqn:Hd1;
    [|vm_compute in Hd1; discriminate Hd1].
  destruct (upload_data Demo.demo_lib Examples.horses_again Examples.jan15) as [d2|] eqn:Hd2;
    [|vm_compute in Hd2; discriminate Hd2].
  destruct (timestamp_fallback_overwrites Demo.demo_lib Examples.horses Examples.horses_again
              Examples.crowded_store Examples.jan15 Examples.horses_stem "json" d1 d2)
    as (s3' & s3'' & c1' & c2' & H1 & H2 & H3 & H4).
  - by repeat split.
  - vm_compute. reflexivity.
  - vm_compute. reflexivity.
  - vm_compute. eexists. reflexivity.
  - apply (checked_below _ 1 100). vm_compute. reflexivity.
  - exact Hd1.
  - eexists. reflexivity.
  - exact Hd2.
  - eexists. reflexivity.
  - exists s3', s3'', c1', c2', d1, d2.
    vm_compute in Hd1. injection Hd1 as <-. vm_compute in Hd2. injection Hd2 as <-.
    repeat split; try assumption; reflexivity.
Defined.

(** The scenario of the specification: three uploads of records with one
    derived key into an empty store are written under the derived key,
    its variant _001 and its variant _002. *)
Lemma three_uploads_get_suffixes :
  let '(o, s3, batch) :=
    upload_batch Demo.demo_lib
      (Examples.batch_of [Examples.horses; Examples.horses_again; Examples.horses_third])
      (Examples.store_of ∅) (λ _, Examples.jan15) in
  (uploaded_keys <$> (match o with Returned res => Some res | Raised _ => None end))
  = Some [ Examples.horses_stem +:+ ".json";
           Examples.horses_stem +:+ "_001.json";
           Examples.horses_stem +:+ "_002.json" ].
Proof. vm_compute. reflexivity. Qed.

(** C7 as stated fails: an upload into an empty store, where nothing
    collides, replaces the key the record was constructed with. *)
Lemma upload_without_collision_changes_key :
  let constructed := "scraped-content/pitchfork/2024/01/15/content-84c7b0e0a652fce5.json" in
  let derived := Examples.horses_stem +:+ ".json" in
  let up :=
    _upload_content_item Demo.demo_lib Examples.horses (Examples.store_of ∅) Examples.jan15 in
  s3_key Examples.horses = Some constructed
  ∧ _key_exists (derived_key Demo.demo_lib Examples.horses) (Examples.store_of ∅)
    = Returned false
  ∧ fst (fst up) = Returned (Some derived)
  ∧ s3_key (snd up) = Some derived
  ∧ s3_key (snd up) ≠ s3_key Examples.horses.
Proof.
  intros constructed derived up.
  split; [vm_compute; reflexivity|]. split; [vm_compute; reflexivity|].
  split; [vm_compute; reflexivity|]. split; [vm_compute; reflexivity|].
  vm_compute. discriminate.
Qed.

Lemma upload_replaces_constructed_key_witness :
  let up :=
    _upload_content_item Demo.demo_lib Examples.horses (Examples.store_of ∅) Examples.jan15 in
  s3_key Examples.horses
  = Some "scraped-content/pitchfork/2024/01/15/content-84c7b0e0a652fce5.json"
  ∧ s3_key (snd up) = Some (Examples.horses_stem +:+ ".json").
Proof.
  intros up.
  assert (fst (fst up) = Returned (Some (Examples.horses_stem +:+ ".json"))) as Ho
    by (vm_compute; reflexivity).
  destruct up as [[o s3'] c'] eqn:Hup. cbn [fst snd] in *.
  pose proof (upload_replaces_constructed_key Demo.demo_lib
                (Examples.fields_of "01HM5T0000000000000000000A"
                   "https://pitchfork.com/reviews/albums/patti-smith-horses/"
                   "Patti Smith: Horses at 47" Demo.horses_body "Pitchfork")
                (Examples.attribution_of "Pitchfork" "Patti Smith: Horses at 47"
                   "https://pitchfork.com/reviews/albums/patti-smith-horses/")
                (Examples.store_of ∅) s3' Examples.jan15 o c' eq_refl eq_refl Hup)
    as (Hc & _ & Hkey).
  rewrite Ho in Hkey. destruct Hkey as (Hk & _).
  split; [etrans; [exact Hc | vm_compute; reflexivity] | exact Hk].
Defined.

Lemma scrape_articles_raises_for_unlisted_source_witness :
  fst (fst (scrape_articles Demo.demo_lib Examples.rolling_stone_config
              ContentValidator__init__ Examples.nothing_discovered None Stats__init__
              (Examples.store_of ∅)))
  = Raised (ValueError "'rolling stone' is not a valid Source").
Proof.
  apply scrape_articles_raises_for_unlisted_source; reflexivity.
Defined.

(* ===================================================================== *)
(** * Further properties of the code                                        *)
(* ===================================================================== *)

(** ** Citations and lake compatibility *)

Section CitationFacts.
Context (lib : PyLib) (self : ContentValidator).

Lemma len_append (a b : string) : len (a +:+ b) = (len a + len b)%Z.
Proof.
  unfold len. induction a as [|x a IH]; simpl; [reflexivity|lia].
Qed.

Lemma len_nonneg (s : string) : (0 <= len s)%Z.
Proof. unfold len. lia. Qed.

Lemma citation_shape (a : SourceAttribution) :
  str_startswith "[Source:" (to_citation_format a) = true
  ∧ (12 <= len (to_citation_format a))%Z.
Proof.
  unfold to_citation_format. split.
  - destruct (str_truthy (sa_title a) && (len (sa_title a) <? 60)%Z); reflexivity.
  - pose proof (len_nonneg (source a)). pose proof (len_nonneg (sa_title a)).
    destruct (str_truthy (sa_title a) && (len (sa_title a) <? 60)%Z);
      rewrite !len_append; change (len "[Source: ") with 9%Z;
      change (len dquote) with 1%Z; change (len "]") with 1%Z;
      change (len ", ") with 2%Z; lia.
Qed.

(** X1.  The citation of an attribution always opens with [[Source:] and
    is at least twelve characters long, so the attribution check never
    reports "Citation format too short": its only possible error is
    "Invalid attribution URL". *)
Theorem attribution_check_only_rejects_urls (a : SourceAttribution) (r : ValidationResult) :
  _validate_source_attribution lib self (Some a) = Returned r →
  (errors r = [] ∧ passed r = true)
  ∨ (errors r = ["Invalid attribution URL"] ∧ passed r = false
     ∧ ∃ parsed, urlparse lib (sa_url a) = Returned parsed
                 ∧ (str_truthy (fst parsed) = false ∨ str_truthy (snd parsed) = false)).
Proof.
  unfold _validate_source_attribution.
  destruct (citation_shape a) as [_ Hlen].
  replace (len (to_citation_format a) <? 10)%Z with false by (symmetry; apply Z.ltb_ge; lia).
  cbn [append_if].
  destruct (str_truthy (sa_url a)).
  - destruct (urlparse lib (sa_url a)) as [parsed|e] eqn:Hp; cbn; [|done].
    intros [= <-]. cbn [errors passed].
    destruct (str_truthy (fst parsed)) eqn:E1, (str_truthy (snd parsed)) eqn:E2; cbn;
      first [by left | right; repeat split; eauto].
  - cbn. intros [= <-]. by left.
Qed.

(** X2.  Lake compatibility is decided by serialisation alone: a record
    is compatible exactly when it has an attribution and its lake
    format survives [json.dumps] and [json.loads]; the field and
    citation checks that follow never add an error. *)
Theorem lake_compatible_iff_serialisable (c : ScrapedContent) :
  compatible (_validate_data_lake_compatibility lib c) = true
  ↔ ∃ d s, to_v3_format c = Returned d ∧ json_dumps lib d = Returned s
           ∧ json_loads lib s = Returned ().
Proof.
  unfold _validate_data_lake_compatibility, to_v3_format.
  destruct (source_attribution c) as [a|] eqn:Ha; cbn.
  - destruct (json_dumps lib _) as [s|e] eqn:Hd; cbn.
    + destruct (json_loads lib s) as [[]|e] eqn:Hl; cbn.
      * destruct (citation_shape a) as [-> _]. cbn. split; [|done].
        intros _. eexists _, s. by rewrite Hd, Hl.
      * split; [done|]. intros (d & s' & [= <-] & Hd' & Hl'). congruence.
    + split; [done|]. intros (d & s' & [= <-] & Hd' & Hl'). congruence.
  - split; [done|]. by intros (d & s' & ? & _).
Qed.
End CitationFacts.

(** ** Caps on the score *)

Section ScoreCaps.
Context (lib : PyLib) (self : ContentValidator).

Lemma cap_here (b : bool) (f s : Q) :
  b = true → (0 <= f)%Q → below s 1 → below (scale_if b f s) f.
Proof.
  intros -> Hf Hs. unfold scale_if.
  destruct (below_mult _ _ _ _ Hs (below_refl f Hf)) as [H0 H1].
  split; [done|]. by rewrite Qmult_1_l in H1.
Qed.

Lemma cap_mult_l (a b g : Q) : below a g → below b 1 → below (a * b) g.
Proof.
  intros Ha Hb. destruct (below_mult _ _ _ _ Ha Hb) as [H0 H1].
  split; [done|]. by rewrite Qmult_1_r in H1.
Qed.

Lemma cap_pass (b : bool) (f s g : Q) :
  (0 <= f)%Q → (f <= 1)%Q → below s g → below (scale_if b f s) g.
Proof.
  intros Hf0 Hf1 Hs. destruct b; unfold scale_if; [|done].
  by apply cap_mult_l.
Qed.

Lemma cap_mult_r (a b g : Q) : below a 1 → below b g → below (a * b) g.
Proof.
  intros Ha Hb. destruct (cap_mult_l b a g Hb Ha) as [H0 H1].
  split; rewrite Qmult_comm; done.
Qed.

Lemma quality_factors_unit c : below (quality_factors lib self c) 1.
Proof.
  assert (below 1 1) as H11 by (by apply below_refl).
  unfold quality_factors.
  repeat first [ apply unit_scale_if; [done | done | ] | exact H11 ].
Qed.

Lemma attribution_factors_unit c : below (attribution_factors lib self c) 1.
Proof.
  assert (below 1 1) as H11 by (by apply below_refl).
  unfold attribution_factors.
  repeat first [ apply unit_scale_if; [done | done | ] | exact H11 ].
Qed.

Lemma relevance_factors_unit c : below (relevance_factors lib self c) 1.
Proof. unfold relevance_factors. repeat case_match; split; done. Qed.

Lemma structure_factor_unit c :
  below (scale_if (applies lib self StructureFailed c) (3 # 10) 1) 1.
Proof. apply unit_scale_if; [done|done|by apply below_refl]. Qed.

(** The product of the factors is at most the factor of any condition
    that applies. *)
Lemma product_of_factors_capped (p : Penalty) (c : ScrapedContent) :
  applies lib self p c = true →
  below (product_of_factors lib self c) (factor p).
Proof.
  intros Hp.
  pose proof (quality_factors_unit c) as HQ.
  pose proof (attribution_factors_unit c) as HA.
  pose proof (relevance_factors_unit c) as HR.
  pose proof (structure_factor_unit c) as HS.
  assert (below 1 1) as H11 by (by apply below_refl).
  unfold product_of_factors.
  destruct p; cbn [factor].
  - (* StructureFailed *)
    apply cap_pass; [done|done|]. do 3 (apply cap_mult_l; [|done]).
    by apply cap_here.
  - (* ContentTooShort *)
    apply cap_pass; [done|done|]. apply cap_mult_l; [|done]. apply cap_mult_l; [|done].
    apply cap_mult_r; [done|]. unfold quality_factors.
    do 6 (apply cap_pass; [done|done|]). by apply cap_here.
  - (* ContentTooLong *)
    apply cap_pass; [done|done|]. apply cap_mult_l; [|done]. apply cap_mult_l; [|done].
    apply cap_mult_r; [done|]. unfold quality_factors.
    do 5 (apply cap_pass; [done|done|]). apply cap_here; [done|done|].
    by apply unit_scale_if.
  - (* TitleTooShort *)
    apply cap_pass; [done|done|]. apply cap_mult_l; [|done]. apply cap_mult_l; [|done].
    apply cap_mult_r; [done|]. unfold quality_factors.
    do 4 (apply cap_pass; [done|done|]). apply cap_here; [done|done|].
    repeat first [ apply unit_scale_if; [done | done | ] | exact H11 ].
  - (* TitleTooLong *)
    apply cap_pass; [done|done|]. apply cap_mult_l; [|done]. apply cap_mult_l; [|done].
    apply cap_mult_r; [done|]. unfold quality_factors.
    do 3 (apply cap_pass; [done|done|]). apply cap_here; [done|done|].
    repeat first [ apply unit_scale_if; [done | done | ] | exact H11 ].
  - (* SuspiciousPattern *)
    apply cap_pass; [done|done|]. apply cap_mult_l; [|done]. apply cap_mult_l; [|done].
    apply cap_mult_r; [done|]. unfold quality_factors.
    do 2 (apply cap_pass; [done|done|]). apply cap_here; [done|done|].
    repeat first [ apply unit_scale_if; [done | done | ] | exact H11 ].
  - (* Repetitive *)
    apply cap_pass; [done|done|]. apply cap_mult_l; [|done]. apply cap_mult_l; [|done].
    apply cap_mult_r; [done|]. unfold quality_factors.
    do 1 (apply cap_pass; [done|done|]). apply cap_here; [done|done|].
    repeat first [ apply unit_scale_if; [done | done | ] | exact H11 ].
  - (* LowTextRatio *)
    apply cap_pass; [done|done|]. apply cap_mult_l; [|done]. apply cap_mult_l; [|done].
    apply cap_mult_r; [done|]. unfold quality_factors.
    apply cap_here; [done|done|].
    repeat first [ apply unit_scale_if; [done | done | ] | exact H11 ].
  - (* UnknownSource *)
    apply cap_pass; [done|done|]. apply cap_mult_l; [|done].
    apply cap_mult_r; [by apply unit_mult|]. unfold attribution_factors.
    do 2 (apply cap_pass; [done|done|]). by apply cap_here.
  - (* CitationTooLong *)
    apply cap_pass; [done|done|]. apply cap_mult_l; [|done].
    apply cap_mult_r; [by apply unit_mult|]. unfold attribution_factors.
    do 1 (apply cap_pass; [done|done|]). apply cap_here; [done|done|].
    by apply unit_scale_if.
  - (* InvalidDate *)
    apply cap_pass; [done|done|]. apply cap_mult_l; [|done].
    apply cap_mult_r; [by apply unit_mult|]. unfold attribution_factors.
    apply cap_here; [done|done|].
    repeat first [ apply unit_scale_if; [done | done | ] | exact H11 ].
  - (* FewMusicKeywords *)
    apply cap_pass; [done|done|].
    apply cap_mult_r; [by repeat apply unit_mult|].
    unfold relevance_factors. rewrite Hp. by destruct (applies _ _ NoMusicKeywords c).
  - (* NoMusicKeywords *)
    apply cap_pass; [done|done|].
    apply cap_mult_r; [by repeat apply unit_mult|].
    unfold relevance_factors. by rewrite Hp.
  - (* LakeIncompatible *)
    apply cap_here; [done|done|]. by repeat apply unit_mult.
Qed.

Lemma validation_verdict c v :
  validate_scraped_content lib self c = Returned v →
  passed v = (length (errors v) =? 0)%nat && Qltb (5 # 10) (score v).
Proof.
  unfold validate_scraped_content.
  destruct (_validate_structure lib self c) as [sr|]; [|done]. cbn [mbind outcome_bind].
  destruct (_validate_content_quality lib self c) as [q|]; [|done].
  cbn [mbind outcome_bind].
  destruct (_validate_source_attribution lib self _) as [r|]; [|done].
  cbn [mbind outcome_bind]. unfold mret, outcome_ret. by intros [= <-].
Qed.

(** X3.  The score of a validated record never exceeds the factor of a
    condition that applies to it: at most 0.2 for a failure signature
    or an incompatible lake format, 0.3 for a body that is too short or
    a failed structure check, 0.5 for a short title or for no music
    keyword, and so on. *)
Theorem score_capped_by_each_defect (c : ScrapedContent) (v : ValidationResult)
    (p : Penalty) :
  validate_scraped_content lib self c = Returned v →
  applies lib self p c = true →
  (0 <= score v)%Q ∧ (score v <= factor p)%Q.
Proof.
  intros Hv Hp. rewrite (validation_score lib self _ _ Hv).
  exact (product_of_factors_capped p c Hp).
Qed.

(** X4.  A record passes validation only if no condition with a factor
    of one half or less applies to it: a record without any music
    keyword, or with a title that is too short, never passes, although
    the relevance check itself reports no error. *)
Theorem heavy_defect_never_passes (c : ScrapedContent) (v : ValidationResult)
    (p : Penalty) :
  validate_scraped_content lib self c = Returned v →
  applies lib self p c = true →
  (factor p <= 5 # 10)%Q →
  passed v = false.
Proof.
  intros Hv Hp Hf. rewrite (validation_verdict _ _ Hv).
  apply andb_false_iff. right. apply Qltb_ge.
  rewrite (validation_score lib self _ _ Hv).
  destruct (product_of_factors_capped p c Hp) as [_ Hle].
  by apply Qle_trans with (factor p).
Qed.
End ScoreCaps.

(** ** Batches and the gate *)

Section BatchFacts.
Context (lib : PyLib) (self : ContentValidator).

(** The loop of [validate_batch] returns when the validation of every
    item returns, and raises what the first item that raises raised. *)
Lemma validate_items_returns (items : list ScrapedContent) (i : nat) (acc : batch_acc) :
  Forall (λ c, returns (validate_scraped_content lib self c)) items →
  returns (validate_items lib self i items acc).
Proof.
  intros H. revert i acc. induction H as [|c items [r Hr] _ IH]; intros i acc.
  - by eexists.
  - cbn [validate_items]. rewrite Hr. cbn [mbind outcome_bind]. apply IH.
Qed.

Lemma validate_items_raises (pre post : list ScrapedContent) (item : ScrapedContent)
    (e : PyExn) (i : nat) (acc : batch_acc) :
  Forall (λ c, returns (validate_scraped_content lib self c)) pre →
  validate_scraped_content lib self item = Raised e →
  validate_items lib self i (pre ++ item :: post) acc = Raised e.
Proof.
  intros H He. revert i acc. induction H as [|c items [r Hr] _ IH]; intros i acc.
  - cbn [app validate_items]. by rewrite He.
  - cbn [app validate_items]. rewrite Hr. cbn [mbind outcome_bind]. apply IH.
Qed.

(** A list of outcomes either all return, or splits at the first that
    raises. *)
Lemma first_raise (items : list ScrapedContent) :
  Forall (λ c, returns (validate_scraped_content lib self c)) items
  ∨ ∃ pre item post e,
      items = pre ++ item :: post
      ∧ Forall (λ c, returns (validate_scraped_content lib self c)) pre
      ∧ validate_scraped_content lib self item = Raised e.
Proof.
  induction items as [|c items IH]; [by left|].
  destruct (validate_scraped_content lib self c) as [r|e] eqn:Hc.
  - destruct IH as [IH | (pre & item & post & e & -> & Hpre & He)].
    + left. constructor; [by eexists | done].
    + right. exists (c :: pre), item, post, e. split; [done|]. split; [|done].
      constructor; [by eexists | done].
  - right. by exists [], c, items, e.
Qed.

Lemma validate_batch_of_items (batch : ScrapingBatch) :
  content_items batch ≠ [] →
  ∀ e, validate_items lib self 0 (content_items batch)
         {| item_scores := []; total_errors := 0; acc_errors := []; acc_warnings := [] |}
       = Raised e →
       validate_batch lib self batch = Raised e.
Proof.
  intros Hne e He. unfold validate_batch.
  destruct (content_items batch) eqn:E; [done|]. by rewrite He.
Qed.

(** X5.  The safety gate returns a verdict exactly when the validation
    of every item of the batch returns; otherwise it raises the
    exception of the first item whose validation raises, whatever the
    later items are. *)
Theorem gate_returns_iff_items_validate (batch : ScrapingBatch) :
  (returns (pre_processing_safety_check lib self batch)
   ↔ Forall (λ c, returns (validate_scraped_content lib self c)) (content_items batch))
  ∧ ∀ pre item post e,
      content_items batch = pre ++ item :: post →
      Forall (λ c, returns (validate_scraped_content lib self c)) pre →
      validate_scraped_content lib self item = Raised e →
      pre_processing_safety_check lib self batch = Raised e.
Proof.
  assert (∀ pre item post e,
      content_items batch = pre ++ item :: post →
      Forall (λ c, returns (validate_scraped_content lib self c)) pre →
      validate_scraped_content lib self item = Raised e →
      pre_processing_safety_check lib self batch = Raised e) as Hraise.
  { intros pre item post e Hitems Hpre He.
    unfold pre_processing_safety_check.
    rewrite (validate_batch_of_items batch) with (e := e); [done| |].
    - rewrite Hitems. by destruct pre.
    - rewrite Hitems. by apply validate_items_raises. }
  split; [|exact Hraise]. split.
  - intros [r Hr].
    destruct (first_raise (content_items batch))
      as [H | (pre & item & post & e & Hitems & Hpre & He)]; [done|].
    rewrite (Hraise _ _ _ _ Hitems Hpre He) in Hr. done.
  - intros H. unfold pre_processing_safety_check, validate_batch.
    destruct (content_items batch) as [|c items] eqn:E; [by eexists|].
    destruct (validate_items_returns (c :: items) 0
                {| item_scores := []; total_errors := 0;
                   acc_errors := []; acc_warnings := [] |} H) as [acc ->].
    by eexists.
Qed.

(** Validation of a record without attribution raises. *)
Lemma missing_attribution_raises (c : ScrapedContent) :
  source_attribution c = None →
  validate_scraped_content lib self c
  = Raised (AttributeError "'NoneType' object has no attribute 'source'").
Proof.
  intros H. unfold validate_scraped_content, _validate_structure, to_v3_format.
  by rewrite H.
Qed.

(** X6.  A record without attribution is not reported as a validation
    failure: its validation raises AttributeError, and so does the
    safety gate for a batch in which the items before it validate. *)
Theorem gate_raises_on_missing_attribution (batch : ScrapingBatch)
    (pre post : list ScrapedContent) (item : ScrapedContent) :
  content_items batch = pre ++ item :: post →
  Forall (λ c, returns (validate_scraped_content lib self c)) pre →
  source_attribution item = None →
  validate_scraped_content lib self item
  = Raised (AttributeError "'NoneType' object has no attribute 'source'")
  ∧ validate_batch lib self batch
    = Raised (AttributeError "'NoneType' object has no attribute 'source'")
  ∧ pre_processing_safety_check lib self batch
    = Raised (AttributeError "'NoneType' object has no attribute 'source'").
Proof.
  intros Hitems Hpre Hnone.
  pose proof (missing_attribution_raises item Hnone) as He.
  assert (validate_batch lib self batch
          = Raised (AttributeError "'NoneType' object has no attribute 'source'")) as Hb.
  { apply validate_batch_of_items.
    - rewrite Hitems. by destruct pre.
    - rewrite Hitems. by apply validate_items_raises. }
  split; [done|]. split; [done|].
  unfold pre_processing_safety_check. by rewrite Hb.
Qed.

(** The errors of the accumulator only grow, and an item that fails
    with errors adds to them. *)
Lemma validate_items_keeps_errors (items : list ScrapedContent) (i : nat)
    (acc acc' : batch_acc) :
  validate_items lib self i items acc = Returned acc' →
  acc_errors acc ≠ [] → acc_errors acc' ≠ [].
Proof.
  revert i acc. induction items as [|c items IH]; intros i acc.
  - cbn. by intros [= <-].
  - cbn [validate_items].
    destruct (validate_scraped_content lib self c) as [r|]; [|done].
    cbn [mbind outcome_bind]. intros H Hne. apply (IH _ _ H). cbn [acc_errors].
    destruct (negb (passed r)); [|done].
    intros Happ. apply app_eq_nil in Happ as [? _]. done.
Qed.

Lemma validate_items_reports (items : list ScrapedContent) (i : nat)
    (acc acc' : batch_acc) (item : ScrapedContent) (r : ValidationResult) :
  validate_items lib self i items acc = Returned acc' →
  item ∈ items →
  validate_scraped_content lib self item = Returned r →
  errors r ≠ [] →
  acc_errors acc' ≠ [].
Proof.
  revert i acc. induction items as [|c items IH]; intros i acc H Hin Hr Hne.
  - by apply elem_of_nil in Hin.
  - cbn [validate_items] in H.
    apply elem_of_cons in Hin as [<- | Hin].
    + rewrite Hr in H. cbn [mbind outcome_bind] in H.
      apply (validate_items_keeps_errors _ _ _ _ H). cbn [acc_errors].
      rewrite (validation_verdict lib self _ _ Hr).
      destruct (errors r) as [|x xs] eqn:E; [done|]. cbn.
      intros Happ. apply app_eq_nil in Happ as [_ ?]. done.
    + destruct (validate_scraped_content lib self c) as [rc|]; [|done].
      cbn [mbind outcome_bind] in H. by apply (IH _ _ H).
Qed.

(** X7.  One item with a validation error fails the whole batch: batch
    validation does not pass and the gate answers unsafe, however many
    other items pass (the 70 % success rate does not excuse it). *)
Theorem item_error_fails_batch (batch : ScrapingBatch) (item : ScrapedContent)
    (r b : ValidationResult) :
  item ∈ content_items batch →
  validate_scraped_content lib self item = Returned r →
  errors r ≠ [] →
  validate_batch lib self batch = Returned b →
  passed b = false
  ∧ ∃ errs, pre_processing_safety_check lib self batch = Returned (false, errs)
            ∧ errs ≠ [].
Proof.
  intros Hin Hr Hne Hb.
  assert (passed b = false ∧ errors b ≠ []) as [Hp He].
  { unfold validate_batch in Hb.
    destruct (content_items batch) as [|c items] eqn:E; [by apply elem_of_nil in Hin|].
    destruct (validate_items lib self 0 (c :: items) _) as [acc|] eqn:Hacc; [|done].
    cbn [mbind outcome_bind] in Hb. unfold mret, outcome_ret in Hb.
    injection Hb as <-. cbn [passed errors].
    pose proof (validate_items_reports _ _ _ _ _ _ Hacc Hin Hr Hne) as Hacc_ne.
    assert (∀ b1 b2 (x1 x2 : string),
              append_if b1 x1 (append_if b2 x2 (acc_errors acc)) ≠ []) as Happ.
    { intros b1 b2 x1 x2. destruct (acc_errors acc) eqn:Ea; [done|].
      by destruct b1, b2. }
    split; [|apply Happ].
    match goal with |- (length ?l =? 0)%nat = false => destruct l eqn:El end; [|done].
    by apply Happ in El. }
  split; [done|].
  unfold pre_processing_safety_check. rewrite Hb. cbn [mbind outcome_bind].
  rewrite Hp. cbn [negb app]. unfold mret, outcome_ret.
  assert (∀ b1 b2 (x1 x2 : string), append_if b1 x1 (append_if b2 x2 (errors b)) ≠ [])
    as Happ.
  { intros b1 b2 x1 x2. destruct (errors b) eqn:Ea; [done|]. by destruct b1, b2. }
  eexists. split; [|apply Happ].
  f_equal. f_equal.
  match goal with |- (length ?l =? 0)%nat = false => destruct l eqn:El end; [|done].
  by apply Happ in El.
Qed.

(** X8.  The gate answers safe exactly when batch validation passes, the
    batch has at most 100 items and its items name at most one source;
    it then reports no error. *)
Theorem gate_safe_iff (batch : ScrapingBatch) (b : ValidationResult) :
  validate_batch lib self batch = Returned b →
  ∃ safe errs,
    pre_processing_safety_check lib self batch = Returned (safe, errs)
    ∧ (safe = true ↔ errs = [])
    ∧ (safe = true
       ↔ passed b = true
         ∧ (length (content_items batch) ≤ 100)%nat
         ∧ (size (batch_sources batch) ≤ 1)%nat).
Proof.
  intros Hb. unfold pre_processing_safety_check. rewrite Hb.
  cbn [mbind outcome_bind]. unfold mret, outcome_ret.
  eexists _, _. split; [reflexivity|].
  destruct (passed b) eqn:Hp; cbn [negb app].
  - destruct (Nat.ltb_spec 100 (length (content_items batch))) as [H100|H100];
      destruct (Nat.ltb_spec 1 (size (batch_sources batch))) as [H1|H1];
      cbn [append_if app length Nat.eqb];
      (split; [done|]); split; try done; try (intros (_ & ? & ?); lia).
  - assert (errors b ≠ []) as Hne.
    { intros He. unfold validate_batch in Hb.
      destruct (content_items batch); [by injection Hb as <-|].
      destruct (validate_items lib self 0 _ _); [|done].
      cbn in Hb. injection Hb as <-. cbn in Hp, He. by rewrite He in Hp. }
    assert (∀ b1 b2 (x1 x2 : string), append_if b1 x1 (append_if b2 x2 (errors b)) ≠ [])
      as Happ.
    { intros b1 b2 x1 x2. destruct (errors b) eqn:Ea; [done|]. by destruct b1, b2. }
    match goal with |- context [(length ?l =? 0)%nat] => destruct l eqn:El end;
      [by apply Happ in El|].
    cbn. split; [done|]. split; [done|]. by intros (? & _).
Qed.
End BatchFacts.

(** ** The lake format, the rate limit and the retrieval methods *)

(** X9.  The structure test of verify_v3_compatibility adds nothing to
    the conversion: the lake format of a record always has the fields
    and types it asks for, so the verification succeeds exactly for the
    records that have an attribution. *)
Theorem verify_v3_compatibility_iff_attributed (c : ScrapedContent) :
  verify_v3_compatibility c = true ↔ ∃ a, source_attribution c = Some a.
Proof.
  unfold verify_v3_compatibility, to_v3_format.
  destruct (source_attribution c) as [a|].
  - split; [by eexists | reflexivity].
  - split; [done | by intros [a ?]].
Qed.

Section RateLimit.
Context (sleep : Q → Q → Q).

(** X10.  With a positive rate limit and a sleep that lasts at least as
    long as asked, the request time that _respect_rate_limit records is
    at least 1/rate_limit after the previous one, and it does not wait
    when that much time has passed already.  Without a positive rate
    limit it neither waits nor records the time. *)
Theorem rate_limit_spaces_requests (rate_limit last_request_time t : Q) :
  (∀ d t0, (0 <= d)%Q → (t0 + d <= sleep d t0)%Q) →
  let '(last', t') := _respect_rate_limit sleep rate_limit last_request_time t in
  ((0 < rate_limit)%Q →
     last' = t' ∧ (t <= t')%Q
     ∧ (last_request_time + 1 / rate_limit <= last')%Q
     ∧ ((1 / rate_limit <= t - last_request_time)%Q → t' = t))
  ∧ ((rate_limit <= 0)%Q → last' = last_request_time ∧ t' = t).
Proof.
  intros Hsleep. unfold _respect_rate_limit.
  destruct (Qltb 0 rate_limit) eqn:Hr.
  - apply Qltb_lt in Hr.
    destruct (Qltb (t - last_request_time) (1 / rate_limit)) eqn:Hs.
    + apply Qltb_lt in Hs. split.
      * intros _. split; [done|].
        set (m := (1 / rate_limit)%Q) in *.
        assert (0 <= m - (t - last_request_time))%Q as Hd by lra.
        pose proof (Hsleep _ t Hd) as Hw.
        split; [lra|]. split; [lra|]. intros Hge. lra.
      * intros Hle. lra.
    + apply Qltb_ge in Hs. split.
      * intros _. split; [done|]. set (m := (1 / rate_limit)%Q) in *.
        split; [lra|]. split; [lra|]. done.
      * intros Hle. lra.
  - apply Qltb_ge in Hr. split; [|done]. intros H. lra.
Qed.
End RateLimit.

Section HttpFacts.
Context {World : Type} (self : @Http.Session World).


Lemma fetch_failed_result (url message name : string) :
  strategy_result url name (Returned (Http.fetch_failed url message name)).
Proof. eexists. repeat split; try done. Qed.

Lemma _fetch_direct_result url w :
  strategy_result url "direct" (fst (Http._fetch_direct self url w)).
Proof.
  unfold Http._fetch_direct.
  destruct (Http.session_get self url _) as [[response|e] w']; cbn [fst];
    [|apply fetch_failed_result].
  destruct (text response) as [content|e]; cbn [fst]; [|apply fetch_failed_result].
  eexists. split; [reflexivity|]. cbn.
  destruct (status response =? 200)%Z eqn:E.
  - apply Z.eqb_eq in E. rewrite E. repeat split; try done; by eexists.
  - apply Z.eqb_neq in E. repeat split; try done; congruence.
Qed.

Lemma _fetch_via_archive_ph_result url w :
  strategy_result url "archive_ph" (fst (Http._fetch_via_archive_ph self url w)).
Proof.
  unfold Http._fetch_via_archive_ph.
  destruct (Http.session_get self _ _) as [[response|e] w']; cbn [fst];
    [|apply fetch_failed_result].
  destruct (text response) as [content|e]; cbn [fst]; [|apply fetch_failed_result].
  destruct (status response =? 200)%Z eqn:E; cbn [andb]; [|apply fetch_failed_result].
  destruct (_ && _); cbn [fst]; [|apply fetch_failed_result].
  apply Z.eqb_eq in E. rewrite E.
  eexists. split; [reflexivity|]. cbn. repeat split; try done; by eexists.
Qed.

Lemma _fetch_via_archive_org_result url w :
  strategy_result url "archive_org" (fst (Http._fetch_via_archive_org self url w)).
Proof.
  unfold Http._fetch_via_archive_org.
  destruct (Http.session_get self _ _) as [[response|e] w']; cbn [fst];
    [|apply fetch_failed_result].
  destruct (status response =? 200)%Z eqn:E; cbn [fst]; [|apply fetch_failed_result].
  destruct (_ ≫= _) as [cleaned|e]; cbn [fst]; [|apply fetch_failed_result].
  apply Z.eqb_eq in E. rewrite E.
  eexists. split; [reflexivity|]. cbn. repeat split; try done; by eexists.
Qed.

Lemma _fetch_via_google_cache_result url w :
  strategy_result url "google_cache" (fst (Http._fetch_via_google_cache self url w)).
Proof.
  unfold Http._fetch_via_google_cache.
  destruct (Http.session_get self _ _) as [[response|e] w']; cbn [fst];
    [|apply fetch_failed_result].
  destruct (status response =? 200)%Z eqn:E; cbn [fst]; [|apply fetch_failed_result].
  destruct (_ ≫= _) as [cleaned|e]; cbn [fst]; [|apply fetch_failed_result].
  apply Z.eqb_eq in E. rewrite E.
  eexists. split; [reflexivity|]. cbn. repeat split; try done; by eexists.
Qed.

(** X11.  None of the four retrieval methods raises: each turns an
    exception of the request, of the reading of the body or of the
    clean-up of the page into a failure result under its own method
    name; a success always carries status 200 and a text, a failure
    never carries a text. *)
Theorem strategies_absorb_exceptions (url : string) (w : World) :
  strategy_result url "direct" (fst (Http._fetch_direct self url w))
  ∧ strategy_result url "archive_ph" (fst (Http._fetch_via_archive_ph self url w))
  ∧ strategy_result url "archive_org" (fst (Http._fetch_via_archive_org self url w))
  ∧ strategy_result url "google_cache" (fst (Http._fetch_via_google_cache self url w)).
Proof.
  split; [apply _fetch_direct_result|].
  split; [apply _fetch_via_archive_ph_result|].
  split; [apply _fetch_via_archive_org_result | apply _fetch_via_google_cache_result].
Qed.

(** The loop over strategies that behave so returns a success of one of
    them with a text of more than 500 characters, or the failure of the
    cascade. *)
Lemma fetch_loop_of_results (strategies : list (string * fetch_strategy))
    (methods : list string) (url : string) (w : World) (invoked : list string) :
  Forall (λ s, ∀ w, ∃ m, m ∈ methods ∧ strategy_result url m (fst (snd s url w)))
    strategies →
  ∃ r, fst (fst (fetch_loop strategies url w invoked)) = Returned r
       ∧ ((success r = true ∧ fr_url r = url ∧ method r ∈ methods
           ∧ status_code r = Some 200%Z
           ∧ ∃ page, fr_content r = Some page ∧ (500 < len page)%Z)
          ∨ r = all_strategies_failed url).
Proof.
  intros H. revert w invoked.
  induction H as [|[name strategy] rest Hs _ IH]; intros w invoked.
  - eexists. split; [reflexivity | by right].
  - cbn [fetch_loop]. destruct (Hs w) as (m & Hm & r & Hr & Hurl & Hmeth & Hok & _).
    cbn [snd] in Hr. destruct (strategy url w) as [o w']. cbn [fst] in Hr. subst o.
    destruct (fetch_accepted r) eqn:Hacc; [|apply IH].
    eexists. split; [reflexivity|]. left.
    unfold fetch_accepted in Hacc.
    apply andb_true_iff in Hacc as [Hacc Hlen]. apply andb_true_iff in Hacc as [Hsucc _].
    destruct (Hok Hsucc) as [Hstatus _].
    repeat split; try done; [by rewrite Hmeth|].
    destruct (fr_content r) as [page|]; [|done].
    exists page. split; [done|]. by apply Z.ltb_lt.
Qed.

(** X12.  With the four retrieval methods of the code, fetch_with_fallbacks
    returns either a success for the requested address with status 200,
    a text of more than 500 characters and the method name of one of
    the four, or the failure "All fetch strategies failed" with method
    none; it never returns a success of another kind and never raises. *)
Theorem fetch_with_fallbacks_result (url : string) (w : World) :
  ∃ r, fst (fst (fetch_with_fallbacks (Http.fetcher self) url w)) = Returned r
       ∧ ((success r = true ∧ fr_url r = url
           ∧ method r ∈ ["direct"; "archive_ph"; "archive_org"; "google_cache"]
           ∧ status_code r = Some 200%Z
           ∧ ∃ page, fr_content r = Some page ∧ (500 < len page)%Z)
          ∨ r = all_strategies_failed url).
Proof.
  unfold fetch_with_fallbacks. apply fetch_loop_of_results.
  unfold fetch_strategies, Http.fetcher. cbn.
  repeat constructor; intros w0; cbn [snd].
  - exists "direct". split; [set_solver | apply _fetch_direct_result].
  - exists "archive_ph". split; [set_solver | apply _fetch_via_archive_ph_result].
  - exists "archive_org". split; [set_solver | apply _fetch_via_archive_org_result].
  - exists "google_cache". split; [set_solver | apply _fetch_via_google_cache_result].
Qed.
End HttpFacts.

(** ** Extracted records *)

Section ExtractedRecords.
Context (lib : PyLib) {Soup : Type} (doc : @Document Soup).

(** X13.  Content-type detection never answers podcast_episode; the
    review patterns are tried first, so a title that contains "review"
    makes the record a review whatever else matches; and an address
    that contains "npr" is never classified as a plain article. *)
Theorem detect_content_type_priorities (title content url : string) :
  _detect_content_type lib title content url ≠ PODCAST_EPISODE
  ∧ (title ≠ "" → str_in "review" (str_lower lib title) = true →
     _detect_content_type lib title content url = REVIEW)
  ∧ (str_in "npr" (str_lower lib url) = true →
     _detect_content_type lib title content url ≠ ARTICLE).
Proof.
  unfold _detect_content_type, content_type_patterns.
  set (hit := λ pattern : string, _).
  cbn [find snd fst].
  split; [|split].
  - do 4 (destruct (existsb hit _); [done|]). done.
  - intros Hne Hrev.
    assert (hit "review" = true) as Hhit.
    { unfold hit. destruct title; [done|]. cbn [str_truthy]. by rewrite Hrev. }
    cbn [existsb]. by rewrite Hhit.
  - intros Hnpr.
    assert (hit "npr" = true) as Hhit.
    { unfold hit. rewrite Hnpr. by rewrite orb_true_r. }
    do 3 (destruct (existsb hit _); [done|]).
    destruct (existsb hit _) eqn:E; [done|].
    cbn [existsb] in E. rewrite Hhit in E. by rewrite !orb_true_r in E.
Qed.


Lemma build_scraped_content_record (data : content_data) (url source_name body : string) :
  cd_content data = Some body → body ≠ "" →
  extracted_record url source_name (_build_scraped_content lib doc data url source_name).
Proof.
  intros Hbody Hne. unfold _build_scraped_content, ScrapedContent__post_init__.
  rewrite Hbody. cbn [default content source_attribution s3_key opt_truthy negb].
  destruct body as [|x body]; [done|]. cbn [str_truthy].
  unfold extracted_record. cbn.
  repeat split; try done; by eexists.
Qed.


Lemma truthy_some (o : option string) :
  opt_truthy o = true → ∃ s, o = Some s ∧ s ≠ "".
Proof. destruct o as [[|x s]|]; try done. intros _. by eexists. Qed.

Lemma build_extraction_method data url source_name :
  extraction_method (_build_scraped_content lib doc data url source_name) = "unknown"
  ∧ confidence_score (_build_scraped_content lib doc data url source_name) = (8 # 10)%Q.
Proof.
  unfold _build_scraped_content, ScrapedContent__post_init__.
  cbn [content]. by destruct (str_truthy _).
Qed.

Lemma strategies_sound (url source_name : string) :
  Forall (λ s : string * @extraction_strategy Soup,
            ∀ soup r, fst (snd s soup url source_name) = Returned r →
                      sound_result url source_name r)
    (extraction_strategies lib doc).
Proof.
  unfold extraction_strategies. repeat constructor; cbn [snd]; intros soup r.
  - unfold _extract_structured_data.
    destruct (structured_fields doc soup) as [[d|e] s]; cbn; [|done].
    destruct (opt_truthy (cd_title d)) eqn:Ht; cbn [andb]; [|by intros [= <-]].
    destruct (opt_truthy (cd_content d)) eqn:Hc; [|by intros [= <-]].
    intros [= <-]. destruct (truthy_some _ Hc) as (body & Hbody & Hne).
    unfold sound_result. cbn [er_success er_content confidence].
    eexists. split; [done|]. split; [by eapply build_scraped_content_record|].
    destruct (build_extraction_method d url source_name) as [-> ->].
    repeat split; set_solver.
  - unfold _extract_semantic_content.
    destruct (semantic_fields doc soup) as [[d|e] s]; cbn; [|done].
    destruct (opt_truthy (cd_title d)) eqn:Ht; cbn [andb]; [|by intros [= <-]].
    destruct (opt_truthy (cd_content d)) eqn:Hc; cbn [andb]; [|by intros [= <-]].
    destruct (200 <? _)%Z; [|by intros [= <-]].
    intros [= <-]. destruct (truthy_some _ Hc) as (body & Hbody & Hne).
    unfold sound_result. cbn [er_success er_content confidence].
    eexists. split; [done|]. split; [by eapply build_scraped_content_record|].
    destruct (build_extraction_method d url source_name) as [-> ->].
    repeat split; set_solver.
  - unfold _extract_generic_content.
    destruct (generic_fields doc soup) as [[d|e] s]; cbn; [|done].
    destruct (opt_truthy (cd_title d)) eqn:Ht; cbn [andb]; [|by intros [= <-]].
    destruct (opt_truthy (cd_content d)) eqn:Hc; [|by intros [= <-]].
    intros [= <-]. destruct (truthy_some _ Hc) as (body & Hbody & Hne).
    unfold sound_result. cbn [er_success er_content confidence].
    eexists. split; [done|]. split; [by eapply build_scraped_content_record|].
    destruct (build_extraction_method d url source_name) as [-> ->].
    repeat split; set_solver.
  - unfold _extract_fallback_content.
    destruct (fallback_fields doc soup) as [[[t [b|]]|e] s]; cbn; [| by intros [= <-] | done].
    destruct (300 <? len b)%Z eqn:Hlen; [|by intros [= <-]].
    intros [= <-]. unfold sound_result. cbn [er_success er_content confidence].
    eexists. split; [done|].
    split; [eapply build_scraped_content_record; [reflexivity|] |].
    + intros ->. done.
    + match goal with |- context [_build_scraped_content lib doc ?d _ _] =>
        destruct (build_extraction_method d url source_name) as [-> ->] end.
      repeat split; set_solver.
Qed.

Lemma extract_loop_sound (strategies : list (string * extraction_strategy))
    (url source_name : string) :
  Forall (λ s : string * @extraction_strategy Soup,
            ∀ soup r, fst (snd s soup url source_name) = Returned r →
                      sound_result url source_name r) strategies →
  ∀ soup best best_confidence invoked r,
    (∀ r0, best = Some r0 → er_success r0 = true ∧ sound_result url source_name r0) →
    fst (extract_loop strategies soup url source_name best best_confidence invoked) = Some r →
    er_success r = true ∧ sound_result url source_name r.
Proof.
  induction 1 as [|[name strategy] rest Hs _ IH];
    intros soup best best_confidence invoked r Hbest.
  - cbn. apply Hbest.
  - cbn [extract_loop]. specialize (Hs soup). cbn [snd] in Hs.
    destruct (strategy soup url source_name) as [[r1|e] soup']; cbn [fst] in Hs; [|by apply IH].
    specialize (Hs r1 eq_refl).
    destruct (er_success r1) eqn:Hsucc; cbn [andb].
    + destruct (Qltb best_confidence (confidence r1)).
      * destruct (Qltb (8 # 10) (confidence r1)).
        -- cbn. by intros [= <-].
        -- apply IH. by intros r0 [= <-].
      * destruct (Qltb (8 # 10) (confidence r1)); [cbn; apply Hbest | by apply IH].
    + destruct (Qltb (8 # 10) (confidence r1)); [cbn; apply Hbest | by apply IH].
Qed.

(** X14.  A successful result of extract_content always carries a record
    for the requested address: with a non-empty body, an attribution
    that names the given source and the address, a storage key and a
    content hash, and a confidence of 0.9, 0.8, 0.6 or 0.3.  A failed
    result carries no record and one of the two error messages. *)
Theorem successful_extraction_carries_record (html url source_name : string) :
  let r := fst (extract_content lib doc html url source_name) in
  (er_success r = true →
   ∃ c, er_content r = Some c ∧ extracted_record url source_name c
        ∧ confidence r ∈ [(9 # 10)%Q; (8 # 10)%Q; (6 # 10)%Q; (3 # 10)%Q])
  ∧ (er_success r = false →
     r = extraction_error "HTML content too short or empty"
     ∨ r = extraction_error "All extraction strategies failed").
Proof.
  unfold extract_content.
  destruct (negb (str_truthy html) || (len html <? 100)%Z).
  - cbn. split; [done | by left].
  - pose proof (extract_loop_sound _ url source_name (strategies_sound url source_name)
                  (BeautifulSoup doc html) None 0%Q []) as H.
    destruct (extract_loop _ _ _ _ _ _ _) as [[r|] invoked]; cbn [fst default] in *.
    + destruct (H r) as [Hs Hr]; [done | done |].
      unfold sound_result in Hr. rewrite Hs in Hr.
      destruct Hr as (c & Hc & Hrec & _ & _ & Hconf).
      unfold id. split; [|intros Hf; congruence]. intros _. by exists c.
    + split; [done | by right].
Qed.
End ExtractedRecords.

(** ** Storage keys *)

Section KeyFacts.
Context (lib : PyLib).

Lemma substring_length_le (n : nat) (s : string) :
  (String.length (String.substring 0 n s) ≤ n)%nat.
Proof.
  revert s. induction n as [|n IH]; intros [|a s]; simpl; try lia.
  specialize (IH s). lia.
Qed.

Lemma str_rstrip_length (c : ascii) (s : string) :
  (String.length (str_rstrip c s) ≤ String.length s)%nat.
Proof.
  induction s as [|a s IH]; simpl; [lia|].
  destruct (str_rstrip c s); [destruct (Ascii.eqb a c)|]; simpl in *; lia.
Qed.

Lemma str_lstrip_length (c : ascii) (s : string) :
  (String.length (str_lstrip c s) ≤ String.length s)%nat.
Proof.
  induction s as [|a s IH]; simpl; [lia|].
  destruct (Ascii.eqb a c); simpl; lia.
Qed.

Lemma str_rstrip_idemp (c : ascii) (s : string) :
  str_rstrip c (str_rstrip c s) = str_rstrip c s.
Proof.
  induction s as [|a s IH]; [done|]. cbn [str_rstrip].
  destruct (str_rstrip c s) as [|b r] eqn:E.
  - destruct (Ascii.eqb a c) eqn:Ea; [done|]. cbn [str_rstrip]. by rewrite Ea.
  - cbn [str_rstrip] in *. by rewrite IH.
Qed.


Lemma str_lstrip_no_lead (c : ascii) (s : string) : no_lead c (str_lstrip c s).
Proof.
  induction s as [|a s IH]; [done|]. cbn [str_lstrip].
  by destruct (Ascii.eqb a c) eqn:E.
Qed.

Lemma str_rstrip_no_lead (c : ascii) (s : string) :
  no_lead c s → no_lead c (str_rstrip c s).
Proof.
  destruct s as [|a s]; [done|]. cbn [str_rstrip no_lead]. intros E.
  destruct (str_rstrip c s); [by rewrite E | done].
Qed.

Lemma no_lead_lstrip (c : ascii) (s : string) : no_lead c s → str_lstrip c s = s.
Proof. destruct s as [|a s]; [done|]. cbn. by intros ->. Qed.

Lemma str_strip_idemp (c : ascii) (s : string) :
  str_strip c (str_strip c s) = str_strip c s.
Proof.
  unfold str_strip.
  rewrite (no_lead_lstrip c (str_rstrip c (str_lstrip c s)))
    by apply str_rstrip_no_lead, str_lstrip_no_lead.
  apply str_rstrip_idemp.
Qed.

(** X15.  The folder name that the uploader makes of an artist name is
    never empty, has at most 50 characters and neither starts nor ends
    with an underscore, whatever the name and whatever the regular
    expressions leave of it. *)
Theorem sanitized_artist_name_shape (artist : string) :
  _sanitize_artist_name lib artist ≠ ""
  ∧ (String.length (_sanitize_artist_name lib artist) ≤ 50)%nat
  ∧ str_strip "_" (_sanitize_artist_name lib artist) = _sanitize_artist_name lib artist.
Proof.
  unfold _sanitize_artist_name.
  set (s := re_sub lib "\s+" "_" _).
  destruct (str_strip "_" (str_take 50 s)) as [|a r] eqn:E; cbn [str_truthy negb].
  - split; [done|]. split; [cbn; lia | reflexivity].
  - rewrite <- E. split; [by rewrite E|]. split.
    + unfold str_strip, str_take.
      pose proof (str_rstrip_length "_" (str_lstrip "_" (String.substring 0 50 s))).
      pose proof (str_lstrip_length "_" (String.substring 0 50 s)).
      pose proof (substring_length_le 50 s). lia.
    + apply str_strip_idemp.
Qed.

Lemma append_assoc (a b c : string) : (a +:+ b) +:+ c = a +:+ (b +:+ c).
Proof.
  induction a as [|x a IH]; [reflexivity|].
  change (String x ((a +:+ b) +:+ c) = String x (a +:+ (b +:+ c))). by rewrite IH.
Qed.

Lemma append_inj_l (a b c : string) : a +:+ b = a +:+ c → b = c.
Proof.
  induction a as [|x a IH]; [done|].
  change (String x (a +:+ b) = String x (a +:+ c) → b = c). intros [= H]. by apply IH.
Qed.

Lemma str_rsplit1_join (sep : ascii) (s l r : string) :
  str_rsplit1 sep s = Some (l, r) → s = l +:+ String sep r.
Proof.
  revert l. induction s as [|a s IH]; intros l; [done|]. cbn [str_rsplit1].
  destruct (str_rsplit1 sep s) as [[l' r']|].
  - intros [= <- <-]. change (String a s = String a (l' +:+ String sep r')).
    by rewrite (IH l' eq_refl).
  - destruct (Ascii.eqb a sep) eqn:E; [|done]. apply Ascii.eqb_eq in E as ->.
    by intros [= <- <-].
Qed.

Lemma str_rsplit1_extension (sep : ascii) (stem ext : string) :
  str_rsplit1 sep ext = None →
  str_rsplit1 sep (stem +:+ String sep ext) = Some (stem, ext).
Proof.
  intros Hext. induction stem as [|a stem IH].
  - change (str_rsplit1 sep (String sep ext) = Some ("", ext)).
    cbn [str_rsplit1]. by rewrite Hext, Ascii.eqb_refl.
  - change (str_rsplit1 sep (String a (stem +:+ String sep ext))
            = Some (String a stem, ext)).
    cbn [str_rsplit1]. by rewrite IH.
Qed.


Lemma derived_key_extension (c : ScrapedContent) :
  str_rsplit1 "." (derived_key lib c) = Some (derived_stem lib c, "json")
  ∧ derived_key lib c = derived_stem lib c +:+ ".json".
Proof.
  assert (∃ stem, derived_key lib c = stem +:+ ".json") as [stem Hstem].
  { unfold derived_key, _generate_safe_filename.
    eexists. rewrite <- !append_assoc. reflexivity. }
  assert (str_rsplit1 "." (derived_key lib c) = Some (stem, "json")) as Hs.
  { rewrite Hstem. by apply (str_rsplit1_extension "." stem "json"). }
  unfold derived_stem. by rewrite Hs.
Qed.

Lemma suffixed_key_differs (stem ext : string) (n : nat) :
  suffixed_key stem n ext ≠ stem +:+ "." +:+ ext.
Proof. unfold suffixed_key. intros H. apply append_inj_l in H. done. Qed.

Lemma timestamped_key_differs (stem ext : string) (now : datetime) :
  timestamped_key stem now ext ≠ stem +:+ "." +:+ ext.
Proof. unfold timestamped_key. intros H. apply append_inj_l in H. done. Qed.

Lemma unique_key_loop_suffixed (s3 : S3) (base_name extension : string)
    (fuel counter : nat) (key : string) :
  unique_key_loop fuel counter base_name extension s3 = Returned (Some key) →
  ∃ n, key = suffixed_key base_name n extension.
Proof.
  revert counter. induction fuel as [|fuel IH]; intros counter; [done|].
  cbn [unique_key_loop]. destruct (counter <? 100)%nat; [|done].
  destruct (_key_exists _ s3) as [[]|]; cbn; [apply IH | | done].
  intros [= <-]. by eexists.
Qed.

(** A key that the collision handling returns differs from the key it
    was asked about, and has its extension. *)
Lemma generate_unique_key_differs (c : ScrapedContent) (s3 : S3) (now : datetime)
    (key : string) :
  _generate_unique_key (derived_key lib c) s3 now = Returned key →
  key ≠ derived_key lib c ∧ ∃ stem, key = stem +:+ ".json".
Proof.
  unfold _generate_unique_key.
  destruct (derived_key_extension c) as [Hs Hk]. rewrite Hs.
  destruct (unique_key_loop 100 1 (derived_stem lib c) "json" s3) as [[k|]|] eqn:El;
    cbn; [| |done].
  - intros [= <-]. destruct (unique_key_loop_suffixed _ _ _ _ _ _ El) as [n ->].
    split.
    + rewrite Hk. apply (suffixed_key_differs (derived_stem lib c) "json").
    + exists (derived_stem lib c +:+ "_" +:+ zfill 3 n).
      unfold suffixed_key. rewrite !append_assoc. reflexivity.
  - intros [= <-]. split.
    + rewrite Hk. apply (timestamped_key_differs (derived_stem lib c) "json").
    + exists (derived_stem lib c +:+ "_" +:+ strftime_Ymd_HMS now).
      unfold timestamped_key. rewrite !append_assoc. reflexivity.
Qed.

(** X16.  An upload never replaces the object that the store holds under
    the derived key of the record: in a faultless store that object is
    still there afterwards, whether the upload succeeds or not. *)
Theorem upload_keeps_colliding_object (c : ScrapedContent) (s3 : S3) (now : datetime)
    (body : S3Body) :
  faultless s3 →
  objects s3 !! derived_key lib c = Some body →
  objects (snd (fst (_upload_content_item lib c s3 now))) !! derived_key lib c = Some body.
Proof.
  intros Hf Hbody. unfold _upload_content_item.
  rewrite (key_exists_faultless _ _ Hf), bool_decide_eq_true_2 by (by eexists).
  destruct (_generate_unique_key (derived_key lib c) s3 now) as [key|] eqn:Hk; [|done].
  destruct (generate_unique_key_differs _ _ _ _ Hk) as [Hne _].
  destruct (upload_data lib c now); [|done]. destruct (json_dumps lib _); [|done].
  rewrite (put_object_faultless _ _ _ Hf). cbn.
  by rewrite lookup_insert_ne.
Qed.

(** X17.  In a faultless store the upload of a record with an attribution
    that serialises succeeds; the store then holds the lake format of
    the record, with the upload metadata, under the returned key, which
    ends in .json and is recorded in the record; every other object is
    untouched.  The key is the derived key when that is free. *)
Theorem upload_then_lookup (c : ScrapedContent) (a : SourceAttribution) (s3 : S3)
    (now : datetime) :
  faultless s3 →
  source_attribution c = Some a →
  (∀ data, upload_data lib c now = Returned data → returns (json_dumps lib data)) →
  ∃ key data,
    _upload_content_item lib c s3 now
    = (Returned (Some key),
       with_objects (<[key := ContentBody data]> (objects s3)) s3,
       set_s3_key (Some key) c)
    ∧ upload_data lib c now = Returned data
    ∧ objects (snd (fst (_upload_content_item lib c s3 now))) !! key
      = Some (ContentBody data)
    ∧ (∀ k, k ≠ key →
         objects (snd (fst (_upload_content_item lib c s3 now))) !! k = objects s3 !! k)
    ∧ (∃ stem, key = stem +:+ ".json")
    ∧ (objects s3 !! derived_key lib c = None → key = derived_key lib c).
Proof.
  intros Hf Ha Hjson.
  assert (∃ data, upload_data lib c now = Returned data) as [data Hdata].
  { unfold upload_data, to_v3_format. rewrite Ha. by eexists. }
  destruct (Hjson data Hdata) as [j Hj].
  assert (∃ key,
    (if bool_decide (is_Some (objects s3 !! derived_key lib c))
     then _generate_unique_key (derived_key lib c) s3 now
     else Returned (derived_key lib c)) = Returned key
    ∧ (∃ stem, key = stem +:+ ".json")
    ∧ (objects s3 !! derived_key lib c = None → key = derived_key lib c))
    as (key & Hkey & Hext & Hfree).
  { destruct (bool_decide _) eqn:Eb.
    - apply bool_decide_eq_true in Eb.
      assert (∃ key, _generate_unique_key (derived_key lib c) s3 now = Returned key)
        as [key Hkey].
      { unfold _generate_unique_key.
        destruct (derived_key_extension c) as [-> _].
        assert (∀ fuel counter, returns (unique_key_loop fuel counter
                                          (derived_stem lib c) "json" s3)) as Hloop.
        { induction fuel as [|fuel IH]; intros counter; [by eexists|].
          cbn [unique_key_loop]. destruct (counter <? 100)%nat; [|by eexists].
          rewrite (key_exists_faultless _ _ Hf). cbn.
          destruct (bool_decide _); cbn; [apply IH | by eexists]. }
        destruct (Hloop 100%nat 1%nat) as [[k|] ->]; by eexists. }
      exists key. split; [done|].
      destruct (generate_unique_key_differs _ _ _ _ Hkey) as [_ Hext].
      split; [done|]. intros Hnone. rewrite Hnone in Eb. by destruct Eb.
    - exists (derived_key lib c). split; [done|].
      destruct (derived_key_extension c) as [_ Hk]. split; [by eexists | done]. }
  assert (_upload_content_item lib c s3 now
          = (Returned (Some key),
             with_objects (<[key := ContentBody data]> (objects s3)) s3,
             set_s3_key (Some key) c)) as Hup.
  { unfold _upload_content_item. rewrite (key_exists_faultless _ _ Hf).
    rewrite Hkey, Hdata, Hj. by rewrite (put_object_faultless _ _ _ Hf). }
  exists key, data. rewrite Hup. cbn [fst snd with_objects objects].
  split; [done|]. split; [done|]. split; [by rewrite lookup_insert_eq|].
  split; [|done]. intros k Hk. by rewrite lookup_insert_ne.
Qed.
End KeyFacts.

(** ** Batch uploads *)

Section BatchUpload.
Context (lib : PyLib).

Lemma same_but_key_refl (c : ScrapedContent) : same_but_key c c.
Proof. exists (s3_key c). by destruct c. Qed.

Lemma upload_content_item_record (c : ScrapedContent) (s3 : S3) (now : datetime) :
  same_but_key c (snd (_upload_content_item lib c s3 now)).
Proof.
  unfold _upload_content_item.
  destruct (_key_exists _ s3) as [taken|]; [|apply same_but_key_refl].
  destruct (if taken then _ else _) as [key|]; [|apply same_but_key_refl].
  destruct (upload_data lib c now) as [data|]; [|apply same_but_key_refl].
  destruct (json_dumps lib data); [|apply same_but_key_refl].
  destruct (put_object s3 key _) as [[|] s3']; [by eexists | apply same_but_key_refl].
Qed.

(** The counters of the loop of [upload_batch]. *)
Lemma upload_items_counts (items : list ScrapedContent) (i : nat) (s3 : S3)
    (clock : nat → datetime) (res : upload_results) :
  let '(res', s3', items') := upload_items lib i items s3 clock res in
  (successful_uploads res' + failed_uploads res'
   = successful_uploads res + failed_uploads res + length items)%nat
  ∧ (length (uploaded_keys res') + successful_uploads res
     = length (uploaded_keys res) + successful_uploads res')%nat
  ∧ (successful_uploads res ≤ successful_uploads res')%nat
  ∧ total_items res' = total_items res
  ∧ ur_batch_id res' = ur_batch_id res
  ∧ manifest_key res' = manifest_key res
  ∧ Forall2 same_but_key items items'.
Proof.
  revert i s3 res. induction items as [|item rest IH]; intros i s3 res.
  - cbn. repeat split; try lia. constructor.
  - cbn [upload_items].
    pose proof (upload_content_item_record item s3 (clock i)) as Hrec.
    destruct (_upload_content_item lib item s3 (clock i)) as [[o s3a] item'].
    cbn [snd] in Hrec.
    match goal with
    | |- context [upload_items lib (S i) rest s3a clock ?r] =>
        specialize (IH (S i) s3a r);
        destruct (upload_items lib (S i) rest s3a clock r) as [[res' s3'] items']
    end.
    destruct IH as (H1 & H2 & H3 & H4 & H5 & H6 & H7).
    destruct o as [[k|]|e]; [destruct (str_truthy k)| |];
      cbn [successful_uploads failed_uploads uploaded_keys total_items ur_batch_id
           manifest_key length] in *;
      rewrite ?length_app in *; cbn [length] in *;
      (repeat split; [lia | lia | lia | done | done | done | by constructor]).
Qed.

(** X18.  When the connection to the bucket fails, upload_batch raises
    and touches neither store nor batch.  Otherwise it always returns,
    whatever happens to the single items and to the manifest: the
    counts of successes and failures add up to the number of items, one
    key is listed per success, and the batch it hands back holds the
    same records in the same order, changed at most in their storage
    key. *)
Theorem upload_batch_accounts_for_every_item (batch : ScrapingBatch) (s3 : S3)
    (clock : nat → datetime) :
  match connect_fault s3 with
  | Some e => upload_batch lib batch s3 clock = (Raised e, s3, batch)
  | None =>
      ∃ res s3' batch',
        upload_batch lib batch s3 clock = (Returned res, s3', batch')
        ∧ total_items res = length (content_items batch)
        ∧ (successful_uploads res + failed_uploads res = total_items res)%nat
        ∧ length (uploaded_keys res) = successful_uploads res
        ∧ Forall2 same_but_key (content_items batch) (content_items batch')
        ∧ batch_id batch' = batch_id batch
        ∧ batch_source batch' = batch_source batch
        ∧ (∀ key, manifest_key res = Some key →
             objects s3' !! key
             = Some (ManifestBody (batch_id batch) (uploaded_keys res)))
  end.
Proof.
  unfold upload_batch. destruct (connect_fault s3) as [e|]; [done|].
  match goal with
  | |- context [upload_items lib 0 (content_items batch) s3 clock ?r] =>
      pose proof (upload_items_counts (content_items batch) 0 s3 clock r) as H;
      destruct (upload_items lib 0 (content_items batch) s3 clock r) as [[res s3a] items]
  end.
  cbn [successful_uploads failed_uploads uploaded_keys total_items ur_batch_id
       manifest_key length] in H.
  destruct H as (H1 & H2 & H3 & H4 & H5 & H6 & H7).
  unfold _upload_batch_manifest, put_object. cbn [created_at batch_source batch_id].
  destruct (put_fault s3a _) as [e|].
  - eexists _, _, _. split; [reflexivity|].
    cbn [successful_uploads failed_uploads uploaded_keys total_items manifest_key
         content_items batch_id batch_source ur_errors].
    repeat split; try done; try lia. rewrite H6. done.
  - eexists _, _, _. split; [reflexivity|].
    cbn [successful_uploads failed_uploads uploaded_keys total_items manifest_key
         content_items batch_id batch_source ur_errors].
    repeat split; try done; try lia.
    intros key [= <-]. cbn [objects with_objects]. by rewrite lookup_insert_eq.
Qed.
End BatchUpload.

(** ** Upload statistics *)

Lemma rate_within_unit (a b : nat) :
  (a ≤ b)%nat → (0 <= Qnat a / Qnat (Nat.max 1 b))%Q ∧ (Qnat a / Qnat (Nat.max 1 b) <= 1)%Q.
Proof.
  intros Hab.
  assert (0 < Qnat (Nat.max 1 b))%Q as Hpos by (apply Qnat_pos; lia).
  split.
  - apply Qle_shift_div_l; [done|]. rewrite Qmult_0_l. unfold Qnat, Qle. cbn. lia.
  - apply Qle_shift_div_r; [done|]. rewrite Qmult_1_l. unfold Qnat, Qle. cbn. lia.
Qed.

Section UploadStatistics.
Context (lib : PyLib).

(** X19.  The statistics of a result of upload_batch are consistent: the
    success rate lies between 0 and 1 (it is 0 for an empty batch, where
    the divisor is 1), the number of keys created is the number of
    successful uploads, and successes and failures add up to the items
    processed. *)
Theorem upload_statistics_consistent (batch : ScrapingBatch) (s3 s3' : S3)
    (clock : nat → datetime) (res : upload_results) (batch' : ScrapingBatch)
    (bucket_name : string) :
  upload_batch lib batch s3 clock = (Returned res, s3', batch') →
  let s := get_upload_statistics bucket_name res in
  (0 <= us_success_rate s)%Q ∧ (us_success_rate s <= 1)%Q
  ∧ (content_items batch = [] → us_success_rate s == 0)%Q
  ∧ s3_keys_created s = us_successful_uploads s
  ∧ (us_successful_uploads s + us_failed_uploads s = total_processed s)%nat
  ∧ total_processed s = length (content_items batch).
Proof.
  unfold upload_batch. destruct (connect_fault s3) as [e|]; [done|].
  match goal with
  | |- context [upload_items lib 0 (content_items batch) s3 clock ?r] =>
      pose proof (upload_items_counts lib (content_items batch) 0 s3 clock r) as H;
      destruct (upload_items lib 0 (content_items batch) s3 clock r) as [[res0 s3a] items]
  end.
  cbn [successful_uploads failed_uploads uploaded_keys total_items ur_batch_id
       manifest_key length] in H.
  destruct H as (Hsum & Hkeys & _ & Ht & _).
  destruct (rate_within_unit (successful_uploads res0) (total_items res0)) as [H0 H1];
    [lia|].
  destruct (_upload_batch_manifest _ _ _) as [[key|e] s3b]; intros [= <- _ _];
    cbn [get_upload_statistics us_success_rate s3_keys_created us_successful_uploads
         us_failed_uploads total_processed successful_uploads failed_uploads
         uploaded_keys total_items];
    (split; [done|]); (split; [done|]); (split; [|repeat split; lia]);
    intros Hnil; rewrite Hnil in Hsum; cbn in Hsum;
    (assert (successful_uploads res0 = 0%nat) as -> by lia); reflexivity.
Qed.
End UploadStatistics.

(** ** Runs of the orchestrator *)

Section RunFacts.
Context (lib : PyLib) (config : ScraperConfig) (validator : ContentValidator)
  (col : Collaborators).

Lemma collect_results_counters (todo : list string) (st : Stats) :
  let '(items, st') := collect_results col todo st in
  (length items ≤ length todo)%nat
  ∧ discovered st' = discovered st ∧ extracted st' = extracted st
  ∧ validated st' = validated st ∧ uploaded st' = uploaded st.
Proof.
  revert st. induction todo as [|u rest IH]; intros st; [cbn; repeat split; lia|].
  cbn [collect_results]. destruct (process_url col u) as [was_fetched [[item|]|e]].
  - match goal with |- context [collect_results col rest ?s] =>
      specialize (IH s); destruct (collect_results col rest s) as [items st'] end.
    cbn in *. destruct IH as (? & ? & ? & ? & ?). repeat split; try done; lia.
  - match goal with |- context [collect_results col rest ?s] =>
      specialize (IH s); destruct (collect_results col rest s) as [items st'] end.
    cbn in *. destruct IH as (? & ? & ? & ? & ?). repeat split; try done; lia.
  - match goal with |- context [collect_results col rest ?s] =>
      specialize (IH s); destruct (collect_results col rest s) as [items st'] end.
    cbn in *. destruct IH as (? & ? & ? & ? & ?). repeat split; try done; lia.
Qed.

Lemma validate_loop_facts (items : list ScrapedContent) (st : Stats) :
  let '(o, st') := validate_loop lib config validator items st in
  same_counters st st'
  ∧ ∀ vs, o = Returned vs →
      (length vs ≤ length items)%nat
      ∧ (validation_required config = true → Forall validated_record vs).
Proof.
  revert st. induction items as [|item rest IH]; intros st.
  - cbn. split; [by repeat split|]. intros vs [= <-]. split; [done|]. by constructor.
  - cbn [validate_loop]. destruct (validation_required config) eqn:Hreq.
    + destruct (validate_scraped_content lib validator item) as [v|e] eqn:Hv.
      * destruct (passed v) eqn:Hp.
        -- specialize (IH st).
           destruct (validate_loop lib config validator rest st) as [[vs|e] st'].
           ++ destruct IH as [Hc Hvs]. split; [done|]. intros ? [= <-].
              destruct (Hvs vs eq_refl) as [Hlen Hall]. split; [cbn; lia|].
              intros _. constructor; [|by apply Hall].
              split; [done|]. cbn [confidence_score set_validation].
              rewrite (validation_verdict lib validator _ _ Hv) in Hp.
              apply andb_true_iff in Hp as [_ Hp]. by apply Qltb_lt.
           ++ destruct IH as [Hc _]. split; [done|]. by intros.
        -- match goal with |- context [validate_loop lib config validator rest ?s] =>
             specialize (IH s);
             destruct (validate_loop lib config validator rest s) as [o st'] end.
           destruct IH as [Hc Hvs]. split; [exact Hc|].
           intros vs Ho. destruct (Hvs vs Ho) as [Hlen Hall]. split; [cbn; lia | done].
      * split; [by repeat split | by intros].
    + specialize (IH st).
      destruct (validate_loop lib config validator rest st) as [[vs|e] st'].
      * destruct IH as [Hc Hvs]. split; [done|]. intros ? [= <-].
        destruct (Hvs vs eq_refl) as [Hlen _]. split; [cbn; lia | done].
      * destruct IH as [Hc _]. split; [done|]. by intros.
Qed.

Lemma append_if_nil {A} (b : bool) (x : A) (xs : list A) :
  append_if b x xs = [] → b = false ∧ xs = [].
Proof. destruct b; cbn; [|done]. by destruct xs. Qed.

Lemma gate_safe_no_errors (batch : ScrapingBatch) (errs : list string) :
  pre_processing_safety_check lib validator batch = Returned (true, errs) →
  errs = [] ∧ content_items batch ≠ [] ∧ (length (content_items batch) ≤ 100)%nat
  ∧ (size (batch_sources batch) ≤ 1)%nat.
Proof.
  unfold pre_processing_safety_check.
  destruct (validate_batch lib validator batch) as [b|e] eqn:Hb; [|done].
  cbn [mbind outcome_bind]. unfold mret, outcome_ret. intros [= Hlen <-].
  match type of Hlen with (length ?l =? 0)%nat = true => destruct l eqn:El end; [|done].
  apply append_if_nil in El as [H1 El]. apply append_if_nil in El as [H100 El].
  apply Nat.ltb_ge in H1, H100. split; [done|]. split; [|done].
  intros Hnil. unfold validate_batch in Hb. rewrite Hnil in Hb.
  injection Hb as <-. done.
Qed.


(** What a run of the phases can come to: nothing stored, and any batch
    it returns is the empty one; or a batch that the gate admitted was
    uploaded and is returned. *)
Lemma scrape_try_cases (max_articles : nat) (st : Stats) (s3 : S3) :
  let '(o, st', s3') := scrape_try lib config validator col max_articles st s3 in
  ((uploaded st' = uploaded st ∨ uploaded st' ≤ validated st')
   ∧ (validated st' = validated st ∨ validated st' ≤ extracted st')
   ∧ (extracted st' = extracted st ∨ extracted st' ≤ discovered st'))%nat
  ∧ ((s3' = s3
      ∧ ∀ b, o = Returned b →
          ∃ stx, _create_empty_batch lib config col "" stx = Returned b)
     ∨ ∃ batch batch' ores,
         pre_processing_safety_check lib validator batch = Returned (true, [])
         ∧ upload_batch lib batch s3 (upload_clock col) = (ores, s3', batch')
         ∧ o = Returned batch'
         ∧ batch_source batch = Some (mapped_source lib config)
         ∧ total_scraped batch = length (content_items batch)
         ∧ (length (content_items batch) ≤ total_discovered batch)%nat
         ∧ (length (content_items batch) ≤ max_articles)%nat
         ∧ (validation_required config = true →
            Forall validated_record (content_items batch))).
Proof.
  unfold scrape_try.
  destruct (discover_content_urls col) as [dr|e].
  2:{ split; [by repeat split; left|]. left. split; [done|]. by intros. }
  destruct (urls dr) as [|u us] eqn:Hurls.
  { cbn [length]. split; [by repeat split; left|]. left. split; [done|].
    intros b Hb. by eexists. }
  rewrite <- Hurls. clear u us Hurls.
  match goal with |- context [collect_results col ?t ?s] =>
    pose proof (collect_results_counters t s) as Hc;
    destruct (collect_results col t s) as [scraped st1] end.
  cbn [discovered extracted validated uploaded] in Hc.
  destruct Hc as (Hlen1 & Hd1 & He1 & Hv1 & Hu1).
  match goal with |- context [validate_loop lib config validator scraped ?s] =>
    pose proof (validate_loop_facts scraped s) as Hv;
    destruct (validate_loop lib config validator scraped s) as [[vs|e] st2] end.
  2:{ destruct Hv as [(Hd2 & _ & He2 & Hv2 & Hu2) _].
      cbn [discovered extracted validated uploaded fetched] in *.
      split.
      - split; [left; congruence|]. split; [left; congruence|]. right.
        rewrite He2, Hd2, Hd1. rewrite length_take in Hlen1. lia.
      - left. split; [done|]. by intros. }
  destruct Hv as [(Hd2 & _ & He2 & Hv2 & Hu2) Hvs].
  destruct (Hvs vs eq_refl) as [Hlen2 Hall].
  cbn [discovered extracted validated uploaded fetched] in *.
  rewrite length_take in Hlen1.
  match goal with |- context [pre_processing_safety_check lib validator ?b] =>
    set (batch := b) end.
  destruct (pre_processing_safety_check lib validator batch) as [[safe errs]|e] eqn:Hg.
  2:{ cbn [discovered extracted validated uploaded fetched].
      split.
      - split; [left; congruence|]. split; right; lia.
      - left. split; [done|]. by intros. }
  destruct safe; cbn [negb].
  2:{ cbn [discovered extracted validated uploaded fetched add_errors].
      split.
      - split; [left; congruence|]. split; right; lia.
      - left. split; [done|]. intros b Hb. by eexists. }
  destruct (gate_safe_no_errors _ _ Hg) as (-> & _).
  pose proof (upload_items_counts lib (content_items batch) 0 s3 (upload_clock col)) as Hup.
  destruct (upload_batch lib batch s3 (upload_clock col)) as [[[res|e] s3'] batch'] eqn:Hub.
  - split.
    + assert (successful_uploads res ≤ length vs)%nat as Hsucc.
      { unfold upload_batch in Hub. destruct (connect_fault s3); [done|].
        match type of Hub with context [upload_items lib 0 _ s3 _ ?r] =>
          specialize (Hup r);
          destruct (upload_items lib 0 (content_items batch) s3 (upload_clock col) r)
            as [[res0 s3a] items] end.
        cbn [successful_uploads failed_uploads] in Hup. destruct Hup as (Hsum & _).
        change (content_items batch) with vs in Hsum.
        destruct (_upload_batch_manifest _ _ _) as [[key|e] s3b];
          injection Hub as <- _ _; cbn [successful_uploads]; lia. }
      destruct (0 <? successful_uploads res)%nat;
        cbn [discovered extracted validated uploaded fetched add_errors];
        (split; [right; lia|]); split; right; lia.
    + right. exists batch, batch', (Returned res).
      repeat split; try done; cbn; lia.
  - split.
    + cbn [discovered extracted validated uploaded fetched add_errors].
      split; [left; congruence|]. split; right; lia.
    + right. exists batch, batch', (Raised e).
      repeat split; try done; cbn; lia.
Qed.
End RunFacts.

(** X20.  Looking a source up by its value gives the source back, and a
    lookup succeeds only for the value of the source it returns; no
    other spelling (capitals, a space for the underscore) is accepted. *)
Theorem source_value_round_trip (s : Source) (v : string) :
  Source_of_value (Source_value s) = Returned s
  ∧ (Source_of_value v = Returned s → v = Source_value s)
  ∧ (Source_of_value v = Raised (ValueError ("'" +:+ v +:+ "' is not a valid Source"))
     ∨ ∃ s', Source_of_value v = Returned s').
Proof.
  split; [by destruct s|]. split.
  - unfold Source_of_value, Source_members. cbn [find].
    repeat (destruct (String.eqb _ v) eqn:E;
            [apply String.eqb_eq in E; subst v; by intros [= <-] | clear E]).
    done.
  - unfold Source_of_value. destruct (find _ _); [right; by eexists | by left].
Qed.

Section RunTheorems.
Context (lib : PyLib) (config : ScraperConfig) (validator : ContentValidator)
  (col : Collaborators).

Lemma upload_batch_batch (batch batch' : ScrapingBatch) (s3 s3' : S3)
    (clock : nat → datetime) (o : outcome upload_results) :
  upload_batch lib batch s3 clock = (o, s3', batch') →
  Forall2 same_but_key (content_items batch) (content_items batch')
  ∧ batch_source batch' = batch_source batch
  ∧ total_scraped batch' = total_scraped batch
  ∧ total_discovered batch' = total_discovered batch.
Proof.
  unfold upload_batch. destruct (connect_fault s3).
  - intros [= _ _ <-]. split; [|done].
    apply Forall2_same_length_lookup_2; [done|].
    intros i x y Hx Hy. assert (x = y) as -> by congruence. apply same_but_key_refl.
  - match goal with |- context [upload_items lib 0 _ s3 clock ?r] =>
      pose proof (upload_items_counts lib (content_items batch) 0 s3 clock r) as H;
      destruct (upload_items lib 0 (content_items batch) s3 clock r) as [[res s3a] items]
    end.
    destruct H as (_ & _ & _ & _ & _ & _ & H).
    destruct (_upload_batch_manifest _ _ _) as [[key|e] s3b]; by intros [= _ _ <-].
Qed.

Lemma same_but_key_validated (c c' : ScrapedContent) :
  same_but_key c c' → validated_record c → validated_record c'.
Proof. intros [k ->]. by destruct c. Qed.

Lemma create_empty_batch_shape (reason : string) (st : Stats) (b : ScrapingBatch) :
  _create_empty_batch lib config col reason st = Returned b →
  content_items b = []
  ∧ total_scraped b = 0%nat
  ∧ ∃ s, Source_of_value (str_lower lib (source_name config)) = Returned s
         ∧ batch_source b = Some s.
Proof.
  unfold _create_empty_batch.
  destruct (Source_of_value _) as [s|]; [|done]. cbn. intros [= <-]. cbn. eauto.
Qed.

(** What a run of [scrape_articles] can come to. *)
Lemma scrape_articles_cases (max_articles : option nat) (st : Stats) (s3 : S3) :
  let '(o, st', s3') := scrape_articles lib config validator col max_articles st s3 in
  ((uploaded st' = uploaded st ∨ uploaded st' ≤ validated st')
   ∧ (validated st' = validated st ∨ validated st' ≤ extracted st')
   ∧ (extracted st' = extracted st ∨ extracted st' ≤ discovered st'))%nat
  ∧ ((s3' = s3
      ∧ ∀ b, o = Returned b →
          ∃ stx, _create_empty_batch lib config col "" stx = Returned b)
     ∨ ∃ batch batch' ores,
         pre_processing_safety_check lib validator batch = Returned (true, [])
         ∧ upload_batch lib batch s3 (upload_clock col) = (ores, s3', batch')
         ∧ o = Returned batch'
         ∧ batch_source batch = Some (mapped_source lib config)
         ∧ total_scraped batch = length (content_items batch)
         ∧ (length (content_items batch) ≤ total_discovered batch)%nat
         ∧ (validation_required config = true →
            Forall validated_record (content_items batch))).
Proof.
  unfold scrape_articles.
  match goal with |- context [scrape_try lib config validator col ?m st s3] =>
    pose proof (scrape_try_cases lib config validator col m st s3) as H;
    destruct (scrape_try lib config validator col m st s3) as [[[b|e] st'] s3'] end.
  - destruct H as [Hst [H | (batch & batch' & ores & H1 & H2 & H3 & H4 & H5 & H6 & _ & H8)]].
    + split; [done|]. by left.
    + split; [done|]. right. by exists batch, batch', ores.
  - destruct H as [Hst [[-> _] | (batch & batch' & ores & _ & _ & H3 & _)]]; [|done].
    split; [done|]. left. split; [done|]. intros b Hb. by eexists.
Qed.

(** X21.  A run changes the object store only by uploading a batch that
    the safety gate admitted without errors; in every other case
    (nothing discovered, an exception, a rejected batch) the store is
    left exactly as it was. *)
Theorem store_changes_only_after_safe_gate (max_articles : option nat) (st : Stats)
    (s3 : S3) :
  let '(o, st', s3') := scrape_articles lib config validator col max_articles st s3 in
  s3' = s3
  ∨ ∃ batch batch' ores,
      pre_processing_safety_check lib validator batch = Returned (true, [])
      ∧ upload_batch lib batch s3 (upload_clock col) = (ores, s3', batch')
      ∧ o = Returned batch'.
Proof.
  pose proof (scrape_articles_cases max_articles st s3) as H.
  destruct (scrape_articles lib config validator col max_articles st s3) as [[o st'] s3'].
  destruct H as [_ [[-> _] | (batch & batch' & ores & H1 & H2 & H3 & _)]]; [by left|].
  right. by exists batch, batch', ores.
Qed.

(** X22.  With validation required, every record of a batch that a run
    returns passed validation with a score above one half, which the
    record carries as its confidence; the batch has at most 100
    records, no more than were discovered, and its count of scraped
    records is their number. *)
Theorem returned_batch_is_validated (max_articles : option nat) (st st' : Stats)
    (s3 s3' : S3) (b : ScrapingBatch) :
  validation_required config = true →
  scrape_articles lib config validator col max_articles st s3 = (Returned b, st', s3') →
  Forall validated_record (content_items b)
  ∧ (length (content_items b) ≤ 100)%nat
  ∧ (length (content_items b) ≤ total_discovered b)%nat
  ∧ total_scraped b = length (content_items b).
Proof.
  intros Hreq Hrun. pose proof (scrape_articles_cases max_articles st s3) as H.
  rewrite Hrun in H.
  destruct H as [_ [[_ H] | (batch & batch' & ores & H1 & H2 & [= <-] & _ & H5 & H6 & H8)]].
  - destruct (H b eq_refl) as [stx Hb].
    destruct (create_empty_batch_shape _ _ _ Hb) as (-> & -> & _).
    cbn. repeat split; try lia. constructor.
  - destruct (upload_batch_batch _ _ _ _ _ _ H2) as (Hitems & _ & Hts & Htd).
    destruct (gate_safe_no_errors lib validator _ _ H1) as (_ & _ & H100 & _).
    pose proof (Forall2_length _ _ _ Hitems) as Hlen.
    rewrite Hts, Htd, <- Hlen. repeat split; try done.
    specialize (H8 Hreq). clear -Hitems H8.
    induction Hitems as [|c c' l l' Hc _ IH]; [constructor|].
    apply Forall_cons in H8 as [Hv Hl].
    constructor; [by eapply same_but_key_validated | by apply IH].
Qed.

(** X23.  The source under which a returned batch is filed: an empty
    batch carries the source whose value is the lower-cased name of the
    scraper; a batch with records carries the entry of the source
    mapping for that name, or Pitchfork when the mapping has none.  The
    two agree only for pitchfork, npr and billboard: for every other
    name they differ. *)
Theorem returned_batch_source (max_articles : option nat) (st st' : Stats)
    (s3 s3' : S3) (b : ScrapingBatch) :
  scrape_articles lib config validator col max_articles st s3 = (Returned b, st', s3') →
  (content_items b = [] →
   ∃ s, Source_of_value (str_lower lib (source_name config)) = Returned s
        ∧ batch_source b = Some s)
  ∧ (content_items b ≠ [] → batch_source b = Some (mapped_source lib config))
  ∧ (∀ s, Source_of_value (str_lower lib (source_name config)) = Returned s →
          (mapped_source lib config = s ↔ s = PITCHFORK ∨ s = NPR ∨ s = BILLBOARD)).
Proof.
  intros Hrun. pose proof (scrape_articles_cases max_articles st s3) as H.
  rewrite Hrun in H.
  split; [|split].
  - intros Hnil.
    destruct H as [_ [[_ H] | (batch & batch' & ores & H1 & H2 & [= <-] & _)]].
    + destruct (H b eq_refl) as [stx Hb].
      by destruct (create_empty_batch_shape _ _ _ Hb) as (_ & _ & ?).
    + destruct (upload_batch_batch _ _ _ _ _ _ H2) as (Hitems & _).
      destruct (gate_safe_no_errors lib validator _ _ H1) as (_ & Hne & _).
      rewrite Hnil in Hitems. apply Forall2_nil_inv_r in Hitems. done.
  - intros Hne.
    destruct H as [_ [[_ H] | (batch & batch' & ores & H1 & H2 & [= <-] & H4 & _)]].
    + destruct (H b eq_refl) as [stx Hb].
      by destruct (create_empty_batch_shape _ _ _ Hb) as (? & _).
    + destruct (upload_batch_batch _ _ _ _ _ _ H2) as (_ & -> & _). done.
  - intros s Hs. unfold mapped_source.
    assert (str_lower lib (source_name config) = Source_value s) as ->.
    { revert Hs. unfold Source_of_value, Source_members. cbn [find].
      repeat (destruct (String.eqb _ (str_lower lib (source_name config))) eqn:E;
              [apply String.eqb_eq in E; rewrite <- E; by intros [= <-] | clear E]).
      done. }
    destruct s; cbn; split; try done; try (intros [|[|]]; done); eauto.
Qed.

(** X24.  After a run of a fresh scraper the counters are ordered:
    uploaded ≤ validated ≤ extracted ≤ discovered, whichever way the
    run ended; so the success, validation, upload and end-to-end rates
    of get_statistics lie between 0 and 1. *)
Theorem statistics_rates_within_unit (max_articles : option nat) (s3 : S3) :
  let '(o, st', s3') :=
    scrape_articles lib config validator col max_articles Stats__init__ s3 in
  let s := get_statistics st' in
  (uploaded st' ≤ validated st' ∧ validated st' ≤ extracted st'
   ∧ extracted st' ≤ discovered st')%nat
  ∧ (0 <= st_success_rate s)%Q ∧ (st_success_rate s <= 1)%Q
  ∧ (0 <= validation_rate s)%Q ∧ (validation_rate s <= 1)%Q
  ∧ (0 <= upload_rate s)%Q ∧ (upload_rate s <= 1)%Q
  ∧ (0 <= end_to_end_success s)%Q ∧ (end_to_end_success s <= 1)%Q.
Proof.
  pose proof (scrape_articles_cases max_articles Stats__init__ s3) as H.
  destruct (scrape_articles lib config validator col max_articles Stats__init__ s3)
    as [[o st'] s3'].
  destruct H as [(Hu & Hv & He) _]. cbn [uploaded validated extracted Stats__init__] in *.
  assert (uploaded st' ≤ validated st' ∧ validated st' ≤ extracted st'
          ∧ extracted st' ≤ discovered st')%nat as (H1 & H2 & H3) by lia.
  split; [done|]. cbn [get_statistics st_success_rate validation_rate upload_rate
                       end_to_end_success].
  destruct (rate_within_unit (validated st') (discovered st')) as [? ?]; [lia|].
  destruct (rate_within_unit (validated st') (extracted st')) as [? ?]; [lia|].
  destruct (rate_within_unit (uploaded st') (validated st')) as [? ?]; [lia|].
  destruct (rate_within_unit (uploaded st') (discovered st')) as [? ?]; [lia|].
  by repeat split.
Qed.
End RunTheorems.

(** ** One URL through the pipeline *)

Section ProcessUrlFacts.
Context (lib : PyLib) {World Soup : Type}.
Context (config : ScraperConfig) (fetcher : @EnhancedFetcher World) (doc : @Document Soup).

Lemma is_music_relevant_mentions (c : ScrapedContent) :
  _is_music_relevant lib c = (2 <=? music_mentions lib c)%nat.
Proof. reflexivity. Qed.

(** X25.  The relevance filter of the orchestrator and the relevance
    check of the validator count the same keywords in the same text:
    the filter accepts a record exactly when it has at least two
    mentions, so the validator never gives an accepted record the
    factor 0.5 of "no music keywords", and never gives a rejected
    record the full factor 1. *)
Theorem relevance_filter_matches_validator (c : ScrapedContent) :
  (_is_music_relevant lib c = true ↔ (2 ≤ music_mentions lib c)%nat)
  ∧ (_is_music_relevant lib c = true →
     (8 # 10 <= score (_validate_music_relevance lib c))%Q
     ∧ "No music-related keywords found" ∉ warnings (_validate_music_relevance lib c))
  ∧ (_is_music_relevant lib c = false →
     (score (_validate_music_relevance lib c) <= 8 # 10)%Q
     ∧ warnings (_validate_music_relevance lib c) ≠ []).
Proof.
  rewrite is_music_relevant_mentions. unfold _validate_music_relevance.
  split; [apply Nat.leb_le|]. split.
  - intros H%Nat.leb_le.
    destruct (Nat.eqb_spec (music_mentions lib c) 0); [lia|].
    destruct (music_mentions lib c <? 3)%nat; cbn [score warnings].
    + split; [done|]. intros [Heq | Hin%elem_of_nil]%elem_of_cons; done.
    + split; [done|]. by intros ?%elem_of_nil.
  - intros H%Nat.leb_gt.
    destruct (Nat.eqb_spec (music_mentions lib c) 0); [done|].
    destruct (Nat.ltb_spec (music_mentions lib c) 3); [done | lia].
Qed.


End ProcessUrlFacts.

(** ** The URL filters of the discovery *)

Section DiscoveryFacts.
Context (lib : PyLib).

(** X27.  The two URL filters of the pattern-based discovery keep their
    tables under different spellings of Rolling Stone (rolling_stone in
    one, "rolling stone" in the other).  For every other source name
    the filter of the search results accepts every address that the
    filter of the sitemaps accepts; and for a name in neither table
    the two filters are the same. *)
Theorem article_url_filters_nest (source_name url : string) :
  str_lower lib source_name ≠ "rolling_stone" →
  str_lower lib source_name ≠ "rolling stone" →
  (_is_article_url lib source_name url = true →
   _is_source_article_url lib source_name url = true)
  ∧ (str_lower lib source_name ∉ ["pitchfork"; "billboard"; "npr"] →
     _is_source_article_url lib source_name url = _is_article_url lib source_name url).
Proof.
  intros Hrs1 Hrs2. unfold _is_article_url, _is_source_article_url, table_get.
  unfold article_patterns, source_article_patterns, default_article_patterns.
  cbn [find fst snd].
  destruct (String.eqb_spec "pitchfork" (str_lower lib source_name)) as [Hp|Hp].
  { split; [done|]. rewrite <- Hp. intros Hn. exfalso. apply Hn. set_solver. }
  destruct (String.eqb_spec "rolling_stone" (str_lower lib source_name)) as [H1|_];
    [by rewrite <- H1 in Hrs1|].
  destruct (String.eqb_spec "rolling stone" (str_lower lib source_name)) as [H2|_];
    [by rewrite <- H2 in Hrs2|].
  destruct (String.eqb_spec "billboard" (str_lower lib source_name)) as [Hb|Hb].
  { split.
    - cbn [existsb snd].
      repeat match goal with |- context [str_in ?p ?u] => destruct (str_in p u) end; done.
    - rewrite <- Hb. intros Hn. exfalso. apply Hn. set_solver. }
  destruct (String.eqb_spec "npr" (str_lower lib source_name)) as [Hn|Hn].
  { split.
    - cbn [existsb snd].
      repeat match goal with |- context [str_in ?p ?u] => destruct (str_in p u) end; done.
    - rewrite <- Hn. intros Hn'. exfalso. apply Hn'. set_solver. }
  split; done.
Qed.
End DiscoveryFacts.

(** ** Further error behaviour *)

Section MoreErrorFacts.
Context (lib : PyLib) (self : ContentValidator).

(** X28.  Validation of a record returns a result exactly when the record
    has an attribution and a non-empty body and the URL parser accepts
    its address and that of the attribution; in every other case it
    raises (AttributeError, ZeroDivisionError, or the parser's
    ValueError) instead of reporting a failed validation. *)
Theorem validation_returns_iff (c : ScrapedContent) :
  returns (validate_scraped_content lib self c)
  ↔ ∃ a, source_attribution c = Some a
         ∧ content c ≠ ""
         ∧ (str_truthy (url c) = true → returns (urlparse lib (url c)))
         ∧ (str_truthy (sa_url a) = true → returns (urlparse lib (sa_url a))).
Proof.
  split.
  - intros [v Hv]. unfold validate_scraped_content in Hv.
    destruct (_validate_structure lib self c) as [sr|] eqn:Hs; [|done].
    cbn [mbind outcome_bind] in Hv.
    destruct (_validate_content_quality lib self c) as [q|] eqn:Hq; [|done].
    cbn [mbind outcome_bind] in Hv.
    destruct (_validate_source_attribution lib self (source_attribution c)) as [r|] eqn:Hr;
      [|done].
    unfold _validate_structure, to_v3_format in Hs.
    destruct (source_attribution c) as [a|] eqn:Ha; [|done].
    exists a. split; [done|]. split; [|split].
    + intros Hc. unfold _validate_content_quality in Hq. rewrite Hc in Hq.
      change (len "" =? 0)%Z with true in Hq. cbn iota in Hq.
      by destruct (first_suspicious lib self (str_lower lib "")).
    + intros Hu. cbn [mbind outcome_bind] in Hs. rewrite Hu in Hs.
      destruct (urlparse lib (url c)); [by eexists | done].
    + intros Hu. unfold _validate_source_attribution in Hr. rewrite Hu in Hr.
      destruct (urlparse lib (sa_url a)); [by eexists | done].
  - intros (a & Ha & Hc & Hu & Hau). by apply (validation_returns lib self c a).
Qed.
End MoreErrorFacts.

Section MoreUploadFacts.
Context (lib : PyLib).

(** X29.  Only the answer 404 of the existence check counts as "no such
    object".  When the check for the derived key of a record fails with
    another error code (a refused access, say), the upload of the
    record raises that error and writes nothing; upload_batch records
    it as the failure of that item. *)
Theorem existence_check_error_aborts_upload (c : ScrapedContent) (s3 : S3) (now : datetime)
    (code : string) :
  head_fault s3 (derived_key lib c) = Some code →
  code ≠ "404" →
  _key_exists (derived_key lib c) s3 = Raised (ClientError code)
  ∧ _upload_content_item lib c s3 now = (Raised (ClientError code), s3, c)
  ∧ ∀ i clock res,
      fst (fst (upload_items lib i [c] s3 clock res))
      = mk_upload_results (ur_batch_id res) (total_items res) (successful_uploads res)
          (failed_uploads res + 1) (uploaded_keys res)
          (ur_errors res ++ ["Item " +:+ pretty (i + 1)%nat +:+ ": "
                             +:+ exn_str (ClientError code)])
          (manifest_key res).
Proof.
  intros Hf Hcode.
  assert (_key_exists (derived_key lib c) s3 = Raised (ClientError code)) as Hk.
  { unfold _key_exists, head_object. rewrite Hf.
    destruct (String.eqb_spec code "404"); done. }
  assert (∀ now, _upload_content_item lib c s3 now = (Raised (ClientError code), s3, c))
    as Hup.
  { intros t. unfold _upload_content_item. by rewrite Hk. }
  split; [done|]. split; [done|].
  intros i clock res. cbn [upload_items]. by rewrite Hup.
Qed.

(** X30.  The manifest key that a batch records when it is built and the
    key under which the uploader writes the manifest are never the
    same: they name the same folder, but the file is batch-ID.json in
    the record and batch_ID.json in the store. *)
Theorem recorded_manifest_key_is_not_written (raw : ScrapingBatch) (res : upload_results)
    (s3 s3' : S3) (key : string) :
  opt_truthy (manifest_s3_key raw) = false →
  _upload_batch_manifest (ScrapingBatch__post_init__ raw) res s3 = (Returned key, s3') →
  ∃ folder,
    manifest_s3_key (ScrapingBatch__post_init__ raw)
    = Some (folder +:+ "/batch-" +:+ batch_id raw +:+ ".json")
    ∧ key = folder +:+ "/batch_" +:+ batch_id raw +:+ ".json"
    ∧ manifest_s3_key (ScrapingBatch__post_init__ raw) ≠ Some key
    ∧ objects s3' !! key = Some (ManifestBody (batch_id raw) (uploaded_keys res)).
Proof.
  intros Hk. unfold _upload_batch_manifest, ScrapingBatch__post_init__, put_object.
  rewrite Hk. cbn [negb created_at batch_source batch_id manifest_s3_key].
  set (source_name := match batch_source raw with Some s => Source_value s | None => _ end).
  destruct (put_fault s3 _); [done|]. intros [= <- <-].
  exists ("manifests/scraped/" +:+ source_name +:+ "/"
          +:+ strftime_Ymd_slash (created_at raw)).
  rewrite !append_assoc. split; [reflexivity|]. split; [reflexivity|]. split.
  - intros [= H]. do 4 apply append_inj_l in H. discriminate H.
  - cbn [objects with_objects]. by rewrite lookup_insert_eq.
Qed.
End MoreUploadFacts.

(** ** Runs of the further properties on the example records *)

Lemma attribution_check_only_rejects_urls_witness :
  ∃ r, _validate_source_attribution Demo.demo_lib ContentValidator__init__
         (source_attribution Examples.horses) = Returned r
       ∧ errors r = [] ∧ passed r = true.
Proof.
  destruct (_validate_source_attribution Demo.demo_lib ContentValidator__init__
              (source_attribution Examples.horses)) as [r|e] eqn:E.
  - exists r. split; [done|].
    destruct (attribution_check_only_rejects_urls Demo.demo_lib ContentValidator__init__
                _ r E) as [H | (He & _)]; [done|].
    vm_compute in E. injection E as <-. discriminate He.
  - vm_compute in E. discriminate E.
Defined.

Lemma score_capped_by_each_defect_witness :
  ∃ v, validate_scraped_content Demo.demo_lib ContentValidator__init__ Examples.blocked
       = Returned v
       ∧ applies Demo.demo_lib ContentValidator__init__ SuspiciousPattern Examples.blocked
         = true
       ∧ (0 <= score v)%Q ∧ (score v <= 2 # 10)%Q.
Proof.
  destruct (validate_scraped_content Demo.demo_lib ContentValidator__init__ Examples.blocked)
    as [v|e] eqn:E.
  - exists v. split; [done|].
    assert (applies Demo.demo_lib ContentValidator__init__ SuspiciousPattern Examples.blocked
            = true) as Hp by (vm_compute; reflexivity).
    split; [exact Hp|].
    exact (score_capped_by_each_defect Demo.demo_lib ContentValidator__init__
             Examples.blocked v SuspiciousPattern E Hp).
  - vm_compute in E. discriminate E.
Defined.

Lemma heavy_defect_never_passes_witness :
  ∃ v, validate_scraped_content Demo.demo_lib ContentValidator__init__ Examples.blocked
       = Returned v
       ∧ applies Demo.demo_lib ContentValidator__init__ ContentTooShort Examples.blocked
         = true
       ∧ passed v = false.
Proof.
  destruct (validate_scraped_content Demo.demo_lib ContentValidator__init__ Examples.blocked)
    as [v|e] eqn:E.
  - exists v. split; [done|].
    assert (applies Demo.demo_lib ContentValidator__init__ ContentTooShort Examples.blocked
            = true) as Hp by (vm_compute; reflexivity).
    split; [exact Hp|].
    refine (heavy_defect_never_passes Demo.demo_lib ContentValidator__init__
              Examples.blocked v ContentTooShort E Hp _).
    vm_compute. discriminate.
  - vm_compute in E. discriminate E.
Defined.

Lemma gate_raises_on_missing_attribution_witness :
  pre_processing_safety_check Demo.demo_lib ContentValidator__init__
    (Examples.batch_of [Examples.horses; MoreExamples.anonymous; Examples.dull])
  = Raised (AttributeError "'NoneType' object has no attribute 'source'").
Proof.
  refine (proj2 (proj2 (gate_raises_on_missing_attribution Demo.demo_lib
            ContentValidator__init__
            (Examples.batch_of [Examples.horses; MoreExamples.anonymous; Examples.dull])
            [Examples.horses] [Examples.dull] MoreExamples.anonymous eq_refl _ eq_refl))).
  constructor; [|constructor].
  destruct (validate_scraped_content Demo.demo_lib ContentValidator__init__ Examples.horses)
    as [v|e] eqn:E; [by exists v|].
  vm_compute in E. discriminate E.
Defined.

Lemma item_error_fails_batch_witness :
  ∃ b, validate_batch Demo.demo_lib ContentValidator__init__
         (Examples.batch_of [Examples.horses; Examples.horses_again; Examples.horses_third;
                             Examples.blocked]) = Returned b
       ∧ passed b = false.
Proof.
  destruct (validate_batch Demo.demo_lib ContentValidator__init__
              (Examples.batch_of [Examples.horses; Examples.horses_again;
                                  Examples.horses_third; Examples.blocked]))
    as [b|e] eqn:E.
  - exists b. split; [done|].
    destruct (validate_scraped_content Demo.demo_lib ContentValidator__init__
                Examples.blocked) as [r|e] eqn:Er.
    + refine (proj1 (item_error_fails_batch Demo.demo_lib ContentValidator__init__
                       _ Examples.blocked r b _ Er _ E)).
      * change (Examples.blocked ∈ [Examples.horses; Examples.horses_again;
                                    Examples.horses_third; Examples.blocked]).
        do 3 apply list_elem_of_further. apply list_elem_of_here.
      * vm_compute in Er. injection Er as <-. discriminate.
    + vm_compute in Er. discriminate Er.
  - vm_compute in E. discriminate E.
Defined.

Lemma gate_safe_iff_witness :
  ∃ b, validate_batch Demo.demo_lib ContentValidator__init__
         (Examples.batch_of [Examples.horses]) = Returned b
       ∧ ∃ safe errs,
           pre_processing_safety_check Demo.demo_lib ContentValidator__init__
             (Examples.batch_of [Examples.horses]) = Returned (safe, errs)
           ∧ (safe = true ↔ errs = [])
           ∧ (safe = true
              ↔ passed b = true
                ∧ (length (content_items (Examples.batch_of [Examples.horses])) ≤ 100)%nat
                ∧ (size (batch_sources (Examples.batch_of [Examples.horses])) ≤ 1)%nat).
Proof.
  destruct (validate_batch Demo.demo_lib ContentValidator__init__
              (Examples.batch_of [Examples.horses])) as [b|e] eqn:E.
  - exists b. split; [done|].
    exact (gate_safe_iff Demo.demo_lib ContentValidator__init__ _ b E).
  - vm_compute in E. discriminate E.
Defined.

Lemma rate_limit_spaces_requests_witness :
  (fst (_respect_rate_limit MoreExamples.exact_sleep 2 10 (101 # 10)) == 21 # 2)%Q
  ∧ (10 + 1 / 2 <= fst (_respect_rate_limit MoreExamples.exact_sleep 2 10 (101 # 10)))%Q.
Proof.
  split; [vm_compute; reflexivity|].
  pose proof (rate_limit_spaces_requests MoreExamples.exact_sleep 2 10 (101 # 10)) as H.
  destruct (_respect_rate_limit MoreExamples.exact_sleep 2 10 (101 # 10)) as [last' t'].
  destruct H as [H _].
  - intros d t0 _. unfold MoreExamples.exact_sleep. apply Qle_refl.
  - destruct H as (_ & _ & H & _); [reflexivity | exact H].
Defined.

Lemma upload_keeps_colliding_object_witness :
  let s3 := Examples.store_of {[ Examples.horses_stem +:+ ".json" := Examples.earlier_upload ]} in
  objects (snd (fst (_upload_content_item Demo.demo_lib Examples.horses s3 Examples.jan15)))
    !! derived_key Demo.demo_lib Examples.horses
  = Some Examples.earlier_upload.
Proof.
  intros s3.
  apply (upload_keeps_colliding_object Demo.demo_lib Examples.horses s3 Examples.jan15).
  - by repeat split.
  - vm_compute. reflexivity.
Defined.

Lemma upload_then_lookup_witness :
  ∃ data,
    upload_data Demo.demo_lib Examples.horses Examples.jan15 = Returned data
    ∧ objects (snd (fst (_upload_content_item Demo.demo_lib Examples.horses
                           (Examples.store_of ∅) Examples.jan15)))
        !! (Examples.horses_stem +:+ ".json")
      = Some (ContentBody data).
Proof.
  destruct (upload_then_lookup Demo.demo_lib Examples.horses
              (Examples.attribution_of "Pitchfork" "Patti Smith: Horses at 47"
                 "https://pitchfork.com/reviews/albums/patti-smith-horses/")
              (Examples.store_of ∅) Examples.jan15)
    as (key & data & Hup & Hdata & Hlook & _ & _ & Hfree).
  - by repeat split.
  - reflexivity.
  - intros data _. by eexists.
  - exists data. split; [done|].
    rewrite (Hfree (lookup_empty _)) in Hlook.
    replace (Examples.horses_stem +:+ ".json") with (derived_key Demo.demo_lib Examples.horses)
      by (vm_compute; reflexivity).
    exact Hlook.
Defined.

Lemma upload_statistics_consistent_witness :
  ∃ res s3' batch',
    upload_batch Demo.demo_lib
      (Examples.batch_of [Examples.horses; Examples.horses_again; Examples.horses_third])
      (Examples.store_of ∅) (λ _, Examples.jan15) = (Returned res, s3', batch')
    ∧ (us_success_rate (get_upload_statistics "unitedtribes-content" res) <= 1)%Q
    ∧ s3_keys_created (get_upload_statistics "unitedtribes-content" res) = 3%nat.
Proof.
  destruct (upload_batch Demo.demo_lib
              (Examples.batch_of [Examples.horses; Examples.horses_again;
                                  Examples.horses_third])
              (Examples.store_of ∅) (λ _, Examples.jan15)) as [[[res|e] s3'] batch'] eqn:E.
  - exists res, s3', batch'. split; [done|].
    destruct (upload_statistics_consistent Demo.demo_lib _ _ _ _ _ _
                "unitedtribes-content" E) as (_ & H1 & _ & H3 & _ & H5).
    split; [exact H1|].
    rewrite H3. cbn [get_upload_statistics us_successful_uploads].
    apply (f_equal (λ r, successful_uploads <$> (match fst (fst r) with
                                                 | Returned x => Some x
                                                 | Raised _ => None
                                                 end))) in E.
    vm_compute in E. injection E as E. symmetry. exact E.
  - apply (f_equal (λ r, match fst (fst r) with Returned _ => true | Raised _ => false end))
      in E.
    vm_compute in E. discriminate E.
Defined.

Lemma returned_batch_is_validated_witness :
  ∃ b st' s3',
    scrape_articles Demo.demo_lib MoreExamples.pitchfork_config ContentValidator__init__
      MoreExamples.two_discovered None Stats__init__ (Examples.store_of ∅)
    = (Returned b, st', s3')
    ∧ length (content_items b) = 1%nat
    ∧ Forall validated_record (content_items b).
Proof.
  destruct (scrape_articles Demo.demo_lib MoreExamples.pitchfork_config
              ContentValidator__init__ MoreExamples.two_discovered None Stats__init__
              (Examples.store_of ∅)) as [[[b|e] st'] s3'] eqn:E.
  - exists b, st', s3'. split; [done|]. split.
    + apply (f_equal (λ r, match fst (fst r) with
                           | Returned x => length (content_items x)
                           | Raised _ => 0%nat
                           end)) in E.
      vm_compute in E. symmetry. exact E.
    + exact (proj1 (returned_batch_is_validated Demo.demo_lib MoreExamples.pitchfork_config
               ContentValidator__init__ MoreExamples.two_discovered None Stats__init__ st'
               (Examples.store_of ∅) s3' b eq_refl E)).
  - apply (f_equal (λ r, match fst (fst r) with Returned _ => true | Raised _ => false end))
      in E.
    vm_compute in E. discriminate E.
Defined.

Lemma returned_batch_source_witness :
  ∃ b st' s3',
    scrape_articles Demo.demo_lib MoreExamples.pitchfork_config ContentValidator__init__
      MoreExamples.two_discovered None Stats__init__ (Examples.store_of ∅)
    = (Returned b, st', s3')
    ∧ content_items b ≠ []
    ∧ batch_source b = Some PITCHFORK.
Proof.
  destruct (scrape_articles Demo.demo_lib MoreExamples.pitchfork_config
              ContentValidator__init__ MoreExamples.two_discovered None Stats__init__
              (Examples.store_of ∅)) as [[[b|e] st'] s3'] eqn:E.
  - exists b, st', s3'. split; [done|].
    assert (content_items b ≠ []) as Hne.
    { apply (f_equal (λ r, match fst (fst r) with
                           | Returned x => length (content_items x)
                           | Raised _ => 0%nat
                           end)) in E.
      vm_compute in E.
      assert (length (content_items b) = 1%nat) as Hlen by (symmetry; exact E).
      intros Hnil. rewrite Hnil in Hlen. discriminate Hlen. }
    split; [exact Hne|].
    destruct (returned_batch_source Demo.demo_lib MoreExamples.pitchfork_config
                ContentValidator__init__ MoreExamples.two_discovered None Stats__init__ st'
                (Examples.store_of ∅) s3' b E) as (_ & H & _).
    rewrite (H Hne). reflexivity.
  - apply (f_equal (λ r, match fst (fst r) with Returned _ => true | Raised _ => false end))
      in E.
    vm_compute in E. discriminate E.
Defined.

Lemma article_url_filters_nest_witness :
  _is_article_url Demo.demo_lib "NPR" "https://www.npr.org/sections/music/2024/01/15/live"
  = true
  ∧ _is_source_article_url Demo.demo_lib "NPR"
      "https://www.npr.org/sections/music/2024/01/15/live" = true.
Proof.
  assert (_is_article_url Demo.demo_lib "NPR"
            "https://www.npr.org/sections/music/2024/01/15/live" = true) as H
    by (vm_compute; reflexivity).
  split; [exact H|].
  refine (proj1 (article_url_filters_nest Demo.demo_lib "NPR"
                   "https://www.npr.org/sections/music/2024/01/15/live" _ _) H).
  - vm_compute. discriminate.
  - vm_compute. discriminate.
Defined.

Lemma existence_check_error_aborts_upload_witness :
  let s3 := {| objects := ∅; connect_fault := None;
               head_fault := λ _, Some "403"; put_fault := λ _, None |} in
  _upload_content_item Demo.demo_lib Examples.horses s3 Examples.jan15
  = (Raised (ClientError "403"), s3, Examples.horses).
Proof.
  intros s3.
  refine (proj1 (proj2 (existence_check_error_aborts_upload Demo.demo_lib Examples.horses
                          s3 Examples.jan15 "403" eq_refl _))).
  discriminate.
Defined.

Lemma recorded_manifest_key_is_not_written_witness :
  let raw := {| batch_id := "01HM5TBATCH000000000000000"; batch_source := Some PITCHFORK;
                content_items := [Examples.horses]; created_at := Examples.jan15;
                total_discovered := 1; total_scraped := 0; success_rate := 0;
                manifest_s3_key := None |} in
  let res := {| ur_batch_id := "01HM5TBATCH000000000000000"; total_items := 1;
                successful_uploads := 1; failed_uploads := 0;
                uploaded_keys := [Examples.horses_stem +:+ ".json"]; ur_errors := [];
                manifest_key := None |} in
  manifest_s3_key (ScrapingBatch__post_init__ raw)
  = Some "manifests/scraped/pitchfork/2024/01/15/batch-01HM5TBATCH000000000000000.json"
  ∧ fst (_upload_batch_manifest (ScrapingBatch__post_init__ raw) res (Examples.store_of ∅))
    = Returned "manifests/scraped/pitchfork/2024/01/15/batch_01HM5TBATCH000000000000000.json"
  ∧ manifest_s3_key (ScrapingBatch__post_init__ raw)
    ≠ Some "manifests/scraped/pitchfork/2024/01/15/batch_01HM5TBATCH000000000000000.json".
Proof.
  intros raw res.
  split; [vm_compute; reflexivity|]. split; [vm_compute; reflexivity|].
  destruct (_upload_batch_manifest (ScrapingBatch__post_init__ raw) res (Examples.store_of ∅))
    as [[key|e] s3'] eqn:E.
  - destruct (recorded_manifest_key_is_not_written raw res (Examples.store_of ∅) s3' key
                eq_refl E) as (folder & _ & _ & Hne & _).
    assert (key = "manifests/scraped/pitchfork/2024/01/15/batch_01HM5TBATCH000000000000000.json")
      as <-; [|exact Hne].
    apply (f_equal (λ r, match fst r with Returned k => k | Raised _ => "" end)) in E.
    vm_compute in E. symmetry. exact E.
  - apply (f_equal (λ r, match fst r with Returned _ => true | Raised _ => false end)) in E.
    vm_compute in E. discriminate E.
Defined.
